(** * Chapter-content normalizer ([formatChapterContent]) of the chapter preview page.

    The development embeds the TypeScript function [formatChapterContent]
    (ChapterPreview component) as Rocq functions and proves properties of it.

    Conventions of the embedding.
    - A JavaScript string is a sequence of UTF-16 code units.  It is modelled by
      [string]; every [ascii] stands for the code unit with the same number, so
      the model covers the code units U+0000 .. U+00FF.
    - The regular expressions of the source are written as terms of [Regex.re]
      and run by a backtracking matcher that follows the ECMAScript priorities
      (greedy and lazy quantifiers, ordered alternation, look-ahead, anchors).
    - The browser objects the function calls ([DOMParser], [innerHTML]) are not
      code of the repository; they are the two fields of [Dom.DomEnv].  The tree
      operations the function performs on the parsed document are modelled on
      the inductive type [Dom.node].
    - In [Normalizer] a call into the browser that throws is the answer [None]
      of the parser.  [Exceptions] gives the function with the results of the
      browser calls returned or thrown and with [try] and [catch] written
      out. *)

From Stdlib Require Import Ascii String List Bool Arith Lia NArith.
From Stdlib Require DecimalString DecimalNat DecimalN.
Import ListNotations.
Open Scope list_scope.
Open Scope string_scope.

(** ** Code units and character classes *)

Module Chars.

Definition code (c : ascii) : nat := nat_of_ascii c.

Definition inRange (lo hi : nat) (c : ascii) : bool :=
  Nat.leb lo (code c) && Nat.leb (code c) hi.

Definition isChar (d : ascii) (c : ascii) : bool := Ascii.eqb c d.

(** [\s], also the set removed by [trim]: TAB, LF, VT, FF, CR, SPACE, NBSP. *)
Definition isSpace (c : ascii) : bool :=
  inRange 9 13 c || Nat.eqb (code c) 32 || Nat.eqb (code c) 160.

(** Line terminators, the characters [.] does not match: LF and CR. *)
Definition isLineTerminator (c : ascii) : bool :=
  Nat.eqb (code c) 10 || Nat.eqb (code c) 13.

(** [.] *)
Definition anyChar (c : ascii) : bool := negb (isLineTerminator c).

(** [\d] *)
Definition isDigit (c : ascii) : bool := inRange 48 57 c.

(** [[A-Z]] *)
Definition isUpper (c : ascii) : bool := inRange 65 90 c.

Definition isLower (c : ascii) : bool := inRange 97 122 c.

(** [\w], used by [\b] *)
Definition isWord (c : ascii) : bool :=
  isUpper c || isLower c || isDigit c || Nat.eqb (code c) 95.

(** [[.!?]] *)
Definition isTerminator (c : ascii) : bool :=
  isChar "."%char c || isChar "!"%char c || isChar "?"%char c.

(** [toLowerCase] on one code unit of the Latin-1 range: A-Z and the
    accented capitals U+00C0 .. U+00DE except the multiplication sign. *)
Definition lower (c : ascii) : ascii :=
  if isUpper c || (inRange 192 222 c && negb (Nat.eqb (code c) 215))
  then ascii_of_nat (code c + 32) else c.

(** ASCII upper-casing, as used by [Element.tagName]. *)
Definition upperAscii (c : ascii) : ascii :=
  if isLower c then ascii_of_nat (code c - 32) else c.

(** A literal letter under the [i] flag. *)
Definition ci (d : ascii) (c : ascii) : bool := Ascii.eqb (lower c) (lower d).

End Chars.

(** ** Regular expressions *)

Module Regex.
Import Chars.

Inductive re : Type :=
| Eps
| Chr (p : ascii -> bool)          (* one character of a class *)
| Seq (r1 r2 : re)
| Alt (r1 r2 : re)                 (* r1|r2, r1 tried first *)
| Star (greedy : bool) (r : re)    (* r* and r*? *)
| Cap (r : re)                     (* capture group 1 *)
| Look (r : re)                    (* (?=r) *)
| Bol                              (* ^ without the m flag *)
| Eol                              (* $ without the m flag *)
| WordB.                           (* \b *)

Definition Plus (g : bool) (r : re) : re := Seq r (Star g r).
Definition Opt (r : re) : re := Alt r Eps.

(** A literal word, case-insensitive or not. *)
Fixpoint Lit (i : bool) (s : string) : re :=
  match s with
  | EmptyString => Eps
  | String c s' => Seq (Chr (if i then ci c else isChar c)) (Lit i s')
  end.

(** Matcher state: the character before the current position (none at index
    0), the input still to read, and capture group 1. *)
Record mstate : Type := MState {
  prev : option ascii;
  rest : string;
  cap : option string
}.

Definition wordBefore (st : mstate) : bool :=
  match prev st with Some c => isWord c | None => false end.

Definition wordAfter (st : mstate) : bool :=
  match rest st with String c _ => isWord c | EmptyString => false end.

(** The text consumed between two states of one match. *)
Definition consumed (st st' : mstate) : string :=
  substring 0 (String.length (rest st) - String.length (rest st')) (rest st).

(** The iterations of a star whose body is matched by [body]: a greedy star
    tries one more iteration before the continuation, a lazy star the
    continuation first.  An iteration that consumes nothing is rejected, as
    in ECMAScript, so there are never more iterations than characters left. *)
Fixpoint starLoop (body : mstate -> (mstate -> option mstate) -> option mstate)
    (g : bool) (k : mstate -> option mstate) (n : nat) (st0 : mstate)
    {struct n} : option mstate :=
  match n with
  | O => k st0
  | S n' =>
      let again :=
        body st0 (fun st1 =>
          if Nat.ltb (String.length (rest st1)) (String.length (rest st0))
          then starLoop body g k n' st1 else None) in
      if g then
        match again with Some a => Some a | None => k st0 end
      else
        match k st0 with Some a => Some a | None => again end
  end.

(** Backtracking matcher in continuation-passing style.  [fuel] bounds the
    iterations of a star; [S (length input)] is never exceeded. *)
Fixpoint run (r : re) (fuel : nat) (st : mstate)
    (k : mstate -> option mstate) {struct r} : option mstate :=
  match r with
  | Eps => k st
  | Chr p =>
      match rest st with
      | String c s' => if p c then k (MState (Some c) s' (cap st)) else None
      | EmptyString => None
      end
  | Seq r1 r2 => run r1 fuel st (fun st1 => run r2 fuel st1 k)
  | Alt r1 r2 =>
      match run r1 fuel st k with
      | Some a => Some a
      | None => run r2 fuel st k
      end
  | Star g r1 => starLoop (run r1 fuel) g k fuel st
  | Cap r1 =>
      run r1 fuel st (fun st1 =>
        k (MState (prev st1) (rest st1) (Some (consumed st st1))))
  | Look r1 =>
      match run r1 fuel st Some with
      | Some _ => k st
      | None => None
      end
  | Bol => match prev st with None => k st | Some _ => None end
  | Eol => match rest st with EmptyString => k st | String _ _ => None end
  | WordB => if xorb (wordBefore st) (wordAfter st) then k st else None
  end.

(** One match: the matched text, capture group 1 and the input after it. *)
Record hit : Type := Hit {
  matched : string;
  group1 : option string;
  after : string;
  lastChar : option ascii
}.

(** Match at the current position only. *)
Definition matchAt (r : re) (p : option ascii) (s : string) : option hit :=
  let st := MState p s None in
  match run r (S (String.length s)) st Some with
  | Some st' => Some (Hit (consumed st st') (cap st') (rest st') (prev st'))
  | None => None
  end.

(** Leftmost match at or after the current position, with the skipped text. *)
Fixpoint search (r : re) (p : option ascii) (s : string) : option (string * hit) :=
  match matchAt r p s with
  | Some h => Some (EmptyString, h)
  | None =>
      match s with
      | EmptyString => None
      | String c s' =>
          match search r (Some c) s' with
          | Some (skipped, h) => Some (String c skipped, h)
          | None => None
          end
      end
  end.

(** [re.test(s)] *)
Definition test (r : re) (s : string) : bool :=
  match search r None s with Some _ => true | None => false end.

(** [re.exec(s)] for a regular expression without the g flag. *)
Definition exec (r : re) (s : string) : option hit :=
  match search r None s with Some (_, h) => Some h | None => None end.

(** [s.replace(re, f)] without the g flag: only the first match. *)
Definition replaceFirst (r : re) (f : hit -> string) (s : string) : string :=
  match search r None s with
  | Some (skipped, h) => skipped ++ f h ++ after h
  | None => s
  end.

(** [s.replace(re, f)] with the g flag.  After an empty match the scan copies
    one character and moves on. *)
Fixpoint replaceAllFrom (fuel : nat) (r : re) (f : hit -> string)
    (p : option ascii) (s : string) : string :=
  match fuel with
  | O => s
  | S fuel' =>
      match search r p s with
      | None => s
      | Some (skipped, h) =>
          skipped ++ f h ++
          match matched h with
          | EmptyString =>
              match after h with
              | EmptyString => EmptyString
              | String c s' => String c (replaceAllFrom fuel' r f (Some c) s')
              end
          | String _ _ => replaceAllFrom fuel' r f (lastChar h) (after h)
          end
      end
  end.

Definition replaceAll (r : re) (f : hit -> string) (s : string) : string :=
  replaceAllFrom (S (String.length s)) r f None s.

(** [s.match(re)] with the g flag: all matched texts; the empty list stands
    for [null]. *)
Fixpoint matchAllFrom (fuel : nat) (r : re) (p : option ascii) (s : string)
    : list string :=
  match fuel with
  | O => []
  | S fuel' =>
      match search r p s with
      | None => []
      | Some (_, h) =>
          matched h ::
          match matched h with
          | EmptyString =>
              match after h with
              | EmptyString => []
              | String c s' => matchAllFrom fuel' r (Some c) s'
              end
          | String _ _ => matchAllFrom fuel' r (lastChar h) (after h)
          end
      end
  end.

Definition matchAll (r : re) (s : string) : list string :=
  matchAllFrom (S (String.length s)) r None s.

(** [s.split(re)] for a regular expression without capture groups whose
    matches are never empty: the pieces between the matches. *)
Fixpoint splitFrom (fuel : nat) (r : re) (p : option ascii) (s : string)
    : list string :=
  match fuel with
  | O => [s]
  | S fuel' =>
      match search r p s with
      | None => [s]
      | Some (skipped, h) =>
          match matched h with
          | EmptyString => [s]
          | String _ _ => skipped :: splitFrom fuel' r (lastChar h) (after h)
          end
      end
  end.

Definition split (r : re) (s : string) : list string :=
  splitFrom (S (String.length s)) r None s.

End Regex.

(** ** String methods of JavaScript used by the normalizer *)

Module JS.
Import Chars.

Fixpoint mapChars (f : ascii -> ascii) (s : string) : string :=
  match s with
  | EmptyString => EmptyString
  | String c s' => String (f c) (mapChars f s')
  end.

Definition toLowerCase (s : string) : string := mapChars lower s.

Definition toUpperCaseAscii (s : string) : string := mapChars upperAscii s.

Fixpoint trimStart (s : string) : string :=
  match s with
  | EmptyString => EmptyString
  | String c s' => if isSpace c then trimStart s' else s
  end.

Fixpoint trimEnd (s : string) : string :=
  match s with
  | EmptyString => EmptyString
  | String c s' =>
      match trimEnd s' with
      | EmptyString => if isSpace c then EmptyString else String c EmptyString
      | t => String c t
      end
  end.

Definition trim (s : string) : string := trimEnd (trimStart s).

(** [s.startsWith(needle)] *)
Fixpoint startsWith (needle s : string) {struct needle} : bool :=
  match needle with
  | EmptyString => true
  | String a needle' =>
      match s with
      | EmptyString => false
      | String b s' => Ascii.eqb a b && startsWith needle' s'
      end
  end.

(** [s.includes(needle)] *)
Fixpoint includes (needle s : string) : bool :=
  startsWith needle s ||
  match s with
  | EmptyString => false
  | String _ s' => includes needle s'
  end.

(** [arr.join(sep)] *)
Fixpoint join (sep : string) (l : list string) : string :=
  match l with
  | [] => EmptyString
  | [x] => x
  | x :: t => x ++ sep ++ join sep t
  end.

(** [s.replace(/c/g, rep)] for a one-character pattern. *)
Fixpoint replaceChar (c : ascii) (rep : string) (s : string) : string :=
  match s with
  | EmptyString => EmptyString
  | String d s' =>
      if Ascii.eqb d c then rep ++ replaceChar c rep s'
      else String d (replaceChar c rep s')
  end.

(** JavaScript truthiness of a string. *)
Definition truthy (s : string) : bool :=
  match s with EmptyString => false | String _ _ => true end.

(** Truthiness of an optional string argument ([undefined] is falsy). *)
Definition truthyOpt (o : option string) : bool :=
  match o with Some s => truthy s | None => false end.

End JS.

(** ** The regular expressions of the source *)

Module Patterns.
Import Chars Regex.

Definition SeqL (l : list re) : re := fold_right Seq Eps l.

Definition LF : ascii := ascii_of_nat 10.
Definition CR : ascii := ascii_of_nat 13.
Definition ws : re := Chr isSpace.
Definition digit : re := Chr isDigit.
Definition dot : re := Chr anyChar.
Definition lt : re := Chr (isChar "<"%char).
Definition gt : re := Chr (isChar ">"%char).
Definition slash : re := Chr (isChar "/"%char).
Definition notGt : re := Chr (fun c => negb (isChar ">"%char c)).
(** [h[1-6]] under the i flag *)
Definition hN : re := Seq (Chr (ci "h"%char)) (Chr (inRange 49 54)).

(** [/<h[1-6][\s>]/i] *)
Definition reHtmlHeading : re :=
  SeqL [lt; hN; Chr (fun c => isSpace c || isChar ">"%char c)].

(** [/\s+/g] *)
Definition reSpaces : re := Plus true ws.

(** [/^chapter\s*\d+\s*:\s*/i] *)
Definition reChapterPrefix : re :=
  SeqL [Bol; Lit true "chapter"; Star true ws; Plus true digit; Star true ws;
        Chr (isChar ":"%char); Star true ws].

(** [/[^.!?]+[.!?]+(?=\s|$)/g] *)
Definition reSentence : re :=
  SeqL [Plus true (Chr (fun c => negb (isTerminator c)));
        Plus true (Chr isTerminator);
        Look (Alt ws Eol)].

(** [/\*\*(.+?)\*\*/g] *)
Definition reBold : re := SeqL [Lit false "**"; Cap (Plus false dot); Lit false "**"].

(** [/\r?\n/] *)
Definition reLineBreak : re := SeqL [Opt (Chr (isChar CR)); Chr (isChar LF)].

(** [/^\d+(\.\d+)+\s+.+/]; the group is never read, so it is not captured. *)
Definition reNumbered : re :=
  SeqL [Bol; Plus true digit;
        Plus true (Seq (Chr (isChar "."%char)) (Plus true digit));
        Plus true ws; Plus true dot].

(** [/^[-*]\s+(.+)$/] *)
Definition reBullet : re :=
  SeqL [Bol; Chr (fun c => isChar "-"%char c || isChar "*"%char c);
        Plus true ws; Cap (Plus true dot); Eol].

(** [/[.!?]$/] *)
Definition reEndsSentence : re := SeqL [Chr isTerminator; Eol].

(** [/^[A-Z]/] *)
Definition reStartsUpper : re := SeqL [Bol; Chr isUpper].

(** [/\r\n/g] *)
Definition reCrLf : re := SeqL [Chr (isChar CR); Chr (isChar LF)].

(** [/<\s*br\s*\/?>/gi] *)
Definition reBr : re :=
  SeqL [lt; Star true ws; Lit true "br"; Star true ws; Opt slash; gt].

(** [/<\s*NAME\b[^>]*>/gi] for NAME among h2, h3, p, ul *)
Definition reOpenTagOf (name : string) : re :=
  SeqL [lt; Star true ws; Lit true name; WordB; Star true notGt; gt].

(** [/<\s*(NAME[^>]* )>/gi] for NAME among p, ul, li (no space in the source) *)
Definition reOpenTagCap (name : string) : re :=
  SeqL [lt; Star true ws; Cap (Seq (Lit true name) (Star true notGt)); gt].

(** [/<\s*(h[1-6][^>]* )>/gi] (no space in the source) *)
Definition reOpenHeadingCap : re :=
  SeqL [lt; Star true ws; Cap (Seq hN (Star true notGt)); gt].

(** [/<\s*\/(NAME)\s*>/gi] for NAME among p, ul, li *)
Definition reCloseTagCap (name : string) : re :=
  SeqL [lt; Star true ws; slash; Cap (Lit true name); Star true ws; gt].

(** [/<\s*\/(h[1-6])\s*>/gi] *)
Definition reCloseHeadingCap : re :=
  SeqL [lt; Star true ws; slash; Cap hN; Star true ws; gt].

(** [/^<\/?(h[1-6]|ul|li|p)\b/i] *)
Definition reBlockTagLine : re :=
  SeqL [Bol; lt; Opt slash;
        Cap (Alt hN (Alt (Lit true "ul") (Alt (Lit true "li") (Lit true "p"))));
        WordB].

(** [/^<h[1-6]\b/i] *)
Definition reHeadingOpenLine : re := SeqL [Bol; lt; hN; WordB].

(** [/^<\/h[1-6]>/i] *)
Definition reHeadingCloseLine : re := SeqL [Bol; lt; slash; hN; gt].

(** [/\n/] *)
Definition reNewline : re := Chr (isChar LF).

End Patterns.

(** ** The document tree *)

Module Dom.
Import Chars JS.

(** Child nodes of an HTML document: text, comments and HTML elements.  An
    element has its local name in lower case, its attributes in order, and
    its children. *)
#[warnings="-register-all"] Inductive node : Type :=
| Text (data : string)
| Comment (data : string)
| Elem (tag : string) (attrs : list (string * string)) (children : list node).

(** The environment of the browser: [parseBody s] is the list of child nodes
    of [new DOMParser().parseFromString(s, 'text/html').body], or [None] when
    [DOMParser] is missing or throws; [innerHTML] serializes child nodes. *)
Record DomEnv : Type := {
  parseBody : string -> option (list node);
  innerHTML : list node -> string
}.

(** An environment without [DOMParser] (rendering outside a browser). *)
Definition noDomParser (ser : list node -> string) : DomEnv :=
  {| parseBody := fun _ => None; innerHTML := ser |}.

Definition isElement (n : node) : bool :=
  match n with Elem _ _ _ => true | _ => false end.

Definition isText (n : node) : bool :=
  match n with Text _ => true | _ => false end.

(** [node.textContent]: the data of the text descendants in document order. *)
Fixpoint textContent (n : node) : string :=
  match n with
  | Text d => d
  | Comment _ => EmptyString
  | Elem _ _ ch => String.concat EmptyString (map textContent ch)
  end.

(** [el.tagName] *)
Definition tagName (tag : string) : string := toUpperCaseAscii tag.

(** [parent.firstElementChild] *)
Fixpoint firstElementChild (ns : list node) : option node :=
  match ns with
  | [] => None
  | Elem t a c :: _ => Some (Elem t a c)
  | _ :: rest => firstElementChild rest
  end.

(** [parent.removeChild(parent.firstElementChild)] *)
Fixpoint removeFirstElement (ns : list node) : list node :=
  match ns with
  | [] => []
  | Elem _ _ _ :: rest => rest
  | n :: rest => n :: removeFirstElement rest
  end.

(** [el.setAttribute(name, value)]: replaces the value in place or appends. *)
Fixpoint setAttribute (name value : string) (attrs : list (string * string))
    : list (string * string) :=
  match attrs with
  | [] => [(name, value)]
  | (n, v) :: rest =>
      if String.eqb n name then (n, value) :: rest
      else (n, v) :: setAttribute name value rest
  end.

(** [body.querySelectorAll(tag).forEach(el => el.setAttribute('style', v))] *)
Fixpoint styleTag (tag style : string) (n : node) : node :=
  match n with
  | Elem t a ch =>
      Elem t (if String.eqb t tag then setAttribute "style" style a else a)
           (map (styleTag tag style) ch)
  | _ => n
  end.

(** [body.querySelectorAll(tag).forEach(el => { if (p(el)) el.remove() })];
    the outer element is tested before its descendants are visited. *)
Fixpoint removeTagIf (tag : string) (p : node -> bool) (n : node) : list node :=
  match n with
  | Elem t a ch =>
      if String.eqb t tag && p n then []
      else [Elem t a (flat_map (removeTagIf tag p) ch)]
  | _ => [n]
  end.

(** [body.querySelectorAll('br').forEach(br => br.replaceWith(text))] *)
Fixpoint replaceBr (data : string) (n : node) : node :=
  match n with
  | Elem t a ch =>
      if String.eqb t "br" then Text data else Elem t a (map (replaceBr data) ch)
  | _ => n
  end.

(** A serializer in the style of the HTML fragment serialization algorithm,
    for elements, text and comments; used to build concrete environments. *)
Definition dq : string := String (ascii_of_nat 34) EmptyString.

Definition escapeText (s : string) : string :=
  replaceChar ">"%char "&gt;" (replaceChar "<"%char "&lt;"
    (replaceChar (ascii_of_nat 160) "&nbsp;" (replaceChar "&"%char "&amp;" s))).

Definition escapeAttr (s : string) : string :=
  replaceChar (ascii_of_nat 34) "&quot;"
    (replaceChar (ascii_of_nat 160) "&nbsp;" (replaceChar "&"%char "&amp;" s)).

Definition voidTags : list string :=
  ["area"; "base"; "br"; "col"; "embed"; "hr"; "img"; "input"; "link";
   "meta"; "source"; "track"; "wbr"].

Definition serializeAttrs (attrs : list (string * string)) : string :=
  String.concat EmptyString
    (map (fun nv => " " ++ fst nv ++ "=" ++ dq ++ escapeAttr (snd nv) ++ dq) attrs).

Fixpoint serialize (n : node) : string :=
  match n with
  | Text d => escapeText d
  | Comment d => "<!--" ++ d ++ "-->"
  | Elem t a ch =>
      "<" ++ t ++ serializeAttrs a ++ ">" ++
      (if existsb (String.eqb t) voidTags then EmptyString
       else String.concat EmptyString (map serialize ch) ++ "</" ++ t ++ ">")
  end.

Definition serializeNodes (ns : list node) : string :=
  String.concat EmptyString (map serialize ns).

(** A test double for the browser: the parser knows the parse trees of a
    table of fixtures and throws on every other input. *)
Fixpoint lookupFixture (table : list (string * list node)) (s : string)
    : option (list node) :=
  match table with
  | [] => None
  | (k, v) :: rest => if String.eqb k s then Some v else lookupFixture rest s
  end.

Definition fixtureEnv (table : list (string * list node)) : DomEnv :=
  {| parseBody := lookupFixture table; innerHTML := serializeNodes |}.

End Dom.

(** ** The normalizer *)

Module Normalizer.
Import Chars Regex JS Patterns Dom.

Definition nl : string := String LF EmptyString.

(** [$1] in a replacement string *)
Definition group (h : hit) : string :=
  match group1 h with Some g => g | None => EmptyString end.

(** [escapeHtml]: the five replacements in the order of the source. *)
Definition escapeHtml (value : string) : string :=
  replaceChar "'"%char "&#039;"
    (replaceChar (ascii_of_nat 34) "&quot;"
      (replaceChar ">"%char "&gt;"
        (replaceChar "<"%char "&lt;"
          (replaceChar "&"%char "&amp;" value)))).

Definition hasHtmlHeadings (raw : string) : bool := test reHtmlHeading raw.

(** [s.replace(/\s+/g, ' ')] *)
Definition collapseSpaces (s : string) : string :=
  replaceAll reSpaces (fun _ => " ") s.

(** [norm]: collapse white space, trim, lower-case. *)
Definition norm (s : string) : string := toLowerCase (trim (collapseSpaces s)).

(** [t.replace(/^chapter\s*\d+\s*:\s*/i, '')] *)
Definition stripChapterPrefix (t : string) : string :=
  replaceFirst reChapterPrefix (fun _ => EmptyString) t.

(** Membership in a [Set] or an array of strings ([has], [includes]). *)
Definition has (set : list string) (x : string) : bool :=
  existsb (String.eqb x) set.

(** *** Removal of the duplicated title *)

(** The loop [while (body.firstElementChild) { if (dup(first))
    { body.removeChild(first); continue; } break; }].  Every iteration but
    the last removes one child, so [length body] iterations suffice. *)
Fixpoint removeLeadingLoop (fuel : nat) (dup : node -> bool) (body : list node)
    : list node :=
  match fuel with
  | O => body
  | S fuel' =>
      match firstElementChild body with
      | Some first =>
          if dup first then removeLeadingLoop fuel' dup (removeFirstElement body)
          else body
      | None => body
      end
  end.

Definition removeLeadingDuplicates (dup : node -> bool) (body : list node)
    : list node :=
  removeLeadingLoop (List.length body) dup body.

(** [titleCandidates] and [candidateSet] of the DOM path. *)
Definition titleCandidates (chapterTitle : option string) : list string :=
  match chapterTitle with
  | Some t => if truthy t then [t; stripChapterPrefix t] else []
  | None => []
  end.

Definition candidateSet (chapterTitle : option string) : list string :=
  map norm (titleCandidates chapterTitle).

(** [candidateSet.has(norm(el.textContent || ''))] *)
Definition matchesTitle (set : list string) (el : node) : bool :=
  has set (norm (textContent el)).

(** [stripDup(html, t)] *)
Definition stripDup (env : DomEnv) (html : string) (t : option string) : string :=
  match t with
  | None => html
  | Some t =>
      if negb (truthy t) then html
      else
        match parseBody env html with
        | None => html
        | Some body =>
            let candidates := map norm [t; stripChapterPrefix t] in
            innerHTML env (removeLeadingDuplicates (matchesTitle candidates) body)
        end
  end.

(** *** Sentence splitting *)

(** [text.match(/[^.!?]+[.!?]+(?=\s|$)/g) || [text]] *)
Definition sentencesOf (text : string) : list string :=
  match matchAll reSentence text with
  | [] => [text]
  | l => l
  end.

(** The chunks [sentences.slice(i, i + 2).join(' ').trim()] for i = 0, 2, 4 .. *)
Fixpoint chunks (sentences : list string) : list string :=
  match sentences with
  | [] => []
  | [a] => [trim (join " " [a])]
  | a :: b :: more => trim (join " " [a; b]) :: chunks more
  end.

(** *** The DOM path *)

Definition h2StyleDom : string :=
  "margin-top:24px;margin-bottom:10px;font-size:1.5rem;font-weight:800;border-bottom:1px solid rgba(59,130,246,0.25);padding-bottom:6px;".
Definition h3StyleDom : string :=
  "margin-top:18px;margin-bottom:8px;font-size:1.25rem;font-weight:700;border-bottom:1px solid rgba(59,130,246,0.2);padding-bottom:4px;".
Definition pStyleDom : string := "margin:8px 0;line-height:1.7;".
Definition ulStyleDom : string := "margin:12px 0;padding-left:1.25rem;list-style:disc;".

Definition blockTags : list string :=
  ["P"; "LI"; "H1"; "H2"; "H3"; "H4"; "H5"; "H6"; "UL"; "OL"; "TABLE";
   "SECTION"; "ARTICLE"; "DIV"].

(** [doc.createElement('p')] with the paragraph style and the given children. *)
Definition newParagraph (children : list node) : node :=
  Elem "p" [("style", pStyleDom)] children.

(** One iteration of the loop of [wrapLooseContent]: the nodes that stand in
    the place of the child [n] afterwards. *)
Fixpoint wrapLooseNode (n : node) : list node :=
  match n with
  | Text d =>
      let text := trim (collapseSpaces d) in
      if truthy text then
        map (fun chunk => newParagraph [Text chunk])
            (filter truthy (chunks (sentencesOf text)))
      else []
  | Comment d => [Comment d]
  | Elem t a ch =>
      if has blockTags (tagName t) then [Elem t a (flat_map wrapLooseNode ch)]
      else [newParagraph [Elem t a ch]]
  end.

(** [wrapLooseContent(root)], on the children of [root]. *)
Definition wrapLooseContent (children : list node) : list node :=
  flat_map wrapLooseNode children.

(** The mutations of the [try] block on the parsed body. *)
Definition restructure (chapterTitle : option string) (body : list node)
    : list node :=
  let set := candidateSet chapterTitle in
  let b := removeLeadingDuplicates (matchesTitle set) body in
  let b := if truthyOpt chapterTitle
           then flat_map (removeTagIf "h1" (matchesTitle set)) b else b in
  let b := map (styleTag "h2" h2StyleDom) b in
  let b := map (styleTag "h3" h3StyleDom) b in
  let b := map (styleTag "p" pStyleDom) b in
  let b := map (styleTag "ul" ulStyleDom) b in
  let b := map (replaceBr nl) b in
  wrapLooseContent b.

(** The [try] block: [None] when the parser throws. *)
Definition domPath (env : DomEnv) (raw : string) (chapterTitle : option string)
    : option string :=
  match parseBody env raw with
  | Some body => Some (innerHTML env (restructure chapterTitle body))
  | None => None
  end.

(** *** The regex fallback *)

Definition styled (tag style : string) : string :=
  "<" ++ tag ++ " style=" ++ dq ++ style ++ dq ++ ">".

Definition h2Open : string :=
  styled "h2" "margin-top: 24px; margin-bottom: 10px; font-size: 1.5rem; font-weight: 800; border-bottom: 1px solid rgba(59,130,246,0.25); padding-bottom: 6px;".
Definition h3Open : string :=
  styled "h3" "margin-top: 18px; margin-bottom: 8px; font-size: 1.25rem; font-weight: 700; border-bottom: 1px solid rgba(59,130,246,0.2); padding-bottom: 4px;".
Definition pOpen : string := styled "p" "margin: 8px 0; line-height: 1.7;".
Definition ulOpen : string :=
  styled "ul" "margin: 12px 0; padding-left: 1.25rem; list-style: disc;".

(** The chain of replacements that builds [prepared]. *)
Definition prepare (raw : string) : string :=
  let s := replaceAll reCrLf (fun _ => nl) raw in
  let s := replaceAll reBr (fun _ => nl) s in
  let s := replaceAll (reOpenTagOf "h2") (fun _ => h2Open) s in
  let s := replaceAll (reOpenTagOf "h3") (fun _ => h3Open) s in
  let s := replaceAll (reOpenTagOf "p") (fun _ => pOpen) s in
  let s := replaceAll (reOpenTagOf "ul") (fun _ => ulOpen) s in
  let s := replaceAll reOpenHeadingCap (fun h => nl ++ "<" ++ group h ++ ">") s in
  let s := replaceAll reCloseHeadingCap (fun h => "</" ++ group h ++ ">" ++ nl) s in
  let s := replaceAll (reOpenTagCap "p") (fun h => nl ++ "<" ++ group h ++ ">") s in
  let s := replaceAll (reCloseTagCap "p") (fun h => "</" ++ group h ++ ">" ++ nl) s in
  let s := replaceAll (reOpenTagCap "ul") (fun h => nl ++ "<" ++ group h ++ ">") s in
  let s := replaceAll (reCloseTagCap "ul") (fun h => "</" ++ group h ++ ">" ++ nl) s in
  let s := replaceAll (reOpenTagCap "li") (fun h => nl ++ "<" ++ group h ++ ">") s in
  replaceAll (reCloseTagCap "li") (fun h => "</" ++ group h ++ ">" ++ nl) s.

(** The variables [out] and [inList] of the fallback loop. *)
Record fbState : Type := FbState {
  fbOut : list string;
  fbInList : bool
}.

Definition fbPush (x : string) (st : fbState) : fbState :=
  FbState (fbOut st ++ [x])%list (fbInList st).

(** [closeList] *)
Definition closeList (st : fbState) : fbState :=
  if fbInList st then FbState (fbOut st ++ ["</ul>"])%list false else st.

(** A paragraph of escaped text. *)
Definition paragraph (text : string) : string :=
  pOpen ++ escapeHtml text ++ "</p>".

(** A list item of escaped text. *)
Definition listItem (text : string) : string :=
  "<li>" ++ escapeHtml text ++ "</li>".

(** The body of [for (const rawLine of lines)] in the fallback. *)
Definition fallbackStep (st : fbState) (rawLine : string) : fbState :=
  let trimmed := trim rawLine in
  if negb (truthy trimmed) then closeList st
  else if test reBlockTagLine trimmed then
    let st := if test reHeadingOpenLine trimmed || test reHeadingCloseLine trimmed
              then closeList st else st in
    fbPush trimmed st
  else
    match exec reBullet trimmed with
    | Some bulletMatch =>
        let st := if fbInList st then st
                  else FbState (fbOut st ++ [ulOpen])%list true in
        fbPush (listItem (trim (group bulletMatch))) st
    | None =>
        let st := closeList st in
        let sentences := sentencesOf trimmed in
        if Nat.leb (List.length sentences) 1 then fbPush (paragraph trimmed) st
        else
          fold_left
            (fun st chunk =>
               if Nat.ltb 0 (String.length chunk) then fbPush (paragraph chunk) st
               else st)
            (chunks sentences) st
    end.

(** The lines pushed by the fallback loop, closing [closeList()] included. *)
Definition fallbackLines (lines : list string) : list string :=
  fbOut (closeList (fold_left fallbackStep lines (FbState [] false))).

Definition regexFallback (env : DomEnv) (raw : string)
    (chapterTitle : option string) : string :=
  let lines := split reNewline (prepare raw) in
  let built := join nl (fallbackLines lines) in
  stripDup env built chapterTitle.

(** *** The plain-text path *)

(** The variables [result], [firstHeadingDone] and [inList]. *)
Record ptState : Type := PtState {
  result : list string;
  firstHeadingDone : bool;
  inList : bool
}.

Definition push (x : string) (st : ptState) : ptState :=
  PtState (result st ++ [x])%list (firstHeadingDone st) (inList st).

(** [closeListIfOpen] *)
Definition closeListIfOpen (st : ptState) : ptState :=
  if inList st
  then PtState (result st ++ ["</ul>"])%list (firstHeadingDone st) false
  else st.

Definition heading2 (safe : string) : string := h2Open ++ safe ++ "</h2>".
Definition heading3 (safe : string) : string := h3Open ++ safe ++ "</h3>".

(** The short-capitalized-line test of the subheading heuristic. *)
Definition looksLikeHeading (trimmed : string) : bool :=
  Nat.ltb 0 (String.length trimmed) && Nat.ltb (String.length trimmed) 80 &&
  negb (test reEndsSentence trimmed) && test reStartsUpper trimmed &&
  negb (includes "  " trimmed).

(** The body of [for (const rawLine of lines)] in the plain-text path. *)
Definition plainStep (st : ptState) (rawLine : string) : ptState :=
  let line := trimEnd rawLine in
  let trimmed := trim line in
  if Nat.eqb (String.length trimmed) 0 then closeListIfOpen st
  else
    let safe := escapeHtml trimmed in
    if negb (firstHeadingDone st) && Nat.ltb 0 (String.length trimmed) then
      PtState (result st ++ [heading2 safe])%list true (inList st)
    else if test reNumbered trimmed then
      push (heading3 safe) (closeListIfOpen st)
    else
      match exec reBullet trimmed with
      | Some bulletMatch =>
          let st := if inList st then st
                    else PtState (result st ++ ["<ul>"])%list
                                 (firstHeadingDone st) true in
          push (listItem (trim (group bulletMatch))) st
      | None =>
          if looksLikeHeading trimmed then
            push (heading3 safe) (closeListIfOpen st)
          else
            push (pOpen ++ safe ++ "</p>") (closeListIfOpen st)
      end.

Definition initialState : ptState := PtState [] false false.

(** The lines pushed by the plain-text loop, closing list included. *)
Definition plainLines (lines : list string) : list string :=
  result (closeListIfOpen (fold_left plainStep lines initialState)).

(** The lines the plain-text path iterates over. *)
Definition linesOf (raw : string) : list string :=
  let text := trim raw in
  let text := replaceAll reBold group text in
  split reLineBreak text.

Definition plainTextPath (env : DomEnv) (raw : string)
    (chapterTitle : option string) : string :=
  let built := join nl (plainLines (linesOf raw)) in
  stripDup env built chapterTitle.

(** *** formatChapterContent *)

(** The branch taken for an input. *)
Inductive path : Type := EmptyInput | HtmlStructured | PlainText.

Definition selectPath (raw : string) : path :=
  if negb (truthy raw) then EmptyInput
  else if hasHtmlHeadings raw then HtmlStructured
  else PlainText.

Definition htmlStructuredPath (env : DomEnv) (raw : string)
    (chapterTitle : option string) : string :=
  match domPath env raw chapterTitle with
  | Some html => html
  | None => regexFallback env raw chapterTitle
  end.

Definition formatChapterContent (env : DomEnv) (raw : string)
    (chapterTitle : option string) : string :=
  match selectPath raw with
  | EmptyInput => EmptyString
  | HtmlStructured => htmlStructuredPath env raw chapterTitle
  | PlainText => plainTextPath env raw chapterTitle
  end.

(** The call of the preview page:
    [formatChapterContent(chapter.content || '', chapter.title)]. *)
Definition renderChapter (env : DomEnv) (content : option string)
    (title : string) : string :=
  formatChapterContent env
    (match content with Some c => if truthy c then c else EmptyString
                      | None => EmptyString end)
    (Some title).

End Normalizer.

(** ** Exceptions *)

(** The normalizer again, with what can throw made explicit: the calls into
    the browser.  The string methods and the regular expressions do not throw
    on strings, and the calls on a tree the parser returned are those of the
    DOM standard; they stay the functions of [Normalizer]. *)
Module Exceptions.
Import Chars Regex JS Patterns Dom Normalizer.

(** What running a piece of code gives: the value it returns, or an
    exception. *)
Inductive outcome (A : Type) : Type :=
| Returned (value : A)
| Thrown.

Arguments Returned {A} value.
Arguments Thrown {A}.

(** Sequencing: what follows a statement that throws does not run. *)
Definition bind {A B : Type} (m : outcome A) (k : A -> outcome B) : outcome B :=
  match m with
  | Returned a => k a
  | Thrown => Thrown
  end.

(** [try { body } catch { handler }] *)
Definition tryCatch {A : Type} (body handler : outcome A) : outcome A :=
  match body with
  | Returned a => Returned a
  | Thrown => handler
  end.

(** The calls into the browser: [new DOMParser()] (which throws where there
    is no [DOMParser]), [parser.parseFromString(s, 'text/html')] with
    [doc.body], and [doc.body.innerHTML]. *)
Record Browser : Type := {
  newDOMParser : outcome unit;
  parseFromString : string -> outcome (list node);
  getInnerHTML : list node -> outcome string
}.

(** The body of the first [try] block. *)
Definition domBlock (b : Browser) (raw : string) (chapterTitle : option string)
    : outcome string :=
  bind (newDOMParser b) (fun _ =>
  bind (parseFromString b raw) (fun body =>
  getInnerHTML b (restructure chapterTitle body))).

(** [stripDup(html, t)], with its [try] and [catch]. *)
Definition stripDup (b : Browser) (html : string) (t : option string)
    : outcome string :=
  match t with
  | None => Returned html
  | Some t =>
      if negb (truthy t) then Returned html
      else
        tryCatch
          (bind (newDOMParser b) (fun _ =>
           bind (parseFromString b html) (fun body =>
           let candidates := map norm [t; stripChapterPrefix t] in
           getInnerHTML b
             (removeLeadingDuplicates (matchesTitle candidates) body))))
          (Returned html)
  end.

(** The code after the first [try] block, inside [if (hasHtmlHeadings)]. *)
Definition regexFallback (b : Browser) (raw : string)
    (chapterTitle : option string) : outcome string :=
  let lines := split reNewline (prepare raw) in
  let built := join nl (fallbackLines lines) in
  stripDup b built chapterTitle.

Definition plainTextPath (b : Browser) (raw : string)
    (chapterTitle : option string) : outcome string :=
  let built := join nl (plainLines (linesOf raw)) in
  stripDup b built chapterTitle.

(** [formatChapterContent(raw, chapterTitle)]: the empty catch block of the
    first [try] falls through to the regex fallback. *)
Definition formatChapterContent (b : Browser) (raw : string)
    (chapterTitle : option string) : outcome string :=
  if negb (truthy raw) then Returned EmptyString
  else if hasHtmlHeadings raw then
    tryCatch (domBlock b raw chapterTitle) (regexFallback b raw chapterTitle)
  else plainTextPath b raw chapterTitle.

(** The call of the preview page:
    [formatChapterContent(chapter.content || '', chapter.title)]. *)
Definition renderChapter (b : Browser) (content : option string)
    (title : string) : outcome string :=
  formatChapterContent b
    (match content with Some c => if truthy c then c else EmptyString
                      | None => EmptyString end)
    (Some title).

(** The environment of [Normalizer] that a browser gives when its serializer
    is the function [serializer]: the parser has no answer where making the
    parser or parsing throws. *)
Definition pureEnv (b : Browser) (serializer : list node -> string) : DomEnv :=
  {| parseBody := fun s =>
       match newDOMParser b with
       | Thrown => None
       | Returned _ =>
           match parseFromString b s with
           | Returned body => Some body
           | Thrown => None
           end
       end;
     innerHTML := serializer |}.

End Exceptions.

(** ** Chapters and the table-of-contents panel *)

Module Book.

(** The interface [Chapter] of the store; an optional property that is
    absent is [None].  The property [summary] is declared by the later
    revision of the store only; no function below reads it. *)
#[warnings="-register-all"] Inductive Chapter : Type := MkChapter {
  id : string;
  title : string;
  summary : option string;
  content : option string;
  subtopics : option (list Chapter);
  isExpanded : option bool
}.

(** Truthiness of an optional boolean ([undefined] is falsy). *)
Definition truthyFlag (b : option bool) : bool :=
  match b with Some true => true | _ => false end.

(** The conversion of a non-negative integer to a string in a template
    literal: its decimal digits (the numbers at hand, chapter counts and
    [Date.now()], are below 10^21, where JavaScript starts to print
    exponents). *)
Definition decimal (n : nat) : string :=
  DecimalString.NilEmpty.string_of_uint (Nat.to_uint n).

Definition decimalN (n : N) : string :=
  DecimalString.NilEmpty.string_of_uint (N.to_uint n).

End Book.

Module TocPanel.
Import JS Book.

(** [handleToggle]: [{ ...ch, isExpanded: !ch.isExpanded }] for the chapters
    with the given id. *)
Definition handleToggle (i : string) (chapters : list Chapter) : list Chapter :=
  map (fun ch =>
         if String.eqb (id ch) i
         then MkChapter (id ch) (title ch) (summary ch) (content ch)
                        (subtopics ch) (Some (negb (truthyFlag (isExpanded ch))))
         else ch)
      chapters.

(** [handleEdit]: [{ ...ch, title }] for the chapters with the given id. *)
Definition handleEdit (i newTitle : string) (chapters : list Chapter)
    : list Chapter :=
  map (fun ch =>
         if String.eqb (id ch) i
         then MkChapter (id ch) newTitle (summary ch) (content ch)
                        (subtopics ch) (isExpanded ch)
         else ch)
      chapters.

(** [handleDelete]: [chapters.filter((ch) => ch.id !== id)]. *)
Definition handleDelete (i : string) (chapters : list Chapter) : list Chapter :=
  filter (fun ch => negb (String.eqb (id ch) i)) chapters.



(** The chapter [handleAddChapter] creates; [now] is [Date.now()]. *)
Definition newChapter (now : N) : Chapter :=
  MkChapter ("chapter-" ++ decimalN now) "New Chapter" None None
            (Some []) (Some false).

(** [handleAddChapter]: [[...chapters, newChapter]]. *)
Definition handleAddChapter (now : N) (chapters : list Chapter) : list Chapter :=
  (chapters ++ [newChapter now])%list.

(** [handleSave] of a chapter row, with [onEdit] bound to [handleEdit] as the
    panel does: the chapters and the flag [isEditing] afterwards. *)
Definition handleSave (editValue : string) (chapter : Chapter)
    (chapters : list Chapter) (isEditing : bool) : list Chapter * bool :=
  if truthy (trim editValue)
  then (handleEdit (id chapter) (trim editValue) chapters, false)
  else (chapters, isEditing).

End TocPanel.

(** ** The placeholder API *)

Module Api.
Import JS Normalizer Book.

(** The four strings the property [tone] can hold. *)
Inductive Tone : Type := formal | casual | academic | storytelling.

(** [BookFormData]: [numberOfChapters] is a count; the file [userToc] and the
    property [model] of the later revision play no part in the functions
    below. *)
Record BookFormData : Type := {
  topic : string;
  numberOfChapters : nat;
  tone : Tone;
  includeSummaries : bool;
  includeImages : bool;
  includeVoiceNarration : bool
}.

(** The string of a tone, as a template literal prints it. *)
Definition toneName (t : Tone) : string :=
  match t with
  | formal => "formal"
  | casual => "casual"
  | academic => "academic"
  | storytelling => "storytelling"
  end.

(** The chapter with index [i] of the mock table of contents; the subtopics
    have the properties [id] and [title] only. *)
Definition mockChapter (formData : BookFormData) (i : nat) : Chapter :=
  MkChapter ("ai-chapter-" ++ decimal (i + 1))
            ("Chapter " ++ decimal (i + 1) ++ ": " ++ topic formData ++
             " - Part " ++ decimal (i + 1))
            None None
            (Some [MkChapter ("ai-chapter-" ++ decimal (i + 1) ++ "-sub-1")
                             "Introduction" None None None None;
                   MkChapter ("ai-chapter-" ++ decimal (i + 1) ++ "-sub-2")
                             "Main Concepts" None None None None;
                   MkChapter ("ai-chapter-" ++ decimal (i + 1) ++ "-sub-3")
                             "Practical Applications" None None None None])
            (Some false).

(** The value [generateToc] resolves to:
    [Array.from({ length: n }, (_, i) => ...)]. *)
Definition generateToc (formData : BookFormData) : list Chapter :=
  map (mockChapter formData) (seq 0 (numberOfChapters formData)).

(** The text of one subtopic in the generated content. *)
Definition subtopicText (sub : Chapter) : string :=
  nl ++ "### " ++ title sub ++ nl ++ nl ++
  "Detailed explanation of " ++ title sub ++
  ". Proin gravida dolor sit amet lacus accumsan et viverra justo commodo. Proin sodales pulvinar tempor. Cum sociis natoque penatibus et magnis dis parturient montes, nascetur ridiculus mus." ++
  nl.

(** [chapter.subtopics?.map(...).join('\n')] inside the template literal: a
    chapter without subtopics gives [undefined], printed as such. *)
Definition subtopicsText (chapter : Chapter) : string :=
  match subtopics chapter with
  | Some subs => join nl (map subtopicText subs)
  | None => "undefined"
  end.

Definition summaryText (formData : BookFormData) : string :=
  if includeSummaries formData
  then nl ++ "### Summary" ++ nl ++ nl ++
       "Key takeaways from this chapter summarized for quick reference."
  else EmptyString.

(** The template literal of [writeBook], before [trim]. *)
Definition contentTemplate (chapter : Chapter) (formData : BookFormData)
    : string :=
  nl ++ "# " ++ title chapter ++ nl ++ nl ++
  "This is the generated content for **" ++ title chapter ++
  "** written in a " ++ toneName (tone formData) ++ " tone." ++ nl ++ nl ++
  "## Overview" ++ nl ++ nl ++
  "Lorem ipsum dolor sit amet, consectetur adipiscing elit. Sed do eiusmod tempor incididunt ut labore et dolore magna aliqua. Ut enim ad minim veniam, quis nostrud exercitation ullamco laboris." ++
  nl ++ nl ++ subtopicsText chapter ++ nl ++ nl ++
  "## Conclusion" ++ nl ++ nl ++
  "Vestibulum ac diam sit amet quam vehicula elementum sed sit amet dui. Curabitur arcu erat, accumsan id imperdiet et, porttitor at sem." ++
  nl ++ nl ++ summaryText formData ++ nl ++ "    ".

(** The chapter [writeBook] makes of a chapter of the merged table:
    [{ ...chapter, content: template.trim(), subtopics: chapter.subtopics }]. *)
Definition writeChapter (formData : BookFormData) (chapter : Chapter) : Chapter :=
  MkChapter (id chapter) (title chapter) (summary chapter)
            (Some (trim (contentTemplate chapter formData)))
            (subtopics chapter) (isExpanded chapter).

(** The value [writeBook] resolves to. *)
Definition writeBook (mergedToc : list Chapter) (formData : BookFormData)
    : list Chapter :=
  map (writeChapter formData) mergedToc.

End Api.

(** ** The workspace page *)

Module Workspace.
Import Book.

(** The state of the store the page reads and writes. *)
Record BookStore : Type := {
  formData : Api.BookFormData;
  aiGeneratedToc : list Chapter;
  userCreatedToc : list Chapter;
  mergedToc : list Chapter;
  generatedChapters : list Chapter;
  isLoading : bool;
  loadingMessage : string
}.

Definition setMergedToc (toc : list Chapter) (st : BookStore) : BookStore :=
  Build_BookStore (formData st) (aiGeneratedToc st) (userCreatedToc st) toc
                  (generatedChapters st) (isLoading st) (loadingMessage st).

Definition setGeneratedChapters (chapters : list Chapter) (st : BookStore)
    : BookStore :=
  Build_BookStore (formData st) (aiGeneratedToc st) (userCreatedToc st)
                  (mergedToc st) chapters (isLoading st) (loadingMessage st).

(** [setLoading(loading, message = '')] *)
Definition setLoading (loading : bool) (message : option string)
    (st : BookStore) : BookStore :=
  Build_BookStore (formData st) (aiGeneratedToc st) (userCreatedToc st)
                  (mergedToc st) (generatedChapters st) loading
                  (match message with Some m => m | None => EmptyString end).

(** What the handler shows or does besides writing the store. *)
Inductive effect : Type :=
| ToastError (message : string)
| ToastSuccess (message : string)
| Navigate (path : string).

(** [handleMergeAndContinue], run without other updates of the store in
    between; [api] is the awaited call of [writeBook], [None] when the
    promise is rejected; the calls of the store, of [toast] and of
    [navigate] do not throw.  The result is the store afterwards and the
    effects in order. *)
Definition handleMergeAndContinue
    (api : list Chapter -> Api.BookFormData -> option (list Chapter))
    (st : BookStore) : BookStore * list effect :=
  let merged := (aiGeneratedToc st ++ userCreatedToc st)%list in
  if Nat.eqb (List.length merged) 0 then
    (st, [ToastError "Please create or generate at least one chapter"])
  else
    let st := setMergedToc merged st in
    let st := setLoading true (Some "Writing your book...") st in
    match api merged (formData st) with
    | Some chapters =>
        let st := setGeneratedChapters chapters st in
        (setLoading false None st,
         [ToastSuccess "Book generated successfully!"; Navigate "/preview"])
    | None =>
        (setLoading false None st,
         [ToastError "Failed to generate book. Please try again."])
    end.

(** The placeholder [writeBook] never rejects. *)
Definition mockApi (merged : list Chapter) (fd : Api.BookFormData)
    : option (list Chapter) :=
  Some (Api.writeBook merged fd).

End Workspace.

(** ** The first revision of the normalizer *)

Module FirstRevision.
Import Regex JS Patterns Normalizer.

Definition heading2 (trimmed : string) : string := "<h2>" ++ trimmed ++ "</h2>".
Definition heading3 (trimmed : string) : string := "<h3>" ++ trimmed ++ "</h3>".

(** The variables [result] and [firstHeadingDone] of the loop. *)
Record state : Type := State {
  result : list string;
  firstHeadingDone : bool
}.

(** The body of [for (const rawLine of lines)]. *)
Definition step (st : state) (rawLine : string) : state :=
  let line := trimEnd rawLine in
  let trimmed := trim line in
  if negb (firstHeadingDone st) && Nat.ltb 0 (String.length trimmed) then
    State (result st ++ [heading2 trimmed])%list true
  else if test reNumbered trimmed then
    State (result st ++ [heading3 trimmed])%list (firstHeadingDone st)
  else if looksLikeHeading trimmed then
    State (result st ++ [heading3 trimmed])%list (firstHeadingDone st)
  else
    State (result st ++ [line])%list (firstHeadingDone st).

Definition pushedLines (lines : list string) : list string :=
  result (fold_left step lines (State [] false)).

(** [formatChapterContent] of the first revision. *)
Definition formatChapterContent (raw : string) : string :=
  if negb (truthy raw) then EmptyString
  else if includes "<h2" raw || includes "<h3" raw ||
          includes "<h2" raw || includes "<h3" raw then raw
  else join nl (pushedLines (linesOf raw)).

End FirstRevision.

(** * Vocabulary of the statements *)

Import Chars Regex JS Patterns Dom Normalizer.

(** A line the loop treats as blank. *)
Definition blankLine (rawLine : string) : bool :=
  Nat.eqb (String.length (trim (trimEnd rawLine))) 0.

(** The lines pushed for the lines that follow the primary heading. *)
Definition afterFirstHeading (rest : list string) : list string :=
  result (closeListIfOpen (fold_left plainStep rest (PtState [] true false))).

(** The opening tags of the template literals of the source, written out
    character by character; [dq] is the double quote. *)
Definition h2Tag : string :=
  "<h2 style=" ++ dq ++
  "margin-top: 24px; margin-bottom: 10px; font-size: 1.5rem; font-weight: 800; border-bottom: 1px solid rgba(59,130,246,0.25); padding-bottom: 6px;" ++
  dq ++ ">".

Definition h3Tag : string :=
  "<h3 style=" ++ dq ++
  "margin-top: 18px; margin-bottom: 8px; font-size: 1.25rem; font-weight: 700; border-bottom: 1px solid rgba(59,130,246,0.2); padding-bottom: 4px;" ++
  dq ++ ">".

Definition pTag : string :=
  "<p style=" ++ dq ++ "margin: 8px 0; line-height: 1.7;" ++ dq ++ ">".

Definition ulTag : string :=
  "<ul style=" ++ dq ++
  "margin: 12px 0; padding-left: 1.25rem; list-style: disc;" ++ dq ++ ">".

(** What the loop pushes once the primary heading is consumed: a bare list
    tag, a styled [<h3>], an [<li>] without attributes or a styled [<p>], the
    last three around escaped text. *)
Inductive laterItem : string -> Prop :=
| LaterUlOpen : laterItem "<ul>"
| LaterUlClose : laterItem "</ul>"
| LaterH3 (t : string) : laterItem (h3Tag ++ escapeHtml t ++ "</h3>")
| LaterLi (t : string) : laterItem ("<li>" ++ escapeHtml t ++ "</li>")
| LaterP (t : string) : laterItem (pTag ++ escapeHtml t ++ "</p>").

(** What the loop pushes at all: the styled [<h2>] around escaped text, or a
    later item. *)
Inductive plainItem : string -> Prop :=
| PlainH2 (t : string) : plainItem (h2Tag ++ escapeHtml t ++ "</h2>")
| PlainLater (x : string) : laterItem x -> plainItem x.

(** The number of pushed lines that open an [<h2>]. *)
Definition h2Count (items : list string) : nat :=
  List.length (filter (startsWith "<h2") items).

(** The state with [pre] put in front of the lines pushed so far. *)
Definition shift (pre : list string) (st : ptState) : ptState :=
  PtState (pre ++ result st)%list (firstHeadingDone st) (inList st).

(** The rule of the HTML paths, in the words of the specification: the text
    is split into sentences and every group of two sentences becomes one
    escaped paragraph. *)
Definition sentenceSplitParagraphs (text : string) : list string :=
  map paragraph (filter truthy (chunks (sentencesOf text))).

(** Every character of [s] satisfies [p]. *)
Fixpoint allChars (p : ascii -> bool) (s : string) : bool :=
  match s with
  | EmptyString => true
  | String c s' => p c && allChars p s'
  end.




(** What the fallback loop pushes for the input [lines]: one of the four
    lines it creates (the styled [<ul>], [</ul>], an [<li>] without attributes
    around escaped text, a styled [<p>] around escaped text), or one of the
    input lines, trimmed, when it starts with a block tag. *)
Inductive fbItem (lines : list string) : string -> Prop :=
| FbUlOpen : fbItem lines ulTag
| FbUlClose : fbItem lines "</ul>"
| FbLi (t : string) : fbItem lines ("<li>" ++ escapeHtml t ++ "</li>")
| FbP (t : string) : fbItem lines (pTag ++ escapeHtml t ++ "</p>")
| FbPassed (l : string) :
    In l lines -> test reBlockTagLine (trim l) = true -> fbItem lines (trim l).





(** A node of a tree without loose text: a comment, a paragraph made for one
    group of sentences, a paragraph made around an element that is not a
    block, or a block element whose children are such nodes.  A text node is
    none of these. *)
#[warnings="-register-all"] Inductive wrapped : node -> Prop :=
| WrappedComment (d : string) : wrapped (Comment d)
| WrappedText (g : string) :
    truthy g = true ->
    wrapped (Elem "p" [("style", "margin:8px 0;line-height:1.7;")] [Text g])
| WrappedInline (t : string) (a : list (string * string)) (ch : list node) :
    has blockTags (tagName t) = false ->
    wrapped (Elem "p" [("style", "margin:8px 0;line-height:1.7;")] [Elem t a ch])
| WrappedBlock (t : string) (a : list (string * string)) (ch : list node) :
    has blockTags (tagName t) = true ->
    Forall wrapped ch ->
    wrapped (Elem t a ch).

(** The loop, by recursion on the children: nodes that are not elements are
    skipped by [firstElementChild] and stay. *)
Fixpoint dropLeading (dup : node -> bool) (ns : list node) : list node :=
  match ns with
  | [] => []
  | Elem t a c :: rest => if dup (Elem t a c) then dropLeading dup rest else ns
  | n :: rest => n :: dropLeading dup rest
  end.

(** A document that repeats the title, and its parse tree. *)
Definition twoTitlesRaw : string := "<h2>Foo</h2><h2>Foo</h2><p>body</p>".

Definition twoTitlesBody : list node :=
  [Elem "h2" [] [Text "Foo"]; Elem "h2" [] [Text "Foo"];
   Elem "p" [] [Text "body"]].

(** The document of the example of the specification, and its parse tree. *)
Definition chapterFooRaw : string := "<h2>Chapter 1: Foo</h2><p>body</p>".

Definition chapterFooBody : list node :=
  [Elem "h2" [] [Text "Chapter 1: Foo"]; Elem "p" [] [Text "body"]].

(** A heading that matches the title once the chapter prefix is removed. *)
Definition shoutedFooRaw : string := "<h2>  FOO </h2><p>body</p>".

Definition shoutedFooBody : list node :=
  [Elem "h2" [] [Text "  FOO "]; Elem "p" [] [Text "body"]].

(** A browser double that knows the two documents above. *)
Definition fooEnv : DomEnv :=
  fixtureEnv [(chapterFooRaw, chapterFooBody); (shoutedFooRaw, shoutedFooBody)].

(** A runtime without [DOMParser]: every call into the browser throws. *)
Definition noBrowser : Exceptions.Browser :=
  {| Exceptions.newDOMParser := Exceptions.Thrown;
     Exceptions.parseFromString := fun _ => Exceptions.Thrown;
     Exceptions.getInnerHTML := fun _ => Exceptions.Thrown |}.

(** A browser whose parser throws on every input and whose serializer
    throws. *)
Definition throwingParser : Exceptions.Browser :=
  {| Exceptions.newDOMParser := Exceptions.Returned tt;
     Exceptions.parseFromString := fun _ => Exceptions.Thrown;
     Exceptions.getInnerHTML := fun _ => Exceptions.Thrown |}.

(** What the paths assemble before [stripDup]: nothing for the empty input,
    the lines of the fallback loop or the lines of the plain-text loop. *)
Definition assembled (raw : string) : string :=
  match selectPath raw with
  | EmptyInput => EmptyString
  | HtmlStructured => join nl (fallbackLines (split reNewline (prepare raw)))
  | PlainText => join nl (plainLines (linesOf raw))
  end.

(** The input holds an opening heading tag: [<], the letter h in either case,
    a digit from 1 to 6, then white space or [>]. *)
Definition containsHeadingTag (raw : string) : Prop :=
  exists (pre : string) (h d c : ascii) (post : string),
    raw = pre ++ String "<"%char (String h (String d (String c post))) /\
    (h = "h"%char \/ h = "H"%char) /\
    In d ["1"; "2"; "3"; "4"; "5"; "6"]%char /\
    (isSpace c = true \/ c = ">"%char).

(** The regular expression matches at the start of [s]. *)
Definition headingTagAt (s : string) : bool :=
  match s with
  | String c1 (String c2 (String c3 (String c4 _))) =>
      isChar "<"%char c1 && ci "h"%char c2 && inRange 49 54 c3 &&
      (isSpace c4 || isChar ">"%char c4)
  | _ => false
  end.

(** The regular expression matches somewhere in [s]. *)
Fixpoint headingTagWithin (s : string) : bool :=
  headingTagAt s ||
  match s with
  | EmptyString => false
  | String _ s' => headingTagWithin s'
  end.

(** Space, tab, line feed, space. *)
Definition blankRaw : string :=
  String " "%char
    (String (ascii_of_nat 9) (String LF (String " "%char EmptyString))).

(** Induction on document trees, with the hypothesis for all children. *)
Fixpoint node_children_ind (P : node -> Prop)
    (HText : forall d, P (Text d))
    (HComment : forall d, P (Comment d))
    (HElem : forall t a ch, Forall P ch -> P (Elem t a ch))
    (n : node) {struct n} : P n :=
  match n with
  | Text d => HText d
  | Comment d => HComment d
  | Elem t a ch =>
      HElem t a ch
        ((fix all (l : list node) : Forall P l :=
            match l with
            | [] => Forall_nil P
            | x :: r =>
                Forall_cons x (node_children_ind P HText HComment HElem x) (all r)
            end) ch)
  end.

(** [el.getAttribute(name)] *)
Fixpoint getAttribute (name : string) (attrs : list (string * string))
    : option string :=
  match attrs with
  | [] => None
  | (n, v) :: rest => if String.eqb n name then Some v else getAttribute name rest
  end.

(** The fixed style of the DOM path for the four styled tags. *)
Definition fixedStyle (tag : string) : option string :=
  if String.eqb tag "h2" then
    Some "margin-top:24px;margin-bottom:10px;font-size:1.5rem;font-weight:800;border-bottom:1px solid rgba(59,130,246,0.25);padding-bottom:6px;"
  else if String.eqb tag "h3" then
    Some "margin-top:18px;margin-bottom:8px;font-size:1.25rem;font-weight:700;border-bottom:1px solid rgba(59,130,246,0.2);padding-bottom:4px;"
  else if String.eqb tag "p" then Some "margin:8px 0;line-height:1.7;"
  else if String.eqb tag "ul" then
    Some "margin:12px 0;padding-left:1.25rem;list-style:disc;"
  else None.

(** Every element of the tree whose tag is in [tags] carries the fixed style
    of its tag. *)
#[warnings="-register-all"] Inductive styledFor (tags : list string) : node -> Prop :=
| StyledText (d : string) : styledFor tags (Text d)
| StyledComment (d : string) : styledFor tags (Comment d)
| StyledElem (t : string) (a : list (string * string)) (ch : list node) :
    (In t tags -> getAttribute "style" a = fixedStyle t) ->
    Forall (styledFor tags) ch ->
    styledFor tags (Elem t a ch).

(** A pushed line that opens an h2, h3 or p element opens it with the styled
    tag. *)
Definition opensStyled (x : string) : Prop :=
  (startsWith "<h2" x = true -> startsWith h2Tag x = true) /\
  (startsWith "<h3" x = true -> startsWith h3Tag x = true) /\
  (startsWith "<p" x = true -> startsWith pTag x = true).

(** One of the five characters [escapeHtml] replaces. *)
Definition isSpecial (c : ascii) : bool :=
  isChar "&"%char c || isChar "<"%char c || isChar ">"%char c ||
  isChar (ascii_of_nat 34) c || isChar "'"%char c.

(** The inverse of [escapeHtml] on its five entities. *)
Fixpoint unescapeHtml (s : string) : string :=
  match s with
  | String "&" (String "a" (String "m" (String "p" (String ";" r)))) =>
      String "&"%char (unescapeHtml r)
  | String "&" (String "l" (String "t" (String ";" r))) =>
      String "<"%char (unescapeHtml r)
  | String "&" (String "g" (String "t" (String ";" r))) =>
      String ">"%char (unescapeHtml r)
  | String "&" (String "q" (String "u" (String "o" (String "t" (String ";" r))))) =>
      String (ascii_of_nat 34) (unescapeHtml r)
  | String "&" (String "#" (String "0" (String "3" (String "9" (String ";" r))))) =>
      String "'"%char (unescapeHtml r)
  | String c r => String c (unescapeHtml r)
  | EmptyString => EmptyString
  end.

(** The pushed lines form well-nested lists: starting outside a list
    ([inside = false]), [<ul>] opens only outside a list, [</ul>] and [<li>]
    occur only inside one, every other line only outside, and at the end no
    list is open. *)
Fixpoint wellNested (inside : bool) (items : list string) : bool :=
  match items with
  | [] => negb inside
  | x :: more =>
      if String.eqb x "<ul>" then negb inside && wellNested true more
      else if String.eqb x "</ul>" then inside && wellNested false more
      else if startsWith "<li>" x then inside && wellNested true more
      else negb inside && wellNested false more
  end.

(** Reading the lines pushed so far leaves the reader inside a list exactly
    when [inList] is set; no list is open before the primary heading. *)
Definition nested (st : ptState) : Prop :=
  (forall more, wellNested false (result st ++ more) = wellNested (inList st) more) /\
  (firstHeadingDone st = false -> inList st = false).

(** The tree holds an element with the given tag, at the root or below. *)
Fixpoint hasTag (tag : string) (n : node) : bool :=
  match n with
  | Elem t _ ch => String.eqb t tag || existsb (hasTag tag) ch
  | _ => false
  end.

(** The last character of [w], or [pv] when [w] is empty. *)
Fixpoint lastOr (pv : option ascii) (w : string) : option ascii :=
  match w with
  | EmptyString => pv
  | String c w' => lastOr (Some c) w'
  end.

(** The string does not start with a character of the class. *)
Definition headNot (p : ascii -> bool) (s : string) : bool :=
  match s with
  | EmptyString => true
  | String c _ => negb (p c)
  end.

(** The longest prefix of characters of the class. *)
Fixpoint takeClass (p : ascii -> bool) (s : string) : string :=
  match s with
  | EmptyString => EmptyString
  | String c s' => if p c then String c (takeClass p s') else EmptyString
  end.

(** The string without that prefix. *)
Fixpoint dropClass (p : ascii -> bool) (s : string) : string :=
  match s with
  | EmptyString => EmptyString
  | String c s' => if p c then dropClass p s' else s
  end.

(** Every run of white space replaced by one space; [inRun] tells that the
    character before was white space. *)
Fixpoint collapseFrom (inRun : bool) (s : string) : string :=
  match s with
  | EmptyString => EmptyString
  | String c s' =>
      if isSpace c then
        if inRun then collapseFrom true s'
        else String " "%char (collapseFrom true s')
      else String c (collapseFrom false s')
  end.

(** Every white-space character is a space and no white space follows it. *)
Fixpoint spacedLoose (s : string) : bool :=
  match s with
  | EmptyString => true
  | String c s' =>
      (if isSpace c then isChar " "%char c && headNot isSpace s' else true) &&
      spacedLoose s'
  end.

(** The string starts with a character that is not white space. *)
Definition startsNonSpace (s : string) : bool :=
  match s with
  | EmptyString => false
  | String d _ => negb (isSpace d)
  end.

(** Every white-space character is a space and a character that is not
    white space follows it. *)
Fixpoint singleSpaced (s : string) : bool :=
  match s with
  | EmptyString => true
  | String c s' =>
      (if isSpace c then isChar " "%char c && startsNonSpace s' else true) &&
      singleSpaced s'
  end.

(** The canonical strings of the title comparison: no white space at either
    end, words separated by one space, no letter that [toLowerCase] changes. *)
Definition canonical (s : string) : bool :=
  headNot isSpace s && singleSpaced s &&
  allChars (fun c => Ascii.eqb (lower c) c) s.

(** The section of the generated content for a subtopic with title [t]. *)
Definition subtopicSection (t : string) : string :=
  nl ++ "### " ++ t ++ nl ++ nl ++ "Detailed explanation of " ++ t ++
  ". Proin gravida dolor sit amet lacus accumsan et viverra justo commodo. Proin sodales pulvinar tempor. Cum sociis natoque penatibus et magnis dis parturient montes, nascetur ridiculus mus." ++
  nl.

(** The sections of a chapter: the text [undefined] for a chapter without
    the property [subtopics]. *)
Definition subtopicSections (ch : Book.Chapter) : string :=
  match Book.subtopics ch with
  | None => "undefined"
  | Some subs => join nl (map (fun sub => subtopicSection (Book.title sub)) subs)
  end.

(** The content of a generated chapter, as it is after [trim]: it starts
    with the heading line and ends with the conclusion or, when summaries are
    asked for, with the summary. *)
Definition generatedContent (formData : Api.BookFormData) (ch : Book.Chapter)
    : string :=
  "# " ++ Book.title ch ++ nl ++ nl ++
  "This is the generated content for **" ++ Book.title ch ++
  "** written in a " ++ Api.toneName (Api.tone formData) ++ " tone." ++
  nl ++ nl ++ "## Overview" ++ nl ++ nl ++
  "Lorem ipsum dolor sit amet, consectetur adipiscing elit. Sed do eiusmod tempor incididunt ut labore et dolore magna aliqua. Ut enim ad minim veniam, quis nostrud exercitation ullamco laboris." ++
  nl ++ nl ++ subtopicSections ch ++ nl ++ nl ++ "## Conclusion" ++ nl ++ nl ++
  "Vestibulum ac diam sit amet quam vehicula elementum sed sit amet dui. Curabitur arcu erat, accumsan id imperdiet et, porttitor at sem." ++
  (if Api.includeSummaries formData
   then nl ++ nl ++ nl ++ "### Summary" ++ nl ++ nl ++
        "Key takeaways from this chapter summarized for quick reference."
   else EmptyString).

(** The ids the placeholder makes for the chapter with number [k]. *)
Definition idsOf (k : nat) : list string :=
  ["ai-chapter-" ++ Book.decimal k;
   "ai-chapter-" ++ Book.decimal k ++ "-sub-1";
   "ai-chapter-" ++ Book.decimal k ++ "-sub-2";
   "ai-chapter-" ++ Book.decimal k ++ "-sub-3"].

(** The ids of a table of contents: of every chapter and of its subtopics. *)
Definition allIds (toc : list Book.Chapter) : list string :=
  flat_map (fun ch => Book.id ch :: map Book.id
                        (match Book.subtopics ch with Some l => l | None => [] end))
           toc.

(** Two chapters of a panel, the second without the optional properties. *)
Definition introChapter : Book.Chapter :=
  Book.MkChapter "chapter-1" "Intro" None None (Some []) (Some true).

Definition draftChapter : Book.Chapter :=
  Book.MkChapter "chapter-2" "Draft" None None None None.

(** The flag after a toggle: expanded becomes collapsed; collapsed or
    undefined becomes expanded. *)
Definition flipped (flag : option bool) : option bool :=
  match flag with
  | Some true => Some false
  | _ => Some true
  end.

(** [ch.subtopics || []] *)
Definition subtopicList (ch : Book.Chapter) : list Book.Chapter :=
  match Book.subtopics ch with Some l => l | None => [] end.


(** * Properties *)

(** ** Fuel of the matcher *)

Section MatcherFuel.

Lemma search_unfold (r : re) (p : option ascii) (s : string) :
  search r p s =
  match matchAt r p s with
  | Some h => Some (EmptyString, h)
  | None =>
      match s with
      | EmptyString => None
      | String c s' =>
          match search r (Some c) s' with
          | Some (skipped, h) => Some (String c skipped, h)
          | None => None
          end
      end
  end.
Proof. destruct s; reflexivity. Qed.

(** Two star loops agree when their bodies and continuations agree on the
    states that are not longer than the current one and both have fuel for
    every character left. *)
Lemma starLoop_fuel
    (body1 body2 : mstate -> (mstate -> option mstate) -> option mstate)
    (g : bool) (k1 k2 : mstate -> option mstate) (bound : nat) :
  (forall st c1 c2, String.length (rest st) <= bound ->
     (forall st1, String.length (rest st1) <= String.length (rest st) ->
                  c1 st1 = c2 st1) ->
     body1 st c1 = body2 st c2) ->
  (forall st1, String.length (rest st1) <= bound -> k1 st1 = k2 st1) ->
  forall n1 n2 st0,
    String.length (rest st0) <= bound ->
    String.length (rest st0) < n1 -> String.length (rest st0) < n2 ->
    starLoop body1 g k1 n1 st0 = starLoop body2 g k2 n2 st0.
Proof.
  intros Hbody Hk. induction n1 as [|n1 IH]; intros n2 st0 Hb H1 H2; [lia|].
  destruct n2 as [|n2]; [lia|]. simpl.
  rewrite (Hk st0 Hb).
  rewrite (Hbody st0
             (fun st1 => if Nat.ltb (String.length (rest st1)) (String.length (rest st0))
                         then starLoop body1 g k1 n1 st1 else None)
             (fun st1 => if Nat.ltb (String.length (rest st1)) (String.length (rest st0))
                         then starLoop body2 g k2 n2 st1 else None) Hb).
  - reflexivity.
  - intros st1 Hle.
    destruct (Nat.ltb (String.length (rest st1)) (String.length (rest st0)))
      eqn:E; [|reflexivity].
    apply Nat.ltb_lt in E. apply IH; lia.
Qed.

Lemma run_fuel (r : re) :
  forall (f1 f2 : nat) (st : mstate) (k1 k2 : mstate -> option mstate),
    String.length (rest st) < f1 -> String.length (rest st) < f2 ->
    (forall st1, String.length (rest st1) <= String.length (rest st) ->
                 k1 st1 = k2 st1) ->
    run r f1 st k1 = run r f2 st k2.
Proof.
  induction r as [|p|r1 IH1 r2 IH2|r1 IH1 r2 IH2|g r IH|r IH|r IH| | |];
    intros f1 f2 st k1 k2 H1 H2 Hk; simpl.
  - apply Hk. lia.
  - destruct st as [pv [|c s'] cp]; simpl; [reflexivity|].
    destruct (p c); [|reflexivity]. apply Hk. simpl. lia.
  - apply IH1; [assumption..|]. intros st1 Hle.
    apply IH2; [lia..|]. intros st2 Hle2. apply Hk. lia.
  - rewrite (IH1 f1 f2 st k1 k2 H1 H2 Hk), (IH2 f1 f2 st k1 k2 H1 H2 Hk).
    reflexivity.
  - apply (starLoop_fuel (run r f1) (run r f2) g k1 k2
             (String.length (rest st))); try lia.
    + intros st0 c1 c2 Hb Hc. apply (IH f1 f2 st0 c1 c2); [lia|lia|exact Hc].
    + exact Hk.
  - apply IH; [assumption..|]. intros st1 Hle. apply Hk. exact Hle.
  - rewrite (IH f1 f2 st Some Some H1 H2 (fun _ _ => eq_refl)).
    destruct (run r f2 st Some); [apply Hk; lia|reflexivity].
  - destruct (prev st); [reflexivity|apply Hk; lia].
  - pose proof (Hk st (le_n _)) as Hst.
    destruct (rest st); [exact Hst|reflexivity].
  - destruct (xorb _ _); [apply Hk; lia|reflexivity].
Qed.

(** The fuel [matchAt] gives to the matcher is enough: more fuel gives the
    same match. *)
Lemma matchAt_fuel (r : re) (p : option ascii) (s : string) (fuel : nat) :
  String.length s < fuel ->
  run r fuel (MState p s None) Some =
  run r (S (String.length s)) (MState p s None) Some.
Proof.
  intros H. apply run_fuel; simpl; [lia..|reflexivity].
Qed.

(** A match ends at or after the position where it starts. *)
Lemma run_rest (r : re) :
  forall (fuel : nat) (st : mstate) (k : mstate -> option mstate) (st' : mstate),
    run r fuel st k = Some st' ->
    exists st1, k st1 = Some st' /\ String.length (rest st1) <= String.length (rest st).
Proof.
  induction r as [|p|r1 IH1 r2 IH2|r1 IH1 r2 IH2|g r IH|r IH|r IH| | |];
    intros fuel st k st' H; simpl in H.
  - exists st; split; [assumption|lia].
  - destruct st as [pv [|c s'] cp]; simpl in H; [discriminate|].
    destruct (p c); [|discriminate].
    eexists. split; [exact H|]. simpl. lia.
  - apply IH1 in H. destruct H as [st1 [H Hle]].
    apply IH2 in H. destruct H as [st2 [H Hle2]].
    exists st2. split; [exact H|lia].
  - destruct (run r1 fuel st k) eqn:E.
    + injection H as <-. apply (IH1 _ _ _ _ E).
    + apply (IH2 _ _ _ _ H).
  - revert st st' H. generalize fuel at 2. intros n. induction n as [|n IHn];
      intros st st' H; simpl in H.
    + exists st; split; [assumption|lia].
    + assert (Hagain :
        forall a,
          run r fuel st (fun st1 =>
            if Nat.ltb (String.length (rest st1)) (String.length (rest st))
            then starLoop (run r fuel) g k n st1 else None) = Some a ->
          exists st1, k st1 = Some a /\
                      String.length (rest st1) <= String.length (rest st)).
      { intros a Ha. apply IH in Ha. destruct Ha as [st1 [Ha Hle]].
        destruct (Nat.ltb _ _); [|discriminate].
        apply IHn in Ha. destruct Ha as [st2 [Ha Hle2]].
        exists st2. split; [exact Ha|lia]. }
      destruct g.
      * destruct (run r fuel st _) eqn:E.
        -- injection H as <-. apply (Hagain _ eq_refl).
        -- exists st; split; [assumption|lia].
      * destruct (k st) eqn:E.
        -- injection H as <-. exists st; split; [assumption|lia].
        -- apply Hagain, H.
  - apply IH in H. destruct H as [st1 [H Hle]].
    eexists. split; [exact H|exact Hle].
  - destruct (run r fuel st Some); [|discriminate]. exists st; split; [assumption|lia].
  - destruct (prev st); [discriminate|]. exists st; split; [assumption|lia].
  - destruct (rest st) eqn:E; [|discriminate].
    exists st; split; [assumption|rewrite E; apply le_n].
  - destruct (xorb _ _); [|discriminate]. exists st; split; [assumption|lia].
Qed.

Lemma substring_0_0 (s : string) : substring 0 0 s = EmptyString.
Proof. destruct s; reflexivity. Qed.

Lemma matchAt_after (r : re) (p : option ascii) (s : string) (h : hit) :
  matchAt r p s = Some h ->
  String.length (after h) <= String.length s /\
  (matched h <> EmptyString -> String.length (after h) < String.length s).
Proof.
  unfold matchAt. intros H.
  destruct (run r (S (String.length s)) (MState p s None) Some) as [st'|] eqn:E;
    [|discriminate].
  injection H as <-. simpl.
  apply run_rest in E. destruct E as [st1 [E Hle]]. injection E as ->.
  simpl in Hle. split; [exact Hle|].
  intros Hne. unfold consumed in Hne. simpl in Hne.
  destruct (Nat.eq_dec (String.length (rest st')) (String.length s)) as [Heq|Hneq];
    [|lia].
  rewrite Heq, Nat.sub_diag, substring_0_0 in Hne. destruct (Hne eq_refl).
Qed.

Lemma search_after (r : re) (s : string) :
  forall (p : option ascii) (skipped : string) (h : hit),
    search r p s = Some (skipped, h) ->
    String.length (after h) <= String.length s /\
    (matched h <> EmptyString -> String.length (after h) < String.length s).
Proof.
  induction s as [|c s IH]; intros p skipped h H; rewrite search_unfold in H.
  - destruct (matchAt r p EmptyString) as [h'|] eqn:E; [|discriminate].
    injection H as _ <-. apply (matchAt_after _ _ _ _ E).
  - destruct (matchAt r p (String c s)) as [h'|] eqn:E.
    + injection H as _ <-. apply (matchAt_after _ _ _ _ E).
    + destruct (search r (Some c) s) as [[sk h']|] eqn:E'; [|discriminate].
      injection H as _ <-. destruct (IH _ _ _ E') as [H1 H2].
      simpl. split; [lia|]. intros Hne. specialize (H2 Hne). lia.
Qed.

(** The fuel of [replaceAll], [matchAll] and [split] is enough: more fuel
    gives the same result. *)
Lemma replaceAllFrom_fuel (r : re) (f : hit -> string) :
  forall (n m : nat) (s : string) (p : option ascii),
    String.length s < n -> String.length s < m ->
    replaceAllFrom n r f p s = replaceAllFrom m r f p s.
Proof.
  induction n as [|n IH]; intros m s p Hn Hm; [lia|].
  destruct m as [|m]; [lia|]. simpl.
  destruct (search r p s) as [[skipped h]|] eqn:E; [|reflexivity].
  destruct (search_after _ _ _ _ _ E) as [H1 H2].
  destruct (matched h) eqn:Em.
  - destruct (after h) as [|c s'] eqn:Ea; [reflexivity|].
    simpl in H1. rewrite (IH m s' (Some c)); [reflexivity|lia..].
  - assert (String.length (after h) < String.length s) by (apply H2; discriminate).
    rewrite (IH m (after h) (lastChar h)); [reflexivity|lia..].
Qed.

Lemma matchAllFrom_fuel (r : re) :
  forall (n m : nat) (s : string) (p : option ascii),
    String.length s < n -> String.length s < m ->
    matchAllFrom n r p s = matchAllFrom m r p s.
Proof.
  induction n as [|n IH]; intros m s p Hn Hm; [lia|].
  destruct m as [|m]; [lia|]. simpl.
  destruct (search r p s) as [[skipped h]|] eqn:E; [|reflexivity].
  destruct (search_after _ _ _ _ _ E) as [H1 H2].
  destruct (matched h) eqn:Em.
  - destruct (after h) as [|c s'] eqn:Ea; [reflexivity|].
    simpl in H1. rewrite (IH m s' (Some c)); [reflexivity|lia..].
  - assert (String.length (after h) < String.length s) by (apply H2; discriminate).
    rewrite (IH m (after h) (lastChar h)); [reflexivity|lia..].
Qed.

Lemma splitFrom_fuel (r : re) :
  forall (n m : nat) (s : string) (p : option ascii),
    String.length s < n -> String.length s < m ->
    splitFrom n r p s = splitFrom m r p s.
Proof.
  induction n as [|n IH]; intros m s p Hn Hm; [lia|].
  destruct m as [|m]; [lia|]. simpl.
  destruct (search r p s) as [[skipped h]|] eqn:E; [|reflexivity].
  destruct (search_after _ _ _ _ _ E) as [H1 H2].
  destruct (matched h) eqn:Em; [reflexivity|].
  assert (String.length (after h) < String.length s) by (apply H2; discriminate).
  rewrite (IH m (after h) (lastChar h)); [reflexivity|lia..].
Qed.

End MatcherFuel.

(** ** Patterns of one character *)

Section OneCharacterPatterns.

Variables (c : ascii) (rep : string).

Lemma matchAt_char_no (p : option ascii) (d : ascii) (s : string) :
  Ascii.eqb d c = false -> matchAt (Chr (isChar c)) p (String d s) = None.
Proof. intros H. unfold matchAt. simpl. unfold isChar. rewrite H. reflexivity. Qed.

Lemma matchAt_char_yes (p : option ascii) (s : string) :
  matchAt (Chr (isChar c)) p (String c s) =
  Some (Hit (String c EmptyString) None s (Some c)).
Proof.
  unfold matchAt. simpl. unfold isChar. rewrite Ascii.eqb_refl.
  unfold consumed. simpl rest.
  replace (String.length (String c s) - String.length s) with 1
    by (change (String.length (String c s)) with (S (String.length s)); lia).
  simpl. rewrite substring_0_0. reflexivity.
Qed.

Lemma search_skip (r : re) (p : option ascii) (d : ascii) (s : string) :
  matchAt r p (String d s) = None ->
  search r p (String d s) =
  match search r (Some d) s with
  | Some (skipped, h) => Some (String d skipped, h)
  | None => None
  end.
Proof. intros H. rewrite (search_unfold r p (String d s)), H. reflexivity. Qed.

Lemma replaceAllFrom_S (r : re) (f : hit -> string) (n : nat)
    (p : option ascii) (s : string) :
  replaceAllFrom (S n) r f p s =
  match search r p s with
  | None => s
  | Some (skipped, h) =>
      skipped ++ f h ++
      match matched h with
      | EmptyString =>
          match after h with
          | EmptyString => EmptyString
          | String c' s' => String c' (replaceAllFrom n r f (Some c') s')
          end
      | String _ _ => replaceAllFrom n r f (lastChar h) (after h)
      end
  end.
Proof. reflexivity. Qed.

(** A position where the pattern does not match is copied. *)
Lemma replaceAllFrom_skip (r : re) (f : hit -> string) (n : nat)
    (p : option ascii) (d : ascii) (s : string) :
  matchAt r p (String d s) = None ->
  replaceAllFrom (S n) r f p (String d s) =
  String d (replaceAllFrom (S n) r f (Some d) s).
Proof.
  intros H. rewrite !replaceAllFrom_S, (search_skip r p d s H).
  destruct (search r (Some d) s) as [[skipped h]|]; reflexivity.
Qed.

(** [replaceChar] computes the global replace of a one-character pattern. *)
Lemma replaceAll_char (s : string) :
  replaceAll (Chr (isChar c)) (fun _ => rep) s = replaceChar c rep s.
Proof.
  unfold replaceAll. generalize (@None ascii) as p.
  induction s as [|d s IH]; intros p; [reflexivity|].
  destruct (Ascii.eqb d c) eqn:E.
  - apply Ascii.eqb_eq in E. subst d.
    rewrite replaceAllFrom_S, search_unfold, matchAt_char_yes.
    simpl. rewrite Ascii.eqb_refl. f_equal.
    rewrite <- (IH (Some c)). reflexivity.
  - rewrite replaceAllFrom_skip by (apply matchAt_char_no, E).
    simpl replaceChar. rewrite E. f_equal.
    rewrite <- (IH (Some d)).
    apply replaceAllFrom_fuel; simpl; lia.
Qed.

End OneCharacterPatterns.

(** [escapeHtml] is the chain of the five global replacements of the source. *)
Lemma escapeHtml_as_replaceAll (value : string) :
  escapeHtml value =
  replaceAll (Chr (isChar "'"%char)) (fun _ => "&#039;")
    (replaceAll (Chr (isChar (ascii_of_nat 34))) (fun _ => "&quot;")
      (replaceAll (Chr (isChar ">"%char)) (fun _ => "&gt;")
        (replaceAll (Chr (isChar "<"%char)) (fun _ => "&lt;")
          (replaceAll (Chr (isChar "&"%char)) (fun _ => "&amp;") value)))).
Proof. rewrite !replaceAll_char. reflexivity. Qed.


(** ** The plain-text loop *)

Section PlainLoop.

Lemma closeListIfOpen_shift (pre : list string) (st : ptState) :
  closeListIfOpen (shift pre st) = shift pre (closeListIfOpen st).
Proof.
  destruct st as [r f [|]]; unfold closeListIfOpen, shift; simpl;
    [rewrite app_assoc|]; reflexivity.
Qed.

Lemma push_shift (pre : list string) (x : string) (st : ptState) :
  push x (shift pre st) = shift pre (push x st).
Proof. unfold push, shift; simpl. rewrite app_assoc. reflexivity. Qed.

Lemma plainStep_shift (pre : list string) (st : ptState) (l : string) :
  plainStep (shift pre st) l = shift pre (plainStep st l).
Proof.
  unfold plainStep.
  destruct (Nat.eqb _ 0); [apply closeListIfOpen_shift|].
  change (firstHeadingDone (shift pre st)) with (firstHeadingDone st).
  destruct (negb (firstHeadingDone st) && _).
  - unfold shift; simpl. rewrite app_assoc. reflexivity.
  - destruct (test reNumbered _).
    + rewrite closeListIfOpen_shift. apply push_shift.
    + destruct (exec reBullet _).
      * change (inList (shift pre st)) with (inList st).
        destruct (inList st).
        -- apply push_shift.
        -- unfold shift, push; simpl. rewrite !app_assoc. reflexivity.
      * destruct (looksLikeHeading _);
          rewrite closeListIfOpen_shift; apply push_shift.
Qed.

Lemma fold_plainStep_shift (pre : list string) (ls : list string) (st : ptState) :
  fold_left plainStep ls (shift pre st) = shift pre (fold_left plainStep ls st).
Proof.
  revert st. induction ls as [|l ls IH]; intros st; simpl; [reflexivity|].
  rewrite plainStep_shift. apply IH.
Qed.

Lemma plainStep_blank (st : ptState) (l : string) :
  blankLine l = true -> plainStep st l = closeListIfOpen st.
Proof. unfold blankLine, plainStep. intros ->. reflexivity. Qed.

Lemma fold_plainStep_blanks (blanks : list string) :
  Forall (fun l => blankLine l = true) blanks ->
  fold_left plainStep blanks initialState = initialState.
Proof.
  induction 1 as [|l ls Hl _ IH]; simpl; [reflexivity|].
  rewrite (plainStep_blank _ _ Hl). exact IH.
Qed.

Lemma plainStep_first (l : string) :
  blankLine l = false ->
  plainStep initialState l =
  PtState [heading2 (escapeHtml (trim (trimEnd l)))] true false.
Proof.
  unfold blankLine, plainStep. intros H. rewrite H. simpl.
  destruct (String.length (trim (trimEnd l))) eqn:E; [discriminate|].
  reflexivity.
Qed.

Lemma closeListIfOpen_later (st : ptState) :
  Forall laterItem (result st) -> Forall laterItem (result (closeListIfOpen st)).
Proof.
  unfold closeListIfOpen. destruct (inList st); simpl; [|trivial].
  intros H. apply Forall_app. split; [exact H|].
  repeat constructor.
Qed.

Lemma closeListIfOpen_done (st : ptState) :
  firstHeadingDone (closeListIfOpen st) = firstHeadingDone st.
Proof. unfold closeListIfOpen. destruct (inList st); reflexivity. Qed.

Lemma push_later (x : string) (st : ptState) :
  laterItem x -> Forall laterItem (result st) ->
  Forall laterItem (result (push x st)).
Proof.
  intros Hx H. unfold push; simpl. apply Forall_app. split; [exact H|].
  constructor; [exact Hx|constructor].
Qed.

(** Once the heading is consumed, a step pushes later items only and the
    flag stays set. *)
Lemma plainStep_later (st : ptState) (l : string) :
  firstHeadingDone st = true ->
  Forall laterItem (result st) ->
  firstHeadingDone (plainStep st l) = true /\
  Forall laterItem (result (plainStep st l)).
Proof.
  intros Hd H. unfold plainStep.
  destruct (Nat.eqb _ 0).
  { rewrite closeListIfOpen_done. split; [exact Hd|apply closeListIfOpen_later, H]. }
  rewrite Hd. simpl.
  destruct (test reNumbered _).
  { split; [simpl; rewrite closeListIfOpen_done; first [exact Hd|reflexivity]|].
    apply push_later; [constructor|apply closeListIfOpen_later, H]. }
  destruct (exec reBullet _).
  { destruct (inList st); (split; [simpl; first [exact Hd|reflexivity]|]).
    - apply push_later; [constructor|exact H].
    - apply push_later; [constructor|]. simpl.
      apply Forall_app. split; [exact H|repeat constructor]. }
  destruct (looksLikeHeading _);
    (split; [simpl; rewrite closeListIfOpen_done; first [exact Hd|reflexivity]|]);
    (apply push_later; [|apply closeListIfOpen_later, H]).
  - constructor.
  - apply (LaterP (trim (trimEnd l))).
Qed.

Lemma fold_plainStep_later (ls : list string) (st : ptState) :
  firstHeadingDone st = true ->
  Forall laterItem (result st) ->
  firstHeadingDone (fold_left plainStep ls st) = true /\
  Forall laterItem (result (fold_left plainStep ls st)).
Proof.
  revert st. induction ls as [|l ls IH]; intros st Hd H; simpl; [auto|].
  destruct (plainStep_later st l Hd H) as [Hd' H']. apply IH; assumption.
Qed.

Lemma afterFirstHeading_later (rest : list string) :
  Forall laterItem (afterFirstHeading rest).
Proof.
  unfold afterFirstHeading. apply closeListIfOpen_later.
  apply fold_plainStep_later; [reflexivity|constructor].
Qed.

Lemma laterItem_not_h2 (x : string) : laterItem x -> startsWith "<h2" x = false.
Proof. destruct 1; reflexivity. Qed.

Lemma filter_none (A : Type) (f : A -> bool) (l : list A) :
  Forall (fun x => f x = false) l -> filter f l = [].
Proof.
  induction 1 as [|x l Hx _ IH]; simpl; [reflexivity|].
  rewrite Hx. exact IH.
Qed.

End PlainLoop.

(** C1.  In the plain-text loop the first non-blank line becomes the primary
    heading whatever its syntax (no hypothesis on the line other than not
    being blank, so bullet lines and dotted-numeric lines are included): the
    blank lines before it push nothing; the first line pushed is the tag
    [<h2 style="margin-top: 24px; ...">], the escaped trimmed line and
    [</h2>]; every line pushed afterwards is a list tag, a styled [<h3>], an
    [<li>] or a styled [<p>], none of them opens an [<h2>], and so the pushed
    lines hold exactly one [<h2>]. *)
Theorem first_nonblank_line_is_the_only_h2 :
  forall (blanks : list string) (l : string) (rest : list string),
    Forall (fun b => blankLine b = true) blanks ->
    blankLine l = false ->
    plainLines (blanks ++ l :: rest) =
      (h2Tag ++ escapeHtml (trim (trimEnd l)) ++ "</h2>")
        :: afterFirstHeading rest /\
    Forall laterItem (afterFirstHeading rest) /\
    Forall (fun x => startsWith "<h2" x = false) (afterFirstHeading rest) /\
    h2Count (plainLines (blanks ++ l :: rest)) = 1.
Proof.
  intros blanks l rest Hb Hl.
  assert (Hlines : plainLines (blanks ++ l :: rest) =
                   (h2Tag ++ escapeHtml (trim (trimEnd l)) ++ "</h2>")
                     :: afterFirstHeading rest).
  { unfold plainLines, afterFirstHeading.
    rewrite fold_left_app, (fold_plainStep_blanks _ Hb). simpl.
    rewrite (plainStep_first _ Hl).
    change (PtState [heading2 (escapeHtml (trim (trimEnd l)))] true false)
      with (shift [heading2 (escapeHtml (trim (trimEnd l)))]
                  (PtState [] true false)).
    rewrite fold_plainStep_shift, closeListIfOpen_shift. reflexivity. }
  assert (Hno : Forall (fun x => startsWith "<h2" x = false)
                       (afterFirstHeading rest)).
  { eapply Forall_impl; [|apply afterFirstHeading_later].
    intros x Hx. apply laterItem_not_h2, Hx. }
  split; [exact Hlines|]. split; [apply afterFirstHeading_later|].
  split; [exact Hno|].
  rewrite Hlines. unfold h2Count.
  change (filter (startsWith "<h2")
            ((h2Tag ++ escapeHtml (trim (trimEnd l)) ++ "</h2>")
               :: afterFirstHeading rest))
    with ((h2Tag ++ escapeHtml (trim (trimEnd l)) ++ "</h2>")
            :: filter (startsWith "<h2") (afterFirstHeading rest)).
  rewrite (filter_none _ _ _ Hno). reflexivity.
Qed.

Lemma first_nonblank_line_is_the_only_h2_witness :
  Forall (fun b => blankLine b = true) [EmptyString; "  "] /\
  blankLine "- item one" = false /\
  (plainLines ([EmptyString; "  "] ++ "- item one" :: ["- item two"]) =
     (h2Tag ++ escapeHtml (trim (trimEnd "- item one")) ++ "</h2>")
       :: afterFirstHeading ["- item two"] /\
   Forall laterItem (afterFirstHeading ["- item two"]) /\
   Forall (fun x => startsWith "<h2" x = false) (afterFirstHeading ["- item two"]) /\
   h2Count (plainLines ([EmptyString; "  "] ++ "- item one" :: ["- item two"])) = 1).
Proof.
  assert (Hb : Forall (fun b => blankLine b = true) [EmptyString; "  "])
    by (repeat constructor).
  assert (Hl : blankLine "- item one" = false) by reflexivity.
  exact (conj Hb (conj Hl
    (first_nonblank_line_is_the_only_h2
       [EmptyString; "  "] "- item one" ["- item two"] Hb Hl))).
Defined.

(** ** Paragraph lines of the plain-text path *)

Section PlainParagraphs.

Lemma plainStep_keeps_flag (st : ptState) (l : string) :
  firstHeadingDone st = true -> firstHeadingDone (plainStep st l) = true.
Proof.
  intros Hd. unfold plainStep.
  destruct (Nat.eqb _ 0); [rewrite closeListIfOpen_done; exact Hd|].
  rewrite Hd; simpl.
  destruct (test reNumbered _);
    [simpl; rewrite closeListIfOpen_done; exact Hd|].
  destruct (exec reBullet _); [destruct (inList st); simpl; auto|].
  destruct (looksLikeHeading _); simpl; rewrite closeListIfOpen_done; exact Hd.
Qed.

Lemma plainStep_sets_flag (st : ptState) (l : string) :
  blankLine l = false -> firstHeadingDone (plainStep st l) = true.
Proof.
  intros Hl. destruct (firstHeadingDone st) eqn:Hd.
  - apply plainStep_keeps_flag, Hd.
  - unfold plainStep. unfold blankLine in Hl. rewrite Hl, Hd. simpl.
    destruct (String.length (trim (trimEnd l))); [discriminate|reflexivity].
Qed.

Lemma fold_plainStep_keeps_flag (ls : list string) (st : ptState) :
  firstHeadingDone st = true ->
  firstHeadingDone (fold_left plainStep ls st) = true.
Proof.
  revert st. induction ls as [|l ls IH]; intros st Hd; simpl; [exact Hd|].
  apply IH, plainStep_keeps_flag, Hd.
Qed.

(** After a non-blank line has been read the primary heading is consumed. *)
Lemma fold_plainStep_sets_flag (ls : list string) (st : ptState) :
  Exists (fun l => blankLine l = false) ls ->
  firstHeadingDone (fold_left plainStep ls st) = true.
Proof.
  intros H. revert st. induction H as [l ls Hl|l ls _ IH]; intros st; simpl.
  - apply fold_plainStep_keeps_flag, plainStep_sets_flag, Hl.
  - apply IH.
Qed.

Lemma plainStep_paragraph (st : ptState) (l : string) :
  firstHeadingDone st = true ->
  blankLine l = false ->
  test reNumbered (trim (trimEnd l)) = false ->
  exec reBullet (trim (trimEnd l)) = None ->
  looksLikeHeading (trim (trimEnd l)) = false ->
  plainStep st l = push (paragraph (trim (trimEnd l))) (closeListIfOpen st).
Proof.
  intros Hd Hl Hn Hb Hh. unfold plainStep. unfold blankLine in Hl.
  rewrite Hl, Hd, Hn, Hb, Hh. reflexivity.
Qed.

End PlainParagraphs.

(** C3, as stated, fails: a line of three sentences that is neither blank,
    first, numbered, bullet nor heading-like is pushed as one paragraph,
    where two-sentences-per-paragraph splitting would give two. *)
Lemma three_sentence_line_is_not_split :
  blankLine "One. Two. Three." = false /\
  test reNumbered "One. Two. Three." = false /\
  exec reBullet "One. Two. Three." = None /\
  looksLikeHeading "One. Two. Three." = false /\
  plainLines ["Title"; "One. Two. Three."] =
    [heading2 "Title"; paragraph "One. Two. Three."] /\
  sentenceSplitParagraphs "One. Two. Three." =
    [paragraph "One.  Two."; paragraph "Three."] /\
  plainLines ["Title"; "One. Two. Three."] <>
    heading2 "Title" :: sentenceSplitParagraphs "One. Two. Three.".
Proof.
  repeat split; try reflexivity.
  vm_compute. discriminate.
Qed.

(** C3, amended.  In the plain-text loop a line that is not blank, comes after
    a non-blank line, and is neither a dotted-numeric heading, a bullet nor
    heading-like, is pushed as exactly one paragraph that holds the whole
    trimmed line, HTML-escaped, after an open list is closed; the loop then
    goes on with the next line.  No sentence splitting takes place. *)
Theorem remaining_line_is_one_escaped_paragraph :
  forall (before : list string) (l : string) (rest : list string),
    Exists (fun b => blankLine b = false) before ->
    blankLine l = false ->
    test reNumbered (trim (trimEnd l)) = false ->
    exec reBullet (trim (trimEnd l)) = None ->
    looksLikeHeading (trim (trimEnd l)) = false ->
    fold_left plainStep (before ++ l :: rest) initialState =
      fold_left plainStep rest
        (push (pOpen ++ escapeHtml (trim (trimEnd l)) ++ "</p>")
              (closeListIfOpen (fold_left plainStep before initialState))).
Proof.
  intros before l rest Hex Hl Hn Hb Hh.
  rewrite fold_left_app. simpl. f_equal.
  apply plainStep_paragraph; try assumption.
  apply fold_plainStep_sets_flag, Hex.
Qed.

Lemma remaining_line_is_one_escaped_paragraph_witness :
  Exists (fun b => blankLine b = false) ["Title"; "- a"] /\
  blankLine "One. Two. Three." = false /\
  fold_left plainStep (["Title"; "- a"] ++ "One. Two. Three." :: ["end."])
    initialState =
  fold_left plainStep ["end."]
    (push (pOpen ++ escapeHtml (trim (trimEnd "One. Two. Three.")) ++ "</p>")
          (closeListIfOpen (fold_left plainStep ["Title"; "- a"] initialState))).
Proof.
  assert (Hex : Exists (fun b => blankLine b = false) ["Title"; "- a"])
    by (constructor; reflexivity).
  assert (Hl : blankLine "One. Two. Three." = false) by reflexivity.
  exact (conj Hex (conj Hl
    (remaining_line_is_one_escaped_paragraph
       ["Title"; "- a"] "One. Two. Three." ["end."]
       Hex Hl eq_refl eq_refl eq_refl))).
Defined.

(** ** Escaping *)

Section Escaping.

Lemma allChars_app (p : ascii -> bool) (a b : string) :
  allChars p (a ++ b) = allChars p a && allChars p b.
Proof.
  induction a as [|c a IH]; simpl; [reflexivity|].
  rewrite IH. apply andb_assoc.
Qed.

Lemma append_assoc (a b c : string) : (a ++ b) ++ c = a ++ (b ++ c).
Proof. induction a as [|d a IH]; simpl; [|rewrite IH]; reflexivity. Qed.

Lemma append_empty_r (a : string) : a ++ EmptyString = a.
Proof. induction a as [|d a IH]; simpl; [|rewrite IH]; reflexivity. Qed.

Lemma length_append (a b : string) :
  String.length (a ++ b) = String.length a + String.length b.
Proof. induction a as [|d a IH]; simpl; [|rewrite IH]; reflexivity. Qed.

Lemma replaceChar_app (c : ascii) (rep a b : string) :
  replaceChar c rep (a ++ b) = replaceChar c rep a ++ replaceChar c rep b.
Proof.
  induction a as [|d a IH]; simpl; [reflexivity|].
  destruct (Ascii.eqb d c); rewrite IH; simpl; [|reflexivity].
  symmetry. apply append_assoc.
Qed.

Lemma escapeHtml_app (a b : string) :
  escapeHtml (a ++ b) = escapeHtml a ++ escapeHtml b.
Proof. unfold escapeHtml. rewrite !replaceChar_app. reflexivity. Qed.



End Escaping.

(** ** One block per line in the plain-text path *)

Section PlainBlocks.


Lemma closeListIfOpen_items (st : ptState) :
  Forall plainItem (result st) -> Forall plainItem (result (closeListIfOpen st)).
Proof.
  destruct st as [r f [|]]; unfold closeListIfOpen; simpl; [|trivial].
  intros H. apply Forall_app. split; [exact H|]. repeat constructor.
Qed.


Lemma push_items (x : string) (st : ptState) :
  plainItem x -> Forall plainItem (result st) ->
  Forall plainItem (result (push x st)).
Proof.
  intros Hx H. unfold push; simpl. apply Forall_app. split; [exact H|].
  constructor; [exact Hx|constructor].
Qed.


Lemma plainStep_items (st : ptState) (l : string) :
  Forall plainItem (result st) -> Forall plainItem (result (plainStep st l)).
Proof.
  intros H. unfold plainStep.
  destruct (Nat.eqb _ 0); [apply closeListIfOpen_items, H|].
  destruct (negb (firstHeadingDone st) && _).
  { simpl. apply Forall_app. split; [exact H|]. repeat constructor. }
  destruct (test reNumbered _).
  { apply push_items; [repeat constructor|apply closeListIfOpen_items, H]. }
  destruct (exec reBullet _).
  { apply push_items; [repeat constructor|].
    destruct (inList st); [exact H|]. simpl.
    apply Forall_app. split; [exact H|]. repeat constructor. }
  destruct (looksLikeHeading _);
    (apply push_items; [|apply closeListIfOpen_items, H]).
  - repeat constructor.
  - constructor. apply (LaterP (trim (trimEnd l))).
Qed.


Lemma fold_plainStep_items (ls : list string) (st : ptState) :
  Forall plainItem (result st) ->
  Forall plainItem (result (fold_left plainStep ls st)).
Proof.
  revert st. induction ls as [|l ls IH]; intros st H; simpl; [exact H|].
  apply IH, plainStep_items, H.
Qed.


Lemma plainLines_items (lines : list string) :
  Forall plainItem (plainLines lines).
Proof.
  unfold plainLines. apply closeListIfOpen_items, fold_plainStep_items.
  constructor.
Qed.


End PlainBlocks.

(** ** The lines pushed by the regex fallback *)

Section FallbackItems.

Variable all : list string.

Lemma closeList_items (st : fbState) :
  Forall (fbItem all) (fbOut st) -> Forall (fbItem all) (fbOut (closeList st)).
Proof.
  destruct st as [o [|]]; unfold closeList; simpl; [|trivial].
  intros H. apply Forall_app. split; [exact H|].
  constructor; [apply FbUlClose|constructor].
Qed.

Lemma fbPush_items (x : string) (st : fbState) :
  fbItem all x -> Forall (fbItem all) (fbOut st) ->
  Forall (fbItem all) (fbOut (fbPush x st)).
Proof.
  intros Hx H. unfold fbPush; simpl. apply Forall_app. split; [exact H|].
  constructor; [exact Hx|constructor].
Qed.

Lemma fold_chunks_items (cs : list string) (st : fbState) :
  Forall (fbItem all) (fbOut st) ->
  Forall (fbItem all)
    (fbOut (fold_left
       (fun st chunk =>
          if Nat.ltb 0 (String.length chunk) then fbPush (paragraph chunk) st
          else st) cs st)).
Proof.
  revert st. induction cs as [|c cs IH]; intros st H; simpl; [exact H|].
  apply IH. destruct (Nat.ltb 0 (String.length c)); [|exact H].
  apply fbPush_items; [apply (FbP all c)|exact H].
Qed.

Lemma fallbackStep_items (st : fbState) (l : string) :
  In l all ->
  Forall (fbItem all) (fbOut st) ->
  Forall (fbItem all) (fbOut (fallbackStep st l)).
Proof.
  intros Hin H. unfold fallbackStep.
  destruct (negb (truthy (trim l))); [apply closeList_items, H|].
  destruct (test reBlockTagLine (trim l)) eqn:Htag.
  { apply fbPush_items; [apply FbPassed; assumption|].
    destruct (_ || _); [apply closeList_items, H|exact H]. }
  destruct (exec reBullet (trim l)) as [bulletMatch|].
  { apply fbPush_items; [apply (FbLi all (trim (group bulletMatch)))|].
    destruct (fbInList st); [exact H|]. simpl.
    apply Forall_app. split; [exact H|].
    constructor; [apply FbUlOpen|constructor]. }
  destruct (Nat.leb _ 1).
  - apply fbPush_items; [apply (FbP all (trim l))|apply closeList_items, H].
  - apply fold_chunks_items, closeList_items, H.
Qed.

Lemma fold_fallbackStep_items (ls : list string) (st : fbState) :
  incl ls all ->
  Forall (fbItem all) (fbOut st) ->
  Forall (fbItem all) (fbOut (fold_left fallbackStep ls st)).
Proof.
  revert st. induction ls as [|l ls IH]; intros st Hin H; simpl; [exact H|].
  apply IH.
  - intros x Hx. apply Hin. right. exact Hx.
  - apply fallbackStep_items; [apply Hin; left; reflexivity|exact H].
Qed.

End FallbackItems.

Lemma fallbackLines_items (lines : list string) :
  Forall (fbItem lines) (fallbackLines lines).
Proof.
  unfold fallbackLines. apply closeList_items.
  apply fold_fallbackStep_items; [apply incl_refl|constructor].
Qed.

(** ** Loose lines in the regex fallback *)

Section LooseLines.





End LooseLines.

(** ** Loose content in the DOM path *)

Section LooseContent.

Lemma wrapLooseNode_Elem (t : string) (a : list (string * string))
    (ch : list node) :
  wrapLooseNode (Elem t a ch) =
  if has blockTags (tagName t) then [Elem t a (flat_map wrapLooseNode ch)]
  else [newParagraph [Elem t a ch]].
Proof. reflexivity. Qed.








Lemma wrapped_not_text (n : node) : wrapped n -> isText n = false.
Proof. destruct 1; reflexivity. Qed.

End LooseContent.




(** ** The loop that removes the duplicated title *)

Section TitleLoop.

Variable dup : node -> bool.

Lemma removeFirstElement_length (ns : list node) (e : node) :
  firstElementChild ns = Some e ->
  List.length ns = S (List.length (removeFirstElement ns)).
Proof.
  induction ns as [|n ns IH]; simpl; [discriminate|].
  destruct n; simpl; intros H; auto.
Qed.

Lemma dropLeading_no_element (ns : list node) :
  firstElementChild ns = None -> dropLeading dup ns = ns.
Proof.
  induction ns as [|n ns IH]; simpl; [reflexivity|].
  destruct n; simpl; intros H; [rewrite IH by exact H; reflexivity ..|discriminate].
Qed.

Lemma dropLeading_stop (ns : list node) (e : node) :
  firstElementChild ns = Some e -> dup e = false -> dropLeading dup ns = ns.
Proof.
  induction ns as [|n ns IH]; simpl; [discriminate|].
  destruct n; simpl; intros H Hd.
  - rewrite (IH H Hd). reflexivity.
  - rewrite (IH H Hd). reflexivity.
  - injection H as <-. rewrite Hd. reflexivity.
Qed.

Lemma dropLeading_remove (ns : list node) (e : node) :
  firstElementChild ns = Some e -> dup e = true ->
  dropLeading dup ns = dropLeading dup (removeFirstElement ns).
Proof.
  induction ns as [|n ns IH]; simpl; [discriminate|].
  destruct n; simpl; intros H Hd.
  - rewrite (IH H Hd). reflexivity.
  - rewrite (IH H Hd). reflexivity.
  - injection H as <-. rewrite Hd. reflexivity.
Qed.

(** With fuel for every child the loop computes [dropLeading]. *)
Lemma removeLeadingLoop_enough (fuel : nat) (ns : list node) :
  List.length ns <= fuel -> removeLeadingLoop fuel dup ns = dropLeading dup ns.
Proof.
  revert ns. induction fuel as [|fuel IH]; intros ns Hlen; simpl.
  - destruct ns; [reflexivity|simpl in Hlen; lia].
  - destruct (firstElementChild ns) as [e|] eqn:He.
    + destruct (dup e) eqn:Hd.
      * rewrite IH.
        -- symmetry. apply (dropLeading_remove ns e He Hd).
        -- pose proof (removeFirstElement_length ns e He). lia.
      * symmetry. apply (dropLeading_stop ns e He Hd).
    + symmetry. apply dropLeading_no_element, He.
Qed.

Lemma removeLeadingDuplicates_dropLeading (ns : list node) :
  removeLeadingDuplicates dup ns = dropLeading dup ns.
Proof. apply removeLeadingLoop_enough. lia. Qed.

(** More fuel does not change the result of the loop. *)
Lemma removeLeadingLoop_more_fuel (fuel : nat) (ns : list node) :
  List.length ns <= fuel ->
  removeLeadingLoop fuel dup ns = removeLeadingDuplicates dup ns.
Proof.
  intros H. rewrite removeLeadingDuplicates_dropLeading.
  apply removeLeadingLoop_enough, H.
Qed.

Lemma removeLeadingDuplicates_first (ns : list node) (e : node) :
  firstElementChild ns = Some e -> dup e = true ->
  removeLeadingDuplicates dup ns =
  removeLeadingDuplicates dup (removeFirstElement ns).
Proof.
  intros He Hd. rewrite !removeLeadingDuplicates_dropLeading.
  apply (dropLeading_remove ns e He Hd).
Qed.

Lemma dropLeading_run (run rest : list node) :
  Forall (fun n => isElement n = true -> dup n = true) run ->
  (forall e, firstElementChild rest = Some e -> dup e = false) ->
  dropLeading dup (run ++ rest) = (filter (fun n => negb (isElement n)) run ++ rest)%list.
Proof.
  intros Hrun Hrest. induction Hrun as [|n run Hn _ IH]; simpl.
  - destruct (firstElementChild rest) as [e|] eqn:He.
    + apply (dropLeading_stop rest e He), Hrest, eq_refl.
    + apply dropLeading_no_element, He.
  - destruct n; simpl; try (rewrite IH; reflexivity).
    rewrite (Hn eq_refl). exact IH.
Qed.

Lemma removed_count (run rest : list node) :
  List.length (run ++ rest) =
  List.length (filter isElement run) +
  List.length (filter (fun n => negb (isElement n)) run ++ rest).
Proof.
  rewrite !length_app.
  induction run as [|n run IH]; simpl; [reflexivity|].
  destruct (isElement n); simpl; lia.
Qed.

End TitleLoop.

(** C2, as stated, fails: with the title [Foo] the loop removes both leading
    [<h2>Foo</h2>] elements of the document, two removals and not at most
    one; the DOM path also removes a matching [<h1>] that is not first. *)
Lemma two_leading_titles_are_removed :
  removeLeadingDuplicates (matchesTitle (candidateSet (Some "Foo"))) twoTitlesBody =
    [Elem "p" [] [Text "body"]] /\
  List.length twoTitlesBody -
    List.length (removeLeadingDuplicates
                   (matchesTitle (candidateSet (Some "Foo"))) twoTitlesBody) = 2 /\
  formatChapterContent (fixtureEnv [(twoTitlesRaw, twoTitlesBody)])
    twoTitlesRaw (Some "Foo") =
    serializeNodes [newParagraph [newParagraph [Text "body"]]] /\
  restructure (Some "Foo")
    [Elem "h2" [] [Text "Intro"]; Elem "h1" [] [Text "Foo"]] =
    [Elem "h2" [("style", h2StyleDom)] [newParagraph [Text "Intro"]]].
Proof. repeat split; vm_compute; reflexivity. Qed.

(** C2, amended.  The title loop of [stripDup] and of the DOM path removes
    every element of the leading run of elements whose normalized text is a
    title candidate, however many there are, and stops at the first element
    that does not match: the nodes of the run that are not elements and
    everything from that element on are kept. *)
Theorem leading_title_run_is_removed :
  forall (env : DomEnv) (html t : string) (run rest : list node),
    truthy t = true ->
    parseBody env html = Some (run ++ rest)%list ->
    Forall (fun n => isElement n = true ->
                     matchesTitle (candidateSet (Some t)) n = true) run ->
    (forall e, firstElementChild rest = Some e ->
               matchesTitle (candidateSet (Some t)) e = false) ->
    removeLeadingDuplicates (matchesTitle (candidateSet (Some t))) (run ++ rest) =
      (filter (fun n => negb (isElement n)) run ++ rest)%list /\
    List.length (run ++ rest) =
      List.length (filter isElement run) +
      List.length (removeLeadingDuplicates
                     (matchesTitle (candidateSet (Some t))) (run ++ rest)) /\
    stripDup env html (Some t) =
      innerHTML env (filter (fun n => negb (isElement n)) run ++ rest)%list.
Proof.
  intros env html t run rest Ht Hparse Hrun Hrest.
  assert (E : removeLeadingDuplicates (matchesTitle (candidateSet (Some t)))
                (run ++ rest) =
              (filter (fun n => negb (isElement n)) run ++ rest)%list).
  { rewrite removeLeadingDuplicates_dropLeading.
    apply dropLeading_run; assumption. }
  split; [exact E|split].
  - rewrite E. apply removed_count.
  - unfold stripDup. rewrite Ht, Hparse. simpl.
    unfold candidateSet, titleCandidates in E. rewrite Ht in E.
    simpl in E. rewrite E. reflexivity.
Qed.

Lemma leading_title_run_is_removed_witness :
  truthy "Foo" = true /\
  parseBody (fixtureEnv [(twoTitlesRaw, twoTitlesBody)]) twoTitlesRaw =
    Some ([Elem "h2" [] [Text "Foo"]; Elem "h2" [] [Text "Foo"]] ++
          [Elem "p" [] [Text "body"]])%list /\
  stripDup (fixtureEnv [(twoTitlesRaw, twoTitlesBody)]) twoTitlesRaw (Some "Foo") =
    innerHTML (fixtureEnv [(twoTitlesRaw, twoTitlesBody)])
      (filter (fun n => negb (isElement n))
         [Elem "h2" [] [Text "Foo"]; Elem "h2" [] [Text "Foo"]] ++
       [Elem "p" [] [Text "body"]])%list.
Proof.
  split; [reflexivity|split; [reflexivity|]].
  apply (leading_title_run_is_removed
           (fixtureEnv [(twoTitlesRaw, twoTitlesBody)]) twoTitlesRaw "Foo"
           [Elem "h2" [] [Text "Foo"]; Elem "h2" [] [Text "Foo"]]
           [Elem "p" [] [Text "body"]]).
  - reflexivity.
  - reflexivity.
  - repeat constructor.
  - intros e H. injection H as <-. reflexivity.
Defined.

(** ** Removal of a leading title element in the DOM path *)

Section LeadingTitle.

Lemma has_candidates (t x : string) :
  x = norm t \/ x = norm (stripChapterPrefix t) ->
  has (map norm [t; stripChapterPrefix t]) x = true.
Proof.
  intros [-> | ->]; unfold has; simpl; rewrite String.eqb_refl;
    [reflexivity|apply orb_true_r].
Qed.

Lemma candidateSet_truthy (t : string) :
  truthy t = true -> candidateSet (Some t) = map norm [t; stripChapterPrefix t].
Proof. intros Ht. unfold candidateSet, titleCandidates. rewrite Ht. reflexivity. Qed.

Lemma restructure_first (t : string) (body : list node) (e : node) :
  truthy t = true ->
  firstElementChild body = Some e ->
  (norm (textContent e) = norm t \/
   norm (textContent e) = norm (stripChapterPrefix t)) ->
  restructure (Some t) body = restructure (Some t) (removeFirstElement body).
Proof.
  intros Ht He Hm. unfold restructure.
  rewrite (removeLeadingDuplicates_first _ body e He); [reflexivity|].
  unfold matchesTitle. rewrite (candidateSet_truthy t Ht).
  apply has_candidates, Hm.
Qed.

End LeadingTitle.

(** C6.  In the HTML-structured path, when the first element of the parsed
    body has a text content that, normalized by [norm] (white space collapsed,
    trimmed, lower-cased), equals the normalized title or the normalized title
    without its leading [Chapter <digits>:] prefix, the output is the one
    computed from the body without that element.  For the input
    [<h2>Chapter 1: Foo</h2><p>body</p>] and the title [Chapter 1: Foo] the
    output is the serialization of the body paragraph alone. *)
Theorem leading_title_element_is_removed :
  forall (env : DomEnv),
    (forall (raw t : string) (body : list node) (e : node),
       hasHtmlHeadings raw = true ->
       truthy t = true ->
       parseBody env raw = Some body ->
       firstElementChild body = Some e ->
       (norm (textContent e) = norm t \/
        norm (textContent e) = norm (stripChapterPrefix t)) ->
       formatChapterContent env raw (Some t) =
         innerHTML env (restructure (Some t) (removeFirstElement body))) /\
    (parseBody env chapterFooRaw = Some chapterFooBody ->
     formatChapterContent env chapterFooRaw (Some "Chapter 1: Foo") =
       innerHTML env [newParagraph [newParagraph [Text "body"]]]).
Proof.
  intros env. split.
  - intros raw t body e Hh Ht Hp He Hm.
    unfold formatChapterContent, selectPath.
    destruct raw as [|c raw]; [discriminate Hh|].
    simpl truthy. simpl negb. cbv iota. rewrite Hh.
    unfold htmlStructuredPath, domPath. rewrite Hp.
    rewrite (restructure_first t body e Ht He Hm). reflexivity.
  - intros Hp.
    unfold formatChapterContent.
    change (selectPath chapterFooRaw) with HtmlStructured. cbv iota.
    unfold htmlStructuredPath, domPath. rewrite Hp.
    f_equal.
Qed.

Lemma leading_title_element_is_removed_witness :
  (hasHtmlHeadings shoutedFooRaw = true /\
   truthy "Chapter 1: Foo" = true /\
   parseBody fooEnv shoutedFooRaw = Some shoutedFooBody /\
   firstElementChild shoutedFooBody = Some (Elem "h2" [] [Text "  FOO "]) /\
   norm (textContent (Elem "h2" [] [Text "  FOO "])) =
     norm (stripChapterPrefix "Chapter 1: Foo") /\
   formatChapterContent fooEnv shoutedFooRaw (Some "Chapter 1: Foo") =
     innerHTML fooEnv
       (restructure (Some "Chapter 1: Foo") (removeFirstElement shoutedFooBody))) /\
  (parseBody fooEnv chapterFooRaw = Some chapterFooBody /\
   formatChapterContent fooEnv chapterFooRaw (Some "Chapter 1: Foo") =
     innerHTML fooEnv [newParagraph [newParagraph [Text "body"]]]).
Proof.
  split.
  - repeat (split; [reflexivity|]).
    apply (proj1 (leading_title_element_is_removed fooEnv)
             shoutedFooRaw "Chapter 1: Foo" shoutedFooBody
             (Elem "h2" [] [Text "  FOO "]));
      [reflexivity|reflexivity|reflexivity|reflexivity|right; reflexivity].
  - split; [reflexivity|].
    apply (proj2 (leading_title_element_is_removed fooEnv)). reflexivity.
Defined.

(** ** Mode selection *)

Section ModeSelection.

Lemma headingTagWithin_cons (c : ascii) (s : string) :
  headingTagWithin (String c s) = headingTagAt (String c s) || headingTagWithin s.
Proof. reflexivity. Qed.

Lemma matchAt_heading (p : option ascii) (s : string) :
  match matchAt reHtmlHeading p s with Some _ => true | None => false end =
  headingTagAt s.
Proof.
  unfold matchAt, reHtmlHeading, SeqL, hN, lt. simpl fold_right.
  destruct s as [|c1 [|c2 [|c3 [|c4 s]]]]; cbn -[isChar ci inRange isSpace].
  - reflexivity.
  - destruct (isChar "<"%char c1); reflexivity.
  - destruct (isChar "<"%char c1); [|reflexivity].
    destruct (ci "h"%char c2); reflexivity.
  - destruct (isChar "<"%char c1); [|reflexivity].
    destruct (ci "h"%char c2); [|reflexivity].
    destruct (inRange 49 54 c3); reflexivity.
  - destruct (isChar "<"%char c1); [|reflexivity].
    destruct (ci "h"%char c2); [|reflexivity].
    destruct (inRange 49 54 c3); [|reflexivity].
    destruct (isSpace c4 || isChar ">"%char c4); reflexivity.
Qed.

Lemma search_heading (p : option ascii) (s : string) :
  match search reHtmlHeading p s with Some _ => true | None => false end =
  headingTagWithin s.
Proof.
  revert p. induction s as [|c s IH]; intros p; rewrite search_unfold.
  - pose proof (matchAt_heading p EmptyString) as H.
    destruct (matchAt reHtmlHeading p EmptyString); [discriminate H|reflexivity].
  - pose proof (matchAt_heading p (String c s)) as H.
    specialize (IH (Some c)).
    rewrite headingTagWithin_cons, <- H, <- IH.
    destruct (matchAt reHtmlHeading p (String c s)); [reflexivity|].
    destruct (search reHtmlHeading (Some c) s) as [[sk h]|]; reflexivity.
Qed.

Lemma hasHtmlHeadings_within (raw : string) :
  hasHtmlHeadings raw = headingTagWithin raw.
Proof. unfold hasHtmlHeadings, test. apply search_heading. Qed.

Lemma ci_h (c : ascii) : ci "h"%char c = true <-> c = "h"%char \/ c = "H"%char.
Proof.
  destruct c as [[] [] [] [] [] [] [] []]; vm_compute;
    (split; [intros H; first [discriminate H | auto]
            |intros [H|H]; first [discriminate H | reflexivity]]).
Qed.

Lemma digit_1_6 (c : ascii) :
  inRange 49 54 c = true <-> In c ["1"; "2"; "3"; "4"; "5"; "6"]%char.
Proof.
  destruct c as [[] [] [] [] [] [] [] []]; vm_compute;
    (split; [intros H; first [discriminate H | tauto]
            |intros H; first [reflexivity
                             |repeat (destruct H as [H|H]; [discriminate H|]);
                              destruct H]]).
Qed.

Lemma headingTagAt_spec (s : string) :
  headingTagAt s = true <->
  exists (h d c : ascii) (post : string),
    s = String "<"%char (String h (String d (String c post))) /\
    (h = "h"%char \/ h = "H"%char) /\
    In d ["1"; "2"; "3"; "4"; "5"; "6"]%char /\
    (isSpace c = true \/ c = ">"%char).
Proof.
  split.
  - destruct s as [|c1 [|c2 [|c3 [|c4 s]]]]; try discriminate.
    unfold headingTagAt. rewrite !andb_true_iff, orb_true_iff.
    intros [[[H1 H2] H3] H4].
    apply Ascii.eqb_eq in H1. subst c1.
    exists c2, c3, c4, s. split; [reflexivity|].
    split; [apply ci_h, H2|]. split; [apply digit_1_6, H3|].
    destruct H4 as [H4|H4]; [left; exact H4|right; apply Ascii.eqb_eq, H4].
  - intros (h & d & c & post & -> & Hh & Hd & Hc).
    unfold headingTagAt. rewrite !andb_true_iff, orb_true_iff.
    repeat split.
    + apply ci_h, Hh.
    + apply digit_1_6, Hd.
    + destruct Hc as [Hc| ->]; [left; exact Hc|right; reflexivity].
Qed.

Lemma headingTagWithin_spec (raw : string) :
  headingTagWithin raw = true <-> containsHeadingTag raw.
Proof.
  split.
  - induction raw as [|c raw IH].
    + discriminate.
    + rewrite headingTagWithin_cons, orb_true_iff. intros [H|H].
      * apply headingTagAt_spec in H.
        destruct H as (h & d & c' & post & E & Hh & Hd & Hc).
        exists EmptyString, h, d, c', post. auto.
      * destruct (IH H) as (pre & h & d & c' & post & E & Hh & Hd & Hc).
        exists (String c pre), h, d, c', post. subst raw. auto.
  - intros (pre & h & d & c & post & -> & Hh & Hd & Hc).
    induction pre as [|a pre IH].
    + change (EmptyString ++ ?x) with x.
      assert (H : headingTagAt
                    (String "<"%char (String h (String d (String c post)))) = true)
        by (apply headingTagAt_spec; exists h, d, c, post; auto).
      rewrite headingTagWithin_cons, H. reflexivity.
    + change (String a pre ++ ?x) with (String a (pre ++ x)).
      rewrite headingTagWithin_cons, IH. apply orb_true_r.
Qed.

Lemma hasHtmlHeadings_spec (raw : string) :
  hasHtmlHeadings raw = true <-> containsHeadingTag raw.
Proof. rewrite hasHtmlHeadings_within. apply headingTagWithin_spec. Qed.

End ModeSelection.

(** C7.  [formatChapterContent] takes the HTML-structured path exactly when
    the input holds an opening heading tag h1 to h6 in either case; every
    other input that is not empty takes the plain-text path, and the empty
    input returns at once.  The output is the output of the path taken. *)
Theorem html_path_iff_heading_tag :
  forall raw : string,
    (selectPath raw = HtmlStructured <-> containsHeadingTag raw) /\
    (selectPath raw = PlainText <->
       raw <> EmptyString /\ ~ containsHeadingTag raw) /\
    (selectPath raw = EmptyInput <-> raw = EmptyString) /\
    (forall (env : DomEnv) (title : option string),
       formatChapterContent env raw title =
       match selectPath raw with
       | HtmlStructured => htmlStructuredPath env raw title
       | PlainText => plainTextPath env raw title
       | EmptyInput => EmptyString
       end).
Proof.
  intros raw.
  assert (Hne : ~ containsHeadingTag EmptyString).
  { intros H. apply hasHtmlHeadings_spec in H. discriminate H. }
  unfold formatChapterContent, selectPath.
  destruct raw as [|c raw].
  - simpl. repeat split; try discriminate; tauto.
  - simpl truthy. simpl negb. cbv iota.
    pose proof (hasHtmlHeadings_spec (String c raw)) as Hs.
    destruct (hasHtmlHeadings (String c raw));
      repeat split; try discriminate; try tauto;
      try (intros G; apply Hs in G; discriminate G);
      try (intros G; exact (proj1 Hs eq_refl)).
Qed.

Lemma html_path_iff_heading_tag_witness :
  selectPath "intro <H3 class=x>Part</H3>" = HtmlStructured /\
  containsHeadingTag "intro <H3 class=x>Part</H3>" /\
  selectPath "plain <hr> text" = PlainText.
Proof.
  pose proof (html_path_iff_heading_tag "intro <H3 class=x>Part</H3>") as [H _].
  pose proof (html_path_iff_heading_tag "plain <hr> text") as [_ [H' _]].
  split; [reflexivity|split; [apply H; reflexivity|reflexivity]].
Defined.

(** ** Inputs of white space *)

Section WhiteSpace.

Lemma trimStart_spaces (s : string) :
  allChars isSpace s = true -> trimStart s = EmptyString.
Proof.
  induction s as [|c s IH]; simpl; [reflexivity|].
  intros H. apply andb_true_iff in H. destruct H as [Hc Hs].
  rewrite Hc. apply IH, Hs.
Qed.

Lemma trim_spaces (s : string) :
  allChars isSpace s = true -> trim s = EmptyString.
Proof. intros H. unfold trim. rewrite (trimStart_spaces s H). reflexivity. Qed.

Lemma spaces_no_heading (s : string) :
  allChars isSpace s = true -> hasHtmlHeadings s = false.
Proof.
  intros H. destruct (hasHtmlHeadings s) eqn:E; [|reflexivity].
  apply hasHtmlHeadings_spec in E.
  destruct E as (pre & h & d & c & post & -> & _).
  rewrite allChars_app in H. apply andb_true_iff in H. destruct H as [_ H].
  discriminate H.
Qed.

Lemma linesOf_spaces (s : string) :
  allChars isSpace s = true -> linesOf s = [EmptyString].
Proof. intros H. unfold linesOf. rewrite (trim_spaces s H). reflexivity. Qed.

(** [stripDup] leaves the empty string as it is when parsing the empty
    string gives an empty body that serializes to the empty string. *)
Lemma stripDup_empty (env : DomEnv) (title : option string) :
  (forall body, parseBody env EmptyString = Some body -> body = []) ->
  innerHTML env [] = EmptyString ->
  stripDup env EmptyString title = EmptyString.
Proof.
  intros Hparse Hser. unfold stripDup.
  destruct title as [t|]; [|reflexivity].
  destruct (negb (truthy t)); [reflexivity|].
  destruct (parseBody env EmptyString) as [body|] eqn:E; [|reflexivity].
  rewrite (Hparse body eq_refl). exact Hser.
Qed.

End WhiteSpace.

(** C10.  For an input that is not empty and holds white space only, and any
    title or none: the plain-text path is taken, the only line is blank, the
    loop pushes nothing, and the output is the empty string.  The browser is
    assumed to parse the empty string into an empty body (or to throw) and to
    serialize an empty body as the empty string. *)
Theorem whitespace_only_input_gives_empty_output :
  forall (env : DomEnv) (raw : string) (title : option string),
    raw <> EmptyString ->
    allChars isSpace raw = true ->
    (forall body, parseBody env EmptyString = Some body -> body = []) ->
    innerHTML env [] = EmptyString ->
    selectPath raw = PlainText /\
    Forall (fun l => blankLine l = true) (linesOf raw) /\
    plainLines (linesOf raw) = [] /\
    formatChapterContent env raw title = EmptyString.
Proof.
  intros env raw title Hne Hws Hparse Hser.
  assert (Hpath : selectPath raw = PlainText).
  { unfold selectPath. destruct raw as [|c raw]; [destruct (Hne eq_refl)|].
    simpl truthy. simpl negb. cbv iota.
    rewrite (spaces_no_heading _ Hws). reflexivity. }
  split; [exact Hpath|].
  rewrite (linesOf_spaces raw Hws).
  split; [repeat constructor|]. split; [reflexivity|].
  unfold formatChapterContent. rewrite Hpath.
  unfold plainTextPath. rewrite (linesOf_spaces raw Hws).
  apply stripDup_empty; assumption.
Qed.

Lemma whitespace_only_input_gives_empty_output_witness :
  blankRaw <> EmptyString /\
  allChars isSpace blankRaw = true /\
  parseBody (fixtureEnv [(EmptyString, [])]) EmptyString = Some [] /\
  innerHTML (fixtureEnv [(EmptyString, [])]) [] = EmptyString /\
  formatChapterContent (fixtureEnv [(EmptyString, [])]) blankRaw (Some "Title") =
    EmptyString.
Proof.
  assert (Hne : blankRaw <> EmptyString) by discriminate.
  assert (Hp : forall body,
             parseBody (fixtureEnv [(EmptyString, [])]) EmptyString = Some body ->
             body = []).
  { intros body H. injection H as <-. reflexivity. }
  split; [exact Hne|]. split; [reflexivity|]. split; [reflexivity|].
  split; [reflexivity|].
  exact (proj2 (proj2 (proj2
    (whitespace_only_input_gives_empty_output
       (fixtureEnv [(EmptyString, [])]) blankRaw (Some "Title")
       Hne eq_refl Hp eq_refl)))).
Defined.

(** ** Failure of the parser *)

Section ParserFailure.

Lemma stripDup_no_parser (env : DomEnv) (html : string) (t : option string) :
  parseBody env html = None -> stripDup env html t = html.
Proof.
  intros H. unfold stripDup. destruct t as [t|]; [|reflexivity].
  destruct (negb (truthy t)); [reflexivity|]. rewrite H. reflexivity.
Qed.

(** The [catch] of [stripDup] returns a string whatever the browser does. *)
Lemma stripDup_returns (b : Exceptions.Browser) (html : string)
    (t : option string) :
  exists out : string, Exceptions.stripDup b html t = Exceptions.Returned out.
Proof.
  unfold Exceptions.stripDup. destruct t as [t|]; [|eexists; reflexivity].
  destruct (negb (truthy t)); [eexists; reflexivity|].
  destruct (Exceptions.newDOMParser b) as [u|]; [|eexists; reflexivity].
  cbn [Exceptions.bind].
  destruct (Exceptions.parseFromString b html) as [body|];
    [|eexists; reflexivity].
  cbn [Exceptions.bind].
  destruct (Exceptions.getInnerHTML b _) as [out|]; eexists; reflexivity.
Qed.

Lemma formatChapterContent_returns (b : Exceptions.Browser) (raw : string)
    (title : option string) :
  exists html : string,
    Exceptions.formatChapterContent b raw title = Exceptions.Returned html.
Proof.
  unfold Exceptions.formatChapterContent.
  destruct (negb (truthy raw)); [eexists; reflexivity|].
  destruct (hasHtmlHeadings raw); [|apply stripDup_returns].
  destruct (Exceptions.domBlock b raw title) as [html|].
  - exists html. reflexivity.
  - apply stripDup_returns.
Qed.

Lemma stripDup_thrown (b : Exceptions.Browser) (html : string)
    (t : option string) :
  Exceptions.newDOMParser b = Exceptions.Thrown \/
  (forall s, Exceptions.parseFromString b s = Exceptions.Thrown) ->
  Exceptions.stripDup b html t = Exceptions.Returned html.
Proof.
  intros Hno. unfold Exceptions.stripDup. destruct t as [t|]; [|reflexivity].
  destruct (negb (truthy t)); [reflexivity|].
  destruct Hno as [Hno|Hno].
  - rewrite Hno. reflexivity.
  - destruct (Exceptions.newDOMParser b) as [u|]; [|reflexivity].
    cbn [Exceptions.bind]. rewrite Hno. reflexivity.
Qed.

Lemma domBlock_no_parser (b : Exceptions.Browser) (raw : string)
    (title : option string) :
  Exceptions.newDOMParser b = Exceptions.Thrown \/
  (forall s, Exceptions.parseFromString b s = Exceptions.Thrown) ->
  Exceptions.tryCatch (Exceptions.domBlock b raw title)
                      (Exceptions.regexFallback b raw title) =
  Exceptions.regexFallback b raw title.
Proof.
  intros Hno. unfold Exceptions.domBlock. destruct Hno as [Hno|Hno].
  - rewrite Hno. reflexivity.
  - destruct (Exceptions.newDOMParser b) as [u|]; [|reflexivity].
    cbn [Exceptions.bind]. rewrite Hno. reflexivity.
Qed.

Section PureEnvironment.

Variable b : Exceptions.Browser.
Variable serializer : list node -> string.
Hypothesis serializes :
  forall ns, Exceptions.getInnerHTML b ns = Exceptions.Returned (serializer ns).

Lemma stripDup_pure (html : string) (t : option string) :
  Exceptions.stripDup b html t =
  Exceptions.Returned (stripDup (Exceptions.pureEnv b serializer) html t).
Proof.
  unfold Exceptions.stripDup, stripDup. destruct t as [t|]; [|reflexivity].
  destruct (negb (truthy t)); [reflexivity|].
  unfold Exceptions.pureEnv. cbn [parseBody innerHTML].
  destruct (Exceptions.newDOMParser b) as [u|]; [|reflexivity].
  cbn [Exceptions.bind].
  destruct (Exceptions.parseFromString b html) as [body|]; [|reflexivity].
  cbn [Exceptions.bind]. rewrite serializes. reflexivity.
Qed.

Lemma formatChapterContent_pure (raw : string) (title : option string) :
  Exceptions.formatChapterContent b raw title =
  Exceptions.Returned
    (formatChapterContent (Exceptions.pureEnv b serializer) raw title).
Proof.
  unfold Exceptions.formatChapterContent, formatChapterContent, selectPath.
  destruct (negb (truthy raw)); [reflexivity|].
  destruct (hasHtmlHeadings raw).
  - unfold htmlStructuredPath, domPath, Exceptions.domBlock.
    unfold Exceptions.pureEnv at 1. cbn [parseBody].
    destruct (Exceptions.newDOMParser b) as [u|].
    + cbn [Exceptions.bind].
      destruct (Exceptions.parseFromString b raw) as [body|].
      * cbn [Exceptions.bind]. rewrite serializes. reflexivity.
      * apply stripDup_pure.
    + apply stripDup_pure.
  - apply stripDup_pure.
Qed.

End PureEnvironment.

End ParserFailure.

(** C5.  [formatChapterContent] never throws: in the model where making the
    parser, parsing and serializing can each throw, whatever the browser
    does, the call returns a string.  When the input holds a heading tag and
    the first [try] block throws, the result is the one of the regex
    fallback; when there is no [DOMParser], or the parser throws on every
    input, the result is the HTML assembled by the fallback loop or by the
    plain-text loop, returned by the [catch] of [stripDup] as it is.  When the
    serializer does not throw, the result is the one of the function of
    [Normalizer] in the environment whose parser has no answer where the
    browser throws.  The empty input gives the empty output, and so does a
    chapter whose content is undefined or empty. *)
Theorem parser_failure_falls_back :
  forall (b : Exceptions.Browser) (raw : string) (title : option string),
    (exists html : string,
       Exceptions.formatChapterContent b raw title = Exceptions.Returned html) /\
    (hasHtmlHeadings raw = true ->
     Exceptions.domBlock b raw title = Exceptions.Thrown ->
     Exceptions.formatChapterContent b raw title =
     Exceptions.regexFallback b raw title) /\
    (Exceptions.newDOMParser b = Exceptions.Thrown \/
     (forall s, Exceptions.parseFromString b s = Exceptions.Thrown) ->
     Exceptions.formatChapterContent b raw title =
     Exceptions.Returned (assembled raw)) /\
    (forall serializer : list node -> string,
       (forall ns, Exceptions.getInnerHTML b ns =
                   Exceptions.Returned (serializer ns)) ->
       Exceptions.formatChapterContent b raw title =
       Exceptions.Returned
         (formatChapterContent (Exceptions.pureEnv b serializer) raw title)) /\
    Exceptions.formatChapterContent b EmptyString title =
      Exceptions.Returned EmptyString /\
    (forall t : string,
       Exceptions.renderChapter b None t = Exceptions.Returned EmptyString) /\
    (forall t : string,
       Exceptions.renderChapter b (Some EmptyString) t =
       Exceptions.Returned EmptyString).
Proof.
  intros b raw title.
  split; [apply formatChapterContent_returns|].
  split; [|split; [|split; [|repeat split]]].
  - intros Hh Hthrown. unfold Exceptions.formatChapterContent.
    destruct raw as [|c raw]; [discriminate Hh|].
    cbn [truthy negb]. rewrite Hh, Hthrown. reflexivity.
  - intros Hno. unfold Exceptions.formatChapterContent, assembled, selectPath.
    destruct (negb (truthy raw)); [reflexivity|].
    destruct (hasHtmlHeadings raw).
    + rewrite (domBlock_no_parser b raw title Hno).
      apply stripDup_thrown, Hno.
    + apply stripDup_thrown, Hno.
  - intros serializer Hser. apply formatChapterContent_pure, Hser.
Qed.

Lemma parser_failure_falls_back_witness :
  hasHtmlHeadings "<h2>T</h2>A. B. C." = true /\
  Exceptions.domBlock throwingParser "<h2>T</h2>A. B. C." (Some "T") =
    Exceptions.Thrown /\
  Exceptions.formatChapterContent throwingParser "<h2>T</h2>A. B. C." (Some "T") =
    Exceptions.regexFallback throwingParser "<h2>T</h2>A. B. C." (Some "T") /\
  Exceptions.formatChapterContent noBrowser "<h2>T</h2>A. B. C." (Some "T") =
    Exceptions.Returned (assembled "<h2>T</h2>A. B. C.").
Proof.
  split; [reflexivity|]. split; [reflexivity|]. split.
  - exact (proj1 (proj2
      (parser_failure_falls_back throwingParser
         "<h2>T</h2>A. B. C." (Some "T"))) eq_refl eq_refl).
  - exact (proj1 (proj2 (proj2
      (parser_failure_falls_back noBrowser
         "<h2>T</h2>A. B. C." (Some "T")))) (or_introl eq_refl)).
Defined.

(** ** Inline styles *)

Section Styles.

Lemma getAttribute_setAttribute (name value : string)
    (attrs : list (string * string)) :
  getAttribute name (setAttribute name value attrs) = Some value.
Proof.
  induction attrs as [|[n v] attrs IH]; simpl.
  - rewrite String.eqb_refl. reflexivity.
  - destruct (String.eqb n name) eqn:E; simpl; rewrite E; [reflexivity|exact IH].
Qed.

Lemma styledFor_nil (n : node) : styledFor [] n.
Proof.
  induction n as [d|d|t a ch IH] using node_children_ind; constructor.
  - intros [].
  - exact IH.
Qed.

(** Styling one more tag keeps the tags styled before. *)
Lemma styleTag_styledFor (tags : list string) (tag style : string) (n : node) :
  fixedStyle tag = Some style ->
  styledFor tags n ->
  styledFor (tag :: tags) (styleTag tag style n).
Proof.
  intros Hfix.
  induction n as [d|d|t a ch IH] using node_children_ind; intros H.
  - constructor.
  - constructor.
  - inversion H as [| |t' a' ch' Hattr Hch]; subst.
    change (styleTag tag style (Elem t a ch))
      with (Elem t (if String.eqb t tag then setAttribute "style" style a else a)
                 (map (styleTag tag style) ch)).
    constructor.
    + destruct (String.eqb t tag) eqn:E.
      * intros _. apply String.eqb_eq in E. subst t.
        rewrite getAttribute_setAttribute. symmetry. exact Hfix.
      * intros [Hin|Hin]; [|apply Hattr, Hin].
        subst t. rewrite String.eqb_refl in E. discriminate E.
    + apply Forall_forall. intros m Hm. apply in_map_iff in Hm.
      destruct Hm as [x [<- Hx]].
      rewrite Forall_forall in IH, Hch. apply (IH x Hx), (Hch x Hx).
Qed.

Lemma map_styleTag_styledFor (tags : list string) (tag style : string)
    (ns : list node) :
  fixedStyle tag = Some style ->
  Forall (styledFor tags) ns ->
  Forall (styledFor (tag :: tags)) (map (styleTag tag style) ns).
Proof.
  intros Hfix H. induction H as [|n ns Hn _ IH]; simpl; constructor.
  - apply styleTag_styledFor; assumption.
  - exact IH.
Qed.

Lemma replaceBr_styledFor (tags : list string) (data : string) (n : node) :
  styledFor tags n -> styledFor tags (replaceBr data n).
Proof.
  induction n as [d|d|t a ch IH] using node_children_ind; intros H.
  - constructor.
  - constructor.
  - inversion H as [| |t' a' ch' Hattr Hch]; subst.
    change (replaceBr data (Elem t a ch))
      with (if String.eqb t "br" then Text data
            else Elem t a (map (replaceBr data) ch)).
    destruct (String.eqb t "br"); constructor; [exact Hattr|].
    apply Forall_forall. intros m Hm. apply in_map_iff in Hm.
    destruct Hm as [x [<- Hx]].
    rewrite Forall_forall in IH, Hch. apply (IH x Hx), (Hch x Hx).
Qed.

Lemma newParagraph_styledFor (tags : list string) (children : list node) :
  Forall (styledFor tags) children -> styledFor tags (newParagraph children).
Proof. intros H. constructor; [intros _; reflexivity|exact H]. Qed.

Lemma wrapLooseNode_styledFor (tags : list string) (n : node) :
  styledFor tags n -> Forall (styledFor tags) (wrapLooseNode n).
Proof.
  induction n as [d|d|t a ch IH] using node_children_ind; intros H.
  - simpl. destruct (truthy _); [|constructor].
    apply Forall_forall. intros m Hm. apply in_map_iff in Hm.
    destruct Hm as [c [<- _]].
    apply newParagraph_styledFor. repeat constructor.
  - repeat constructor.
  - rewrite wrapLooseNode_Elem.
    destruct (has blockTags (tagName t)).
    + inversion H as [| |t' a' ch' Hattr Hch]; subst.
      constructor; [|constructor]. constructor; [exact Hattr|].
      clear H Hattr. induction ch as [|x ch IHch]; simpl; [constructor|].
      inversion IH; inversion Hch; subst.
      apply Forall_app. split; auto.
    + constructor; [|constructor].
      apply newParagraph_styledFor. constructor; [exact H|constructor].
Qed.

Lemma wrapLooseContent_styledFor (tags : list string) (ns : list node) :
  Forall (styledFor tags) ns -> Forall (styledFor tags) (wrapLooseContent ns).
Proof.
  unfold wrapLooseContent.
  induction 1 as [|n ns Hn _ IH]; simpl; [constructor|].
  apply Forall_app. split; [apply wrapLooseNode_styledFor, Hn|exact IH].
Qed.

(** In the tree the DOM path serializes, every h2, h3, p and ul element,
    found in the input or created by the normalizer, carries its style. *)
Lemma restructure_styled (title : option string) (body : list node) :
  Forall (styledFor ["ul"; "p"; "h3"; "h2"]) (restructure title body).
Proof.
  unfold restructure.
  apply wrapLooseContent_styledFor.
  apply Forall_forall. intros m Hm. apply in_map_iff in Hm.
  destruct Hm as [x [<- Hx]]. apply replaceBr_styledFor. revert x Hx.
  apply Forall_forall.
  repeat (apply map_styleTag_styledFor; [reflexivity|]).
  apply Forall_forall. intros x _. apply styledFor_nil.
Qed.

End Styles.

Section CreatedTags.

Lemma startsWith_app (a b : string) : startsWith a (a ++ b) = true.
Proof.
  induction a as [|c a IH]; simpl; [reflexivity|].
  rewrite Ascii.eqb_refl. exact IH.
Qed.

Lemma plainItem_opensStyled (x : string) : plainItem x -> opensStyled x.
Proof.
  intros [t|y [| |t|t|t]]; unfold opensStyled.
  - unfold heading2. rewrite startsWith_app.
    repeat split; intros H; try reflexivity; discriminate H.
  - repeat split; intros H; discriminate H.
  - repeat split; intros H; discriminate H.
  - unfold heading3. rewrite startsWith_app.
    repeat split; intros H; try reflexivity; discriminate H.
  - repeat split; intros H; discriminate H.
  - unfold paragraph. rewrite startsWith_app.
    repeat split; intros H; try reflexivity; discriminate H.
Qed.

(** A line pushed by the fallback that is not an input line is one of the
    four lines the loop creates. *)
Lemma fbItem_created (lines : list string) (x : string) :
  fbItem lines x ->
  (forall l : string, In l lines -> x <> trim l) ->
  (startsWith "<p" x = true -> startsWith pTag x = true) /\
  (startsWith "<ul" x = true -> x = ulTag) /\
  startsWith "<h2" x = false /\ startsWith "<h3" x = false.
Proof.
  intros [| |t|t|l Hin Htag] Hnew.
  - repeat split; intros H; try reflexivity; discriminate H.
  - repeat split; intros H; discriminate H.
  - repeat split; intros H; discriminate H.
  - rewrite startsWith_app. repeat split; intros H; discriminate H.
  - exfalso. apply (Hnew l Hin). reflexivity.
Qed.

End CreatedTags.

(** C8, as stated, fails: the list item the plain-text path creates has no
    style attribute, nor has its [<ul>]; the list item of the regex fallback
    has none either. *)
Lemma list_items_carry_no_style :
  formatChapterContent (noDomParser serializeNodes)
    ("Title" ++ nl ++ "- a") None =
    join nl [h2Tag ++ "Title" ++ "</h2>"; "<ul>"; "<li>a</li>"; "</ul>"] /\
  includes "style" "<li>a</li>" = false /\
  includes "style" "<ul>" = false /\
  fallbackLines ["- a"] = [ulTag; "<li>a</li>"; "</ul>"].
Proof. repeat split; vm_compute; reflexivity. Qed.

(** C8, amended.  Every [<h2>], [<h3>] and [<p>] that the plain-text path
    pushes opens with the tag that carries the fixed style attribute.  Every
    line the regex fallback pushes is the styled [<ul>] tag, [</ul>], an
    [<li>] without attributes or a styled [<p>], or else one of the input
    lines, trimmed; so a pushed line that is not an input line opens with the
    styled tag when it opens a [<p>] or a [<ul>].  In the tree the DOM path
    serializes every h2, h3, p and ul element carries the fixed style of its
    tag.  List items carry no style attribute. *)
Theorem created_headings_and_paragraphs_are_styled :
  (forall (lines : list string) (x : string),
     In x (plainLines lines) -> opensStyled x) /\
  (forall lines : list string, Forall (fbItem lines) (fallbackLines lines)) /\
  (forall (lines : list string) (x : string),
     In x (fallbackLines lines) ->
     (forall l : string, In l lines -> x <> trim l) ->
     (startsWith "<p" x = true -> startsWith pTag x = true) /\
     (startsWith "<ul" x = true -> x = ulTag) /\
     startsWith "<h2" x = false /\ startsWith "<h3" x = false) /\
  (forall (title : option string) (body : list node),
     Forall (styledFor ["ul"; "p"; "h3"; "h2"]) (restructure title body)) /\
  (startsWith "<h2 style=" h2Open = true /\
   startsWith "<h3 style=" h3Open = true /\
   startsWith "<p style=" pOpen = true /\
   startsWith "<ul style=" ulOpen = true) /\
  (forall t : string, startsWith "<li>" (listItem t) = true).
Proof.
  split; [|split; [|split; [|split; [|split]]]].
  - intros lines x Hx. apply plainItem_opensStyled.
    pose proof (plainLines_items lines) as H.
    rewrite Forall_forall in H. apply H, Hx.
  - apply fallbackLines_items.
  - intros lines x Hx Hnew.
    pose proof (fallbackLines_items lines) as H.
    rewrite Forall_forall in H.
    apply (fbItem_created lines x); [apply H, Hx|exact Hnew].
  - apply restructure_styled.
  - repeat split; reflexivity.
  - intros t. reflexivity.
Qed.

Lemma created_headings_and_paragraphs_are_styled_witness :
  In (pTag ++ escapeHtml "a < b" ++ "</p>") (fallbackLines ["<h2>T</h2>"; "a < b"]) /\
  (forall l : string,
     In l ["<h2>T</h2>"; "a < b"] ->
     pTag ++ escapeHtml "a < b" ++ "</p>" <> trim l) /\
  ((startsWith "<p" (pTag ++ escapeHtml "a < b" ++ "</p>") = true ->
    startsWith pTag (pTag ++ escapeHtml "a < b" ++ "</p>") = true) /\
   (startsWith "<ul" (pTag ++ escapeHtml "a < b" ++ "</p>") = true ->
    pTag ++ escapeHtml "a < b" ++ "</p>" = ulTag) /\
   startsWith "<h2" (pTag ++ escapeHtml "a < b" ++ "</p>") = false /\
   startsWith "<h3" (pTag ++ escapeHtml "a < b" ++ "</p>") = false).
Proof.
  assert (Hin : In (pTag ++ escapeHtml "a < b" ++ "</p>")
                   (fallbackLines ["<h2>T</h2>"; "a < b"])).
  { right. left. reflexivity. }
  assert (Hnew : forall l : string,
            In l ["<h2>T</h2>"; "a < b"] ->
            pTag ++ escapeHtml "a < b" ++ "</p>" <> trim l).
  { intros l [<-|[<-|[]]]; vm_compute; discriminate. }
  exact (conj Hin (conj Hnew
    (proj1 (proj2 (proj2 created_headings_and_paragraphs_are_styled))
       ["<h2>T</h2>"; "a < b"] (pTag ++ escapeHtml "a < b" ++ "</p>")
       Hin Hnew))).
Defined.

(** ** The examples of the specification *)

Section SpecificationExamples.

Let env : DomEnv := noDomParser serializeNodes.

Example empty_input : formatChapterContent env EmptyString (Some "Title") = EmptyString.
Proof. reflexivity. Qed.

Example heading_then_paragraph :
  formatChapterContent env ("My Chapter" ++ nl ++ "Some text here.") None =
  join nl [heading2 "My Chapter"; paragraph "Some text here."].
Proof. vm_compute. reflexivity. Qed.

Example bullet_first_line_is_heading :
  formatChapterContent env ("- item one" ++ nl ++ "- item two") None =
  join nl [heading2 "- item one"; "<ul>"; listItem "item two"; "</ul>"].
Proof. vm_compute. reflexivity. Qed.

Example numbered_first_line_is_heading :
  formatChapterContent env ("1.1 Defining AI" ++ nl ++ "Some explanation.")
    (Some "Other") =
  join nl [heading2 "1.1 Defining AI"; paragraph "Some explanation."].
Proof. vm_compute. reflexivity. Qed.

Example numbered_later_line_is_subheading :
  plainLines ["Title"; "1.1 Defining AI"; "Key Concepts"; "a < b & c"] =
  [heading2 "Title"; heading3 "1.1 Defining AI"; heading3 "Key Concepts";
   paragraph "a < b & c"].
Proof. vm_compute. reflexivity. Qed.

End SpecificationExamples.

Section EscapeRoundTrip.

Lemma unescape_escape_char (c : ascii) (t : string) :
  unescapeHtml (escapeHtml (String c EmptyString) ++ t) = String c (unescapeHtml t).
Proof. destruct c as [[] [] [] [] [] [] [] []]; reflexivity. Qed.

Lemma unescape_escape (s : string) : unescapeHtml (escapeHtml s) = s.
Proof.
  induction s as [|c s IH]; [reflexivity|].
  change (String c s) with (String c EmptyString ++ s) at 1.
  rewrite escapeHtml_app, unescape_escape_char, IH. reflexivity.
Qed.

Lemma escape_char_special (c : ascii) :
  isSpecial c = true -> 4 <= String.length (escapeHtml (String c EmptyString)).
Proof. destruct c as [[] [] [] [] [] [] [] []]; vm_compute; intros H; first [discriminate H | lia]. Qed.

Lemma escape_char_plain (c : ascii) :
  isSpecial c = false -> escapeHtml (String c EmptyString) = String c EmptyString.
Proof. destruct c as [[] [] [] [] [] [] [] []]; vm_compute; intros H; first [discriminate H | reflexivity]. Qed.

Lemma escapeHtml_cons (c : ascii) (s : string) :
  escapeHtml (String c s) = escapeHtml (String c EmptyString) ++ escapeHtml s.
Proof.
  change (String c s) with (String c EmptyString ++ s) at 1.
  apply escapeHtml_app.
Qed.

Lemma escapeHtml_length (s : string) :
  String.length s <= String.length (escapeHtml s).
Proof.
  induction s as [|c s IH]; [apply le_n|].
  rewrite escapeHtml_cons, length_append.
  destruct (isSpecial c) eqn:E.
  - pose proof (escape_char_special c E). simpl. lia.
  - rewrite (escape_char_plain c E). simpl. lia.
Qed.

End EscapeRoundTrip.

(** X1.  [escapeHtml] loses nothing: replacing the five entities [&amp;],
    [&lt;], [&gt;], [&quot;] and [&#039;] of an escaped text by their
    characters gives the text back, so two texts with the same escaped form
    are the same text. *)
Theorem escapeHtml_injective :
  (forall s : string, unescapeHtml (escapeHtml s) = s) /\
  (forall a b : string, escapeHtml a = escapeHtml b -> a = b).
Proof.
  split; [apply unescape_escape|].
  intros a b H. rewrite <- (unescape_escape a), <- (unescape_escape b), H.
  reflexivity.
Qed.

Lemma escapeHtml_injective_witness :
  escapeHtml "a<b" = escapeHtml ("a" ++ "<b") /\ "a<b" = "a" ++ "<b".
Proof.
  assert (H : escapeHtml "a<b" = escapeHtml ("a" ++ "<b")) by reflexivity.
  exact (conj H (proj2 escapeHtml_injective "a<b" ("a" ++ "<b") H)).
Defined.

(** X2.  [escapeHtml] leaves a text as it is exactly when the text holds none
    of the five characters [&], [<], [>], double quote and apostrophe, and it
    never makes a text shorter. *)
Theorem escapeHtml_fixes_exactly_plain_text :
  forall s : string,
    (escapeHtml s = s <-> allChars (fun c => negb (isSpecial c)) s = true) /\
    String.length s <= String.length (escapeHtml s).
Proof.
  intros s. split; [|apply escapeHtml_length].
  induction s as [|c s IH]; [split; reflexivity|].
  rewrite escapeHtml_cons. simpl allChars. rewrite andb_true_iff, negb_true_iff.
  destruct (isSpecial c) eqn:E.
  - split; [|intros [H _]; discriminate H].
    intros H. exfalso.
    assert (L : String.length (escapeHtml (String c EmptyString) ++ escapeHtml s) =
                String.length (String c s)) by (rewrite H; reflexivity).
    rewrite length_append in L. simpl in L.
    pose proof (escape_char_special c E). pose proof (escapeHtml_length s). lia.
  - rewrite (escape_char_plain c E). simpl. split.
    + intros H. injection H as H. split; [reflexivity|apply IH, H].
    + intros [_ H]. f_equal. apply IH, H.
Qed.

Section ListNesting.

Lemma wellNested_cons (inside : bool) (x : string) (more : list string) :
  wellNested inside (x :: more) =
  if String.eqb x "<ul>" then negb inside && wellNested true more
  else if String.eqb x "</ul>" then inside && wellNested false more
  else if startsWith "<li>" x then inside && wellNested true more
  else negb inside && wellNested false more.
Proof. reflexivity. Qed.

Lemma closeListIfOpen_nested (st : ptState) :
  nested st ->
  nested (closeListIfOpen st) /\ inList (closeListIfOpen st) = false.
Proof.
  intros [H1 H2]. destruct st as [r f [|]]; unfold closeListIfOpen; simpl in *.
  - split; [|reflexivity]. split; [|reflexivity].
    intros m. simpl. rewrite <- app_assoc. simpl. rewrite H1. reflexivity.
  - split; [|reflexivity]. split; assumption.
Qed.

Lemma push_outside_nested (x : string) (st : ptState) :
  nested st -> inList st = false -> firstHeadingDone st = true ->
  String.eqb x "<ul>" = false -> String.eqb x "</ul>" = false ->
  startsWith "<li>" x = false ->
  nested (push x st).
Proof.
  intros [H1 H2] Hin Hd Ha Hb Hc. split.
  - intros m. unfold push. cbn [result inList]. rewrite <- app_assoc.
    change ([x] ++ m)%list with (x :: m).
    rewrite H1, Hin, wellNested_cons, Ha, Hb, Hc. reflexivity.
  - simpl. intros E. rewrite Hd in E. discriminate E.
Qed.

Lemma plainStep_nested (st : ptState) (l : string) :
  nested st -> nested (plainStep st l).
Proof.
  intros Hn. unfold plainStep.
  destruct (String.length (trim (trimEnd l))) as [|n] eqn:El.
  { apply closeListIfOpen_nested, Hn. }
  change (Nat.eqb (S n) 0) with false. change (Nat.ltb 0 (S n)) with true.
  cbv iota. rewrite andb_true_r.
  destruct (firstHeadingDone st) eqn:Hd; simpl negb; cbv iota.
  2:{ destruct Hn as [H1 H2]. specialize (H2 Hd).
      split; [|intros E; discriminate E].
      intros m. simpl. rewrite <- app_assoc. simpl. rewrite H1, H2. reflexivity. }
  assert (Hclosed : forall x,
            String.eqb x "<ul>" = false -> String.eqb x "</ul>" = false ->
            startsWith "<li>" x = false ->
            nested (push x (closeListIfOpen st))).
  { intros x Ha Hb Hc.
    destruct (closeListIfOpen_nested st Hn) as [Hc1 Hc2].
    apply push_outside_nested; try assumption.
    rewrite closeListIfOpen_done. exact Hd. }
  destruct (test reNumbered _); [apply Hclosed; reflexivity|].
  destruct (exec reBullet _).
  - destruct Hn as [H1 H2]. split; [|simpl; intros E; destruct (inList st);
      simpl in E; try rewrite Hd in E; discriminate E].
    intros m. destruct (inList st) eqn:Hi; unfold push; simpl.
    + rewrite <- app_assoc. simpl. rewrite H1, ?Hi. reflexivity.
    + rewrite <- !app_assoc. simpl. rewrite H1, ?Hi. reflexivity.
  - destruct (looksLikeHeading _); apply Hclosed; reflexivity.
Qed.

Lemma fold_plainStep_nested (ls : list string) (st : ptState) :
  nested st -> nested (fold_left plainStep ls st).
Proof.
  revert st. induction ls as [|l ls IH]; intros st H; simpl; [exact H|].
  apply IH, plainStep_nested, H.
Qed.

End ListNesting.

(** X3.  The lists of the plain-text path are well nested, whatever the
    input lines: [<ul>] is pushed only outside a list, [<li>] and [</ul>] only
    inside one, headings and paragraphs only outside, and no list is open at
    the end. *)
Theorem plain_text_lists_are_well_nested :
  forall lines : list string, wellNested false (plainLines lines) = true.
Proof.
  intros lines. unfold plainLines.
  assert (H : nested (fold_left plainStep lines initialState)).
  { apply fold_plainStep_nested. split; [reflexivity|reflexivity]. }
  destruct (closeListIfOpen_nested _ H) as [[H1 _] H2].
  specialize (H1 []). rewrite app_nil_r, H2 in H1. exact H1.
Qed.

(** ** Line breaks in the DOM path *)

Section NoLineBreakElements.

Lemma hasTag_Elem (tag t : string) (a : list (string * string)) (ch : list node) :
  hasTag tag (Elem t a ch) = String.eqb t tag || existsb (hasTag tag) ch.
Proof. reflexivity. Qed.

Lemma existsb_false_Forall (A : Type) (f : A -> bool) (l : list A) :
  existsb f l = false <-> Forall (fun x => f x = false) l.
Proof.
  induction l as [|x l IH]; simpl.
  - split; [constructor|reflexivity].
  - rewrite orb_false_iff, IH. split.
    + intros [H1 H2]. constructor; assumption.
    + intros H. inversion H; auto.
Qed.

Lemma replaceBr_no_br (data : string) (n : node) :
  hasTag "br" (replaceBr data n) = false.
Proof.
  induction n as [d|d|t a ch IH] using node_children_ind; try reflexivity.
  change (replaceBr data (Elem t a ch))
    with (if String.eqb t "br" then Text data
          else Elem t a (map (replaceBr data) ch)).
  destruct (String.eqb t "br") eqn:E; [reflexivity|].
  rewrite hasTag_Elem, E. simpl orb.
  apply existsb_false_Forall. apply Forall_forall.
  intros m Hm. apply in_map_iff in Hm. destruct Hm as [x [<- Hx]].
  rewrite Forall_forall in IH. apply IH, Hx.
Qed.

Lemma wrapLooseNode_no_br (n : node) :
  hasTag "br" n = false ->
  Forall (fun m => hasTag "br" m = false) (wrapLooseNode n).
Proof.
  induction n as [d|d|t a ch IH] using node_children_ind; intros H.
  - simpl. destruct (truthy _); [|constructor].
    apply Forall_forall. intros m Hm. apply in_map_iff in Hm.
    destruct Hm as [c [<- _]]. reflexivity.
  - constructor; [reflexivity|constructor].
  - rewrite wrapLooseNode_Elem. rewrite hasTag_Elem in H.
    apply orb_false_iff in H. destruct H as [Ht Hch].
    destruct (has blockTags (tagName t)).
    + constructor; [|constructor]. rewrite hasTag_Elem, Ht. simpl orb.
      apply existsb_false_Forall. apply existsb_false_Forall in Hch.
      clear Ht. induction ch as [|x ch IHch]; simpl; [constructor|].
      inversion IH; inversion Hch; subst.
      apply Forall_app. split; auto.
    + constructor; [|constructor].
      unfold newParagraph. rewrite hasTag_Elem. cbn [existsb].
      rewrite orb_false_r, hasTag_Elem, Ht, Hch. reflexivity.
Qed.

End NoLineBreakElements.

(** X4.  The tree the DOM path serializes holds no [br] element, at any
    depth: every one was replaced by a line feed before loose content is
    wrapped. *)
Theorem dom_path_leaves_no_br :
  forall (title : option string) (body : list node),
    Forall (fun n => hasTag "br" n = false) (restructure title body).
Proof.
  intros title body. unfold restructure, wrapLooseContent.
  set (b := map (styleTag "ul" ulStyleDom) _). clearbody b.
  induction b as [|n b IH]; simpl; [constructor|].
  apply Forall_app. split; [|exact IH].
  apply wrapLooseNode_no_br, replaceBr_no_br.
Qed.

(** ** Calls without a title *)

Section NoTitle.

Lemma dropLeading_never (dup : node -> bool) (ns : list node) :
  (forall n, dup n = false) -> dropLeading dup ns = ns.
Proof.
  intros H. induction ns as [|n ns IH]; simpl; [reflexivity|].
  destruct n; [rewrite IH; reflexivity ..|]. rewrite H. reflexivity.
Qed.

Lemma candidateSet_falsy (title : option string) :
  truthyOpt title = false -> candidateSet title = [].
Proof.
  destruct title as [t|]; [|reflexivity].
  unfold candidateSet, titleCandidates. simpl. intros ->. reflexivity.
Qed.

Lemma stripDup_falsy (env : DomEnv) (html : string) (title : option string) :
  truthyOpt title = false -> stripDup env html title = html.
Proof.
  destruct title as [t|]; [|reflexivity].
  unfold stripDup. simpl. intros ->. reflexivity.
Qed.

End NoTitle.

(** X5.  Without a title (undefined or empty) nothing is removed: the title
    loop keeps the body as it is and the DOM path does what it does for an
    undefined title; the plain-text path returns the lines of its loop joined
    by line feeds, and so does the regex fallback when the parser throws. *)
Theorem no_title_removes_nothing :
  forall title : option string,
    truthyOpt title = false ->
    (forall body : list node,
       removeLeadingDuplicates (matchesTitle (candidateSet title)) body = body /\
       restructure title body = restructure None body) /\
    (forall (env : DomEnv) (raw : string),
       selectPath raw = PlainText ->
       formatChapterContent env raw title = join nl (plainLines (linesOf raw))) /\
    (forall (env : DomEnv) (raw : string),
       selectPath raw = HtmlStructured ->
       parseBody env raw = None ->
       formatChapterContent env raw title =
       join nl (fallbackLines (split reNewline (prepare raw)))).
Proof.
  intros title Ht.
  assert (Hkeep : forall body,
            removeLeadingDuplicates (matchesTitle (candidateSet title)) body = body).
  { intros body. rewrite removeLeadingDuplicates_dropLeading.
    apply dropLeading_never. intros n.
    rewrite (candidateSet_falsy title Ht). reflexivity. }
  split; [|split].
  - intros body. split; [apply Hkeep|].
    unfold restructure. rewrite Hkeep, Ht.
    change (candidateSet None) with (@nil string).
    rewrite <- (candidateSet_falsy title Ht) at 1.
    assert (E : removeLeadingDuplicates (matchesTitle []) body = body).
    { rewrite removeLeadingDuplicates_dropLeading.
      apply dropLeading_never. reflexivity. }
    simpl truthyOpt. cbv iota. rewrite E. reflexivity.
  - intros env raw Hp. unfold formatChapterContent. rewrite Hp.
    unfold plainTextPath. apply stripDup_falsy, Ht.
  - intros env raw Hp Hparse. unfold formatChapterContent. rewrite Hp.
    unfold htmlStructuredPath, domPath. rewrite Hparse.
    unfold regexFallback. apply stripDup_falsy, Ht.
Qed.

Lemma no_title_removes_nothing_witness :
  truthyOpt (Some EmptyString) = false /\
  removeLeadingDuplicates (matchesTitle (candidateSet (Some EmptyString)))
    [Elem "hr" [] []; Elem "p" [] [Text "x"]] =
    [Elem "hr" [] []; Elem "p" [] [Text "x"]].
Proof.
  split; [reflexivity|].
  exact (proj1 (proj1 (no_title_removes_nothing (Some EmptyString) eq_refl)
                  [Elem "hr" [] []; Elem "p" [] [Text "x"]])).
Defined.

(** ** Greedy stars over a character class *)

Section GreedyClass.

Variable p : ascii -> bool.

Lemma take_drop_class (s : string) : s = takeClass p s ++ dropClass p s.
Proof.
  induction s as [|c s IH]; simpl; [reflexivity|].
  destruct (p c); simpl; [rewrite <- IH|]; reflexivity.
Qed.

Lemma takeClass_all (s : string) : allChars p (takeClass p s) = true.
Proof.
  induction s as [|c s IH]; simpl; [reflexivity|].
  destruct (p c) eqn:E; simpl; [rewrite E, IH|]; reflexivity.
Qed.

Lemma dropClass_head (s : string) : headNot p (dropClass p s) = true.
Proof.
  induction s as [|c s IH]; simpl; [reflexivity|].
  destruct (p c) eqn:E; simpl; [exact IH|rewrite E; reflexivity].
Qed.

Lemma dropClass_length (s : string) :
  String.length (dropClass p s) <= String.length s.
Proof.
  induction s as [|c s IH]; simpl; [lia|].
  destruct (p c); simpl; lia.
Qed.

Lemma starLoop_S (body : mstate -> (mstate -> option mstate) -> option mstate)
    (g : bool) (k : mstate -> option mstate) (n : nat) (st0 : mstate) :
  starLoop body g k (S n) st0 =
  if g then
    match body st0 (fun st1 =>
            if Nat.ltb (String.length (rest st1)) (String.length (rest st0))
            then starLoop body g k n st1 else None)
    with Some a => Some a | None => k st0 end
  else
    match k st0 with
    | Some a => Some a
    | None =>
        body st0 (fun st1 =>
          if Nat.ltb (String.length (rest st1)) (String.length (rest st0))
          then starLoop body g k n st1 else None)
    end.
Proof. reflexivity. Qed.

Lemma run_Chr (fuel : nat) (pv : option ascii) (c : ascii) (s : string)
    (cp : option string) (k : mstate -> option mstate) :
  run (Chr p) fuel (MState pv (String c s) cp) k =
  if p c then k (MState (Some c) s cp) else None.
Proof. reflexivity. Qed.

(** A greedy star over a class reads the whole run of the class when the
    continuation accepts the position after the run. *)
Lemma starLoop_class (fuel : nat) (k : mstate -> option mstate)
    (rest' : string) (cp : option string) (r : mstate) :
  headNot p rest' = true ->
  forall (w : string) (pv : option ascii) (n : nat),
    allChars p w = true ->
    String.length (w ++ rest') <= n ->
    k (MState (lastOr pv w) rest' cp) = Some r ->
    starLoop (run (Chr p) fuel) true k n (MState pv (w ++ rest') cp) = Some r.
Proof.
  intros Hhead. induction w as [|c w IH]; intros pv n Hall Hlen Hk.
  - simpl in *. destruct n as [|n]; simpl; [exact Hk|].
    destruct rest' as [|d rest'']; simpl; [rewrite Hk; reflexivity|].
    simpl in Hhead. apply negb_true_iff in Hhead. rewrite Hhead, Hk. reflexivity.
  - simpl in Hall. apply andb_true_iff in Hall. destruct Hall as [Hc Hall].
    destruct n as [|n]; [simpl in Hlen; lia|].
    change (String c w ++ rest') with (String c (w ++ rest')).
    rewrite starLoop_S, run_Chr, Hc. cbn [rest].
    replace (Nat.ltb (String.length (w ++ rest'))
                     (String.length (String c (w ++ rest'))))
      with true by (symmetry; apply Nat.ltb_lt; simpl; lia).
    rewrite (IH (Some c) n Hall); [reflexivity| |exact Hk].
    simpl in Hlen. lia.
Qed.

Lemma run_star_class (fuel : nat) (k : mstate -> option mstate)
    (w rest' : string) (pv : option ascii) (cp : option string) (r : mstate) :
  allChars p w = true ->
  headNot p rest' = true ->
  String.length (w ++ rest') <= fuel ->
  k (MState (lastOr pv w) rest' cp) = Some r ->
  run (Star true (Chr p)) fuel (MState pv (w ++ rest') cp) k = Some r.
Proof.
  intros Hall Hhead Hlen Hk.
  exact (starLoop_class fuel k rest' cp r Hhead w pv fuel Hall Hlen Hk).
Qed.

End GreedyClass.

(** ** Runs of white space *)

Section CollapseSpaces.

Lemma substring_0_S (n : nat) (c : ascii) (s : string) :
  substring 0 (S n) (String c s) = String c (substring 0 n s).
Proof. reflexivity. Qed.

(** At a white-space character [/\s+/] matches the whole run. *)
Lemma matchAt_spaces_yes (pv : option ascii) (c : ascii) (s : string) :
  isSpace c = true ->
  exists h, matchAt reSpaces pv (String c s) = Some h /\
            after h = dropClass isSpace s /\
            (exists d m, matched h = String d m).
Proof.
  intros Hc. unfold matchAt, reSpaces, Plus, ws.
  assert (E : run (Seq (Chr isSpace) (Star true (Chr isSpace)))
                (S (String.length (String c s)))
                (MState pv (String c s) None) Some =
              Some (MState (lastOr (Some c) (takeClass isSpace s))
                           (dropClass isSpace s) None)).
  { change (run (Seq (Chr isSpace) (Star true (Chr isSpace))) ?f ?st Some)
      with (run (Chr isSpace) f st
              (fun st1 => run (Star true (Chr isSpace)) f st1 Some)).
    rewrite run_Chr, Hc.
    pose proof (run_star_class isSpace (S (String.length (String c s))) Some
                  (takeClass isSpace s) (dropClass isSpace s) (Some c) None
                  (MState (lastOr (Some c) (takeClass isSpace s))
                          (dropClass isSpace s) None)
                  (takeClass_all isSpace s) (dropClass_head isSpace s)) as H.
    rewrite <- (take_drop_class isSpace s) in H.
    apply H; [simpl; lia|reflexivity]. }
  rewrite E. eexists. split; [reflexivity|]. simpl. split; [reflexivity|].
  unfold consumed. simpl rest.
  pose proof (dropClass_length isSpace s) as Hl.
  assert (Hpos : exists n,
            String.length (String c s) - String.length (dropClass isSpace s) = S n).
  { exists (String.length s - String.length (dropClass isSpace s)).
    change (String.length (String c s)) with (S (String.length s)). lia. }
  destruct Hpos as [n En]. rewrite En, substring_0_S. eauto.
Qed.

Lemma matchAt_spaces_no (pv : option ascii) (c : ascii) (s : string) :
  isSpace c = false -> matchAt reSpaces pv (String c s) = None.
Proof.
  intros Hc. unfold matchAt, reSpaces, Plus, ws.
  change (run (Seq (Chr isSpace) (Star true (Chr isSpace))) ?f ?st Some)
    with (run (Chr isSpace) f st
            (fun st1 => run (Star true (Chr isSpace)) f st1 Some)).
  rewrite run_Chr, Hc. reflexivity.
Qed.

Lemma collapseFrom_true_drop (s : string) :
  collapseFrom true s = collapseFrom false (dropClass isSpace s).
Proof.
  induction s as [|c s IH]; simpl; [reflexivity|].
  destruct (isSpace c) eqn:E; [exact IH|]. simpl. rewrite E. reflexivity.
Qed.

Lemma replaceAllFrom_spaces (n : nat) :
  forall (s : string) (pv : option ascii),
    String.length s < n ->
    replaceAllFrom n reSpaces (fun _ => " ") pv s = collapseFrom false s.
Proof.
  induction n as [|n IH]; intros s pv Hlen; [lia|].
  destruct s as [|c s]; [reflexivity|].
  destruct (isSpace c) eqn:Hc.
  - destruct (matchAt_spaces_yes pv c s Hc) as (h & Hm & Ha & d & m & Hd).
    rewrite replaceAllFrom_S, search_unfold, Hm, Hd, Ha.
    simpl collapseFrom. rewrite Hc. simpl. f_equal.
    rewrite collapseFrom_true_drop. apply IH.
    pose proof (dropClass_length isSpace s). simpl in Hlen. lia.
  - rewrite replaceAllFrom_skip by (apply matchAt_spaces_no, Hc).
    simpl collapseFrom. rewrite Hc. f_equal.
    rewrite (replaceAllFrom_fuel _ _ (S n) n) by (simpl in Hlen; lia).
    apply IH. simpl in Hlen. lia.
Qed.

(** [collapseSpaces] replaces every run of white space by one space. *)
Lemma collapseSpaces_spec (s : string) :
  collapseSpaces s = collapseFrom false s.
Proof. unfold collapseSpaces, replaceAll. apply replaceAllFrom_spaces. lia. Qed.

End CollapseSpaces.

(** ** The normal form of the title comparison *)

Section NormalForm.

Lemma singleSpaced_cons (c : ascii) (s : string) :
  singleSpaced (String c s) =
  (if isSpace c then isChar " "%char c && startsNonSpace s else true) &&
  singleSpaced s.
Proof. reflexivity. Qed.

Lemma lower_space (c : ascii) : isSpace (lower c) = isSpace c.
Proof. destruct c as [[] [] [] [] [] [] [] []]; reflexivity. Qed.

Lemma lower_lower (c : ascii) : lower (lower c) = lower c.
Proof. destruct c as [[] [] [] [] [] [] [] []]; reflexivity. Qed.

Lemma lower_is_space (c : ascii) :
  isChar " "%char (lower c) = isChar " "%char c.
Proof. destruct c as [[] [] [] [] [] [] [] []]; reflexivity. Qed.

Lemma trimStart_dropClass (s : string) : trimStart s = dropClass isSpace s.
Proof.
  induction s as [|c s IH]; simpl; [reflexivity|].
  destruct (isSpace c); [exact IH|reflexivity].
Qed.

Lemma trimEnd_cons (c : ascii) (s : string) :
  trimEnd (String c s) =
  match trimEnd s with
  | EmptyString => if isSpace c then EmptyString else String c EmptyString
  | t => String c t
  end.
Proof. reflexivity. Qed.

Lemma trimEnd_nonspace (c : ascii) (s : string) :
  isSpace c = false -> trimEnd (String c s) = String c (trimEnd s).
Proof.
  intros H. rewrite trimEnd_cons, H. destruct (trimEnd s); reflexivity.
Qed.

Lemma collapseFrom_spaced (s : string) :
  forall b : bool,
    spacedLoose (collapseFrom b s) = true /\
    (b = true -> headNot isSpace (collapseFrom b s) = true).
Proof.
  induction s as [|c s IH]; intros b; simpl; [auto|].
  destruct (isSpace c) eqn:Hc.
  - destruct b.
    + apply IH.
    + destruct (IH true) as [H1 H2]. split; [|discriminate].
      simpl. rewrite H1, (H2 eq_refl). reflexivity.
  - destruct (IH false) as [H1 _]. simpl. rewrite Hc, H1. auto.
Qed.

Lemma spacedLoose_dropClass (s : string) :
  spacedLoose s = true -> spacedLoose (dropClass isSpace s) = true.
Proof.
  induction s as [|c s IH]; simpl; [auto|].
  destruct (isSpace c) eqn:Hc.
  - intros H. apply andb_true_iff in H. apply IH, H.
  - intros H. simpl. rewrite Hc. exact H.
Qed.

Lemma headNot_trimEnd (s : string) :
  headNot isSpace s = true -> headNot isSpace (trimEnd s) = true.
Proof.
  destruct s as [|c s]; [reflexivity|]. simpl headNot at 1.
  intros H. apply negb_true_iff in H.
  rewrite (trimEnd_nonspace c s H). simpl. rewrite H. reflexivity.
Qed.

Lemma spacedLoose_trimEnd (s : string) :
  spacedLoose s = true -> singleSpaced (trimEnd s) = true.
Proof.
  induction s as [|c s IH]; [reflexivity|].
  simpl spacedLoose. intros H. apply andb_true_iff in H. destruct H as [Hc Hs].
  specialize (IH Hs).
  destruct (isSpace c) eqn:Ec.
  - apply andb_true_iff in Hc. destruct Hc as [Hsp Hhead].
    destruct s as [|d r]; [simpl; rewrite Ec; reflexivity|].
    simpl in Hhead. apply negb_true_iff in Hhead.
    rewrite trimEnd_cons. rewrite (trimEnd_nonspace d r Hhead) in *.
    rewrite singleSpaced_cons, Ec, Hsp, IH.
    simpl. rewrite Hhead. reflexivity.
  - rewrite (trimEnd_nonspace c s Ec), singleSpaced_cons, Ec, IH. reflexivity.
Qed.

Lemma toLowerCase_headNot (s : string) :
  headNot isSpace (toLowerCase s) = headNot isSpace s.
Proof. destruct s as [|c s]; simpl; [|rewrite lower_space]; reflexivity. Qed.

Lemma toLowerCase_startsNonSpace (s : string) :
  startsNonSpace (toLowerCase s) = startsNonSpace s.
Proof. destruct s as [|c s]; simpl; [|rewrite lower_space]; reflexivity. Qed.

Lemma toLowerCase_singleSpaced (s : string) :
  singleSpaced s = true -> singleSpaced (toLowerCase s) = true.
Proof.
  induction s as [|c s IH]; [reflexivity|].
  change (toLowerCase (String c s)) with (String (lower c) (toLowerCase s)).
  rewrite !singleSpaced_cons, lower_space, lower_is_space,
    toLowerCase_startsNonSpace.
  intros H. apply andb_true_iff in H. destruct H as [Hc Hs].
  rewrite Hc, (IH Hs). reflexivity.
Qed.

Lemma toLowerCase_fixed (s : string) :
  allChars (fun c => Ascii.eqb (lower c) c) (toLowerCase s) = true.
Proof.
  induction s as [|c s IH]; [reflexivity|]. simpl.
  rewrite lower_lower, Ascii.eqb_refl. exact IH.
Qed.

Lemma norm_canonical (s : string) : canonical (norm s) = true.
Proof.
  unfold canonical, norm, trim.
  rewrite collapseSpaces_spec, trimStart_dropClass.
  destruct (collapseFrom_spaced s false) as [Hsp _].
  rewrite toLowerCase_headNot, headNot_trimEnd by apply dropClass_head.
  rewrite toLowerCase_singleSpaced
    by (apply spacedLoose_trimEnd, spacedLoose_dropClass, Hsp).
  rewrite toLowerCase_fixed. reflexivity.
Qed.

Lemma collapseFrom_head (s : string) :
  headNot isSpace s = true -> collapseFrom true s = collapseFrom false s.
Proof.
  destruct s as [|c s]; [reflexivity|]. simpl. intros H.
  apply negb_true_iff in H. rewrite H. reflexivity.
Qed.

Lemma collapseFrom_singleSpaced (s : string) :
  singleSpaced s = true -> collapseFrom false s = s.
Proof.
  induction s as [|c s IH]; [reflexivity|]. simpl.
  intros H. apply andb_true_iff in H. destruct H as [Hc Hs].
  destruct (isSpace c).
  - apply andb_true_iff in Hc. destruct Hc as [Hsp Hd].
    apply Ascii.eqb_eq in Hsp. subst c.
    destruct s as [|d r]; [discriminate Hd|].
    rewrite collapseFrom_head by exact Hd. rewrite (IH Hs). reflexivity.
  - rewrite (IH Hs). reflexivity.
Qed.

Lemma dropClass_headNot (s : string) :
  headNot isSpace s = true -> dropClass isSpace s = s.
Proof.
  destruct s as [|c s]; [reflexivity|]. simpl. intros H.
  apply negb_true_iff in H. rewrite H. reflexivity.
Qed.

Lemma trimEnd_singleSpaced (s : string) :
  singleSpaced s = true -> trimEnd s = s.
Proof.
  induction s as [|c s IH]; [reflexivity|]. simpl singleSpaced.
  intros H. apply andb_true_iff in H. destruct H as [Hc Hs].
  rewrite trimEnd_cons, (IH Hs).
  destruct s as [|d r]; [|reflexivity].
  destruct (isSpace c); [|reflexivity].
  apply andb_true_iff in Hc. destruct Hc as [_ Hc]. discriminate Hc.
Qed.

Lemma toLowerCase_allFixed (s : string) :
  allChars (fun c => Ascii.eqb (lower c) c) s = true -> toLowerCase s = s.
Proof.
  induction s as [|c s IH]; [reflexivity|].
  change (toLowerCase (String c s)) with (String (lower c) (toLowerCase s)).
  cbn [allChars]. intros H. apply andb_true_iff in H. destruct H as [Hc Hs].
  apply Ascii.eqb_eq in Hc. rewrite Hc, (IH Hs). reflexivity.
Qed.

Lemma norm_fixes_canonical (s : string) : canonical s = true -> norm s = s.
Proof.
  unfold canonical. intros H.
  apply andb_true_iff in H. destruct H as [H Hl].
  apply andb_true_iff in H. destruct H as [Hh Hs].
  unfold norm, trim.
  rewrite collapseSpaces_spec, (collapseFrom_singleSpaced s Hs).
  rewrite trimStart_dropClass, (dropClass_headNot s Hh).
  rewrite (trimEnd_singleSpaced s Hs). apply toLowerCase_allFixed, Hl.
Qed.

End NormalForm.

(** X6.  [norm], the normal form of the title comparison, is a projection:
    its result has no white space at either end, single spaces between words
    and no upper-case letter; a text of that form is left as it is; and
    normalizing twice is normalizing once. *)
Theorem norm_is_a_projection :
  forall s : string,
    canonical (norm s) = true /\
    (canonical s = true -> norm s = s) /\
    norm (norm s) = norm s.
Proof.
  intros s. split; [apply norm_canonical|]. split.
  - apply norm_fixes_canonical.
  - apply norm_fixes_canonical, norm_canonical.
Qed.

Lemma norm_is_a_projection_witness :
  canonical "chapter 1: foo" = true /\ norm "chapter 1: foo" = "chapter 1: foo".
Proof.
  split; [reflexivity|].
  exact (proj1 (proj2 (norm_is_a_projection "chapter 1: foo")) eq_refl).
Defined.

(** ** What the title comparison ignores *)

Section NormIgnores.

Section Relabel.

Variable f : ascii -> ascii.
Hypothesis f_space : forall c, isSpace (f c) = isSpace c.
Hypothesis f_fixes_space : forall c, isSpace c = true -> f c = c.
Hypothesis f_lower : forall c, lower (f c) = lower c.






End Relabel.








End NormIgnores.



(** ** The chapter prefix of a title *)

Section ChapterPrefix.

(** The input left after a match is a suffix of the input before it. *)
Lemma run_suffix (r : re) :
  forall (fuel : nat) (st : mstate) (k : mstate -> option mstate) (st' : mstate),
    run r fuel st k = Some st' ->
    exists st1, k st1 = Some st' /\ exists pre, rest st = pre ++ rest st1.
Proof.
  induction r as [|p|r1 IH1 r2 IH2|r1 IH1 r2 IH2|g r IH|r IH|r IH| | |];
    intros fuel st k st' H; simpl in H.
  - exists st. split; [exact H|exists EmptyString; reflexivity].
  - destruct st as [pv [|c s'] cp]; simpl in H; [discriminate|].
    destruct (p c); [|discriminate].
    eexists. split; [exact H|]. exists (String c EmptyString). reflexivity.
  - apply IH1 in H. destruct H as [st1 [H [pre1 E1]]].
    apply IH2 in H. destruct H as [st2 [H [pre2 E2]]].
    exists st2. split; [exact H|]. exists (pre1 ++ pre2).
    rewrite E1, E2. symmetry. apply append_assoc.
  - destruct (run r1 fuel st k) eqn:E.
    + injection H as <-. apply (IH1 _ _ _ _ E).
    + apply (IH2 _ _ _ _ H).
  - revert st st' H. generalize fuel at 2. intros n. induction n as [|n IHn];
      intros st st' H; simpl in H.
    + exists st. split; [exact H|exists EmptyString; reflexivity].
    + assert (Hagain :
        forall a,
          run r fuel st (fun st1 =>
            if Nat.ltb (String.length (rest st1)) (String.length (rest st))
            then starLoop (run r fuel) g k n st1 else None) = Some a ->
          exists st1, k st1 = Some a /\ exists pre, rest st = pre ++ rest st1).
      { intros a Ha. apply IH in Ha. destruct Ha as [st1 [Ha [pre1 E1]]].
        destruct (Nat.ltb _ _); [|discriminate].
        apply IHn in Ha. destruct Ha as [st2 [Ha [pre2 E2]]].
        exists st2. split; [exact Ha|]. exists (pre1 ++ pre2).
        rewrite E1, E2. symmetry. apply append_assoc. }
      destruct g.
      * destruct (run r fuel st _) eqn:E.
        -- injection H as <-. apply (Hagain _ eq_refl).
        -- exists st. split; [exact H|exists EmptyString; reflexivity].
      * destruct (k st) eqn:E.
        -- injection H as <-. exists st. split; [exact E|].
           exists EmptyString; reflexivity.
        -- apply Hagain, H.
  - apply IH in H. destruct H as [st1 [H E]].
    eexists. split; [exact H|exact E].
  - destruct (run r fuel st Some); [|discriminate].
    exists st. split; [exact H|exists EmptyString; reflexivity].
  - destruct (prev st); [discriminate|].
    exists st. split; [exact H|exists EmptyString; reflexivity].
  - destruct (rest st) eqn:E; [|discriminate].
    exists st. split; [exact H|exists EmptyString; symmetry; exact E].
  - destruct (xorb _ _); [|discriminate].
    exists st. split; [exact H|exists EmptyString; reflexivity].
Qed.

Lemma matchAt_suffix (r : re) (p : option ascii) (s : string) (h : hit) :
  matchAt r p s = Some h -> exists pre, s = pre ++ after h.
Proof.
  unfold matchAt. intros H.
  destruct (run r (S (String.length s)) (MState p s None) Some) as [st'|] eqn:E;
    [|discriminate].
  injection H as <-. simpl.
  apply run_suffix in E. destruct E as [st1 [E [pre Hpre]]].
  injection E as ->. exists pre. exact Hpre.
Qed.

(** A pattern that starts with [^] matches at index 0 only. *)
Lemma search_anchored (r : re) (s : string) (c : ascii) :
  search (Seq Bol r) (Some c) s = None.
Proof.
  revert c. induction s as [|d s IH]; intros c; rewrite search_unfold.
  - reflexivity.
  - change (matchAt (Seq Bol r) (Some c) (String d s)) with (@None hit).
    rewrite IH. reflexivity.
Qed.

Lemma replaceFirst_anchored (r : re) (s : string) :
  replaceFirst (Seq Bol r) (fun _ => EmptyString) s = s \/
  exists h, matchAt (Seq Bol r) None s = Some h /\
            replaceFirst (Seq Bol r) (fun _ => EmptyString) s = after h.
Proof.
  unfold replaceFirst. rewrite search_unfold.
  destruct (matchAt (Seq Bol r) None s) as [h|] eqn:E.
  - right. exists h. split; reflexivity.
  - left. destruct s as [|c s]; [reflexivity|].
    rewrite search_anchored. reflexivity.
Qed.

End ChapterPrefix.

Lemma stripChapterPrefix_suffix :
  forall t : string, exists pre : string, t = pre ++ stripChapterPrefix t.
Proof.
  intros t. unfold stripChapterPrefix.
  destruct (replaceFirst_anchored
              (SeqL [Lit true "chapter"; Star true ws; Plus true digit;
                     Star true ws; Chr (isChar ":"%char); Star true ws]) t)
    as [E | [h [Hm E]]].
  - exists EmptyString. symmetry. exact E.
  - apply matchAt_suffix in Hm. destruct Hm as [pre Hpre].
    exists pre. rewrite Hpre at 1. f_equal. symmetry. exact E.
Qed.

Section ChapterPrefixForm.

Lemma run_Seq (r1 r2 : re) (fuel : nat) (st : mstate)
    (k : mstate -> option mstate) :
  run (Seq r1 r2) fuel st k = run r1 fuel st (fun st1 => run r2 fuel st1 k).
Proof. reflexivity. Qed.

Lemma run_Bol (fuel : nat) (s : string) (cp : option string)
    (k : mstate -> option mstate) :
  run Bol fuel (MState None s cp) k = k (MState None s cp).
Proof. reflexivity. Qed.

Lemma run_Eps (fuel : nat) (st : mstate) (k : mstate -> option mstate) :
  run Eps fuel st k = k st.
Proof. reflexivity. Qed.

Lemma ci_lower (d c : ascii) : lower c = d -> lower d = d -> ci d c = true.
Proof. intros H1 H2. unfold ci. rewrite H1, H2. apply Ascii.eqb_refl. Qed.

Lemma digit_not_space (c : ascii) : isDigit c = true -> isSpace c = false.
Proof.
  destruct c as [[] [] [] [] [] [] [] []]; vm_compute; intros H;
    first [discriminate H | reflexivity].
Qed.

Lemma space_not_digit (c : ascii) : isSpace c = true -> isDigit c = false.
Proof.
  destruct c as [[] [] [] [] [] [] [] []]; vm_compute; intros H;
    first [discriminate H | reflexivity].
Qed.

Lemma headNot_digit_after (w2 body : string) :
  allChars isSpace w2 = true ->
  headNot isDigit (w2 ++ String ":"%char body) = true.
Proof.
  destruct w2 as [|c w2]; [reflexivity|]. simpl.
  intros H. apply andb_true_iff in H. destruct H as [Hc _].
  rewrite (space_not_digit c Hc). reflexivity.
Qed.

(** The match of [/^chapter\s*\d+\s*:\s*/i] on a title that has the form
    [chapter], white space, digits, white space, colon, anything. *)
Lemma run_chapterPrefix (kw w1 ds w2 body : string) (fuel : nat) :
  toLowerCase kw = "chapter" ->
  allChars isSpace w1 = true ->
  allChars isDigit ds = true -> ds <> EmptyString ->
  allChars isSpace w2 = true ->
  String.length (kw ++ w1 ++ ds ++ w2 ++ String ":"%char body) < fuel ->
  exists pv,
    run reChapterPrefix fuel
      (MState None (kw ++ w1 ++ ds ++ w2 ++ String ":"%char body) None) Some =
    Some (MState pv (dropClass isSpace body) None).
Proof.
  intros Hkw Hw1 Hds Hne Hw2 Hlen.
  destruct kw as [|k1 [|k2 [|k3 [|k4 [|k5 [|k6 [|k7 [|k8 kw]]]]]]]];
    try discriminate Hkw.
  injection Hkw as E1 E2 E3 E4 E5 E6 E7.
  destruct ds as [|d ds]; [destruct (Hne eq_refl)|].
  simpl in Hds. apply andb_true_iff in Hds. destruct Hds as [Hd Hds].
  eexists.
  unfold reChapterPrefix, SeqL, Lit. cbn [fold_right].
  cbn [append] in *.
  rewrite run_Seq, run_Bol.
  rewrite run_Seq.
  repeat (rewrite run_Seq, run_Chr, ci_lower by (assumption || reflexivity)).
  rewrite run_Eps, run_Seq.
  (* \s* over w1 *)
  apply run_star_class;
    [exact Hw1
    |simpl; rewrite (digit_not_space d Hd); reflexivity
    |simpl in Hlen; rewrite ?length_append in *; simpl in *;
     rewrite ?length_append in *; simpl in *; lia
    |].
  rewrite run_Seq. unfold Plus, digit. rewrite run_Seq, run_Chr, Hd.
  (* \d* over the other digits *)
  apply run_star_class;
    [exact Hds
    |apply headNot_digit_after, Hw2
    |simpl in Hlen; rewrite ?length_append in *; simpl in *;
     rewrite ?length_append in *; simpl in *; lia
    |].
  rewrite run_Seq.
  (* \s* over w2 *)
  apply run_star_class;
    [exact Hw2
    |reflexivity
    |simpl in Hlen; rewrite ?length_append in *; simpl in *;
     rewrite ?length_append in *; simpl in *; lia
    |].
  rewrite run_Seq, run_Chr. cbn [isChar Ascii.eqb]. 
  change (isChar ":"%char ":"%char) with true. cbv iota.
  rewrite run_Seq.
  pose proof (run_star_class isSpace fuel
                (fun st1 => run Eps fuel st1 Some)
                (takeClass isSpace body) (dropClass isSpace body)
                (Some ":"%char) None
                (MState (lastOr (Some ":"%char) (takeClass isSpace body))
                        (dropClass isSpace body) None)
                (takeClass_all isSpace body) (dropClass_head isSpace body)) as H.
  rewrite <- (take_drop_class isSpace body) in H.
  apply H; [|reflexivity].
  simpl in Hlen; rewrite ?length_append in *; simpl in *;
    rewrite ?length_append in *; simpl in *; lia.
Qed.

End ChapterPrefixForm.

(** X9.  A title that starts with the word [chapter] in any letter case,
    optional white space, one or more digits, optional white space and a
    colon loses that prefix and the white space after the colon. *)
Theorem chapter_prefix_is_removed :
  forall kw w1 ds w2 body : string,
    toLowerCase kw = "chapter" ->
    allChars isSpace w1 = true ->
    allChars isDigit ds = true -> ds <> EmptyString ->
    allChars isSpace w2 = true ->
    stripChapterPrefix (kw ++ w1 ++ ds ++ w2 ++ ":" ++ body) = trimStart body.
Proof.
  intros kw w1 ds w2 body Hkw Hw1 Hds Hne Hw2.
  change (":" ++ body) with (String ":"%char body).
  destruct (run_chapterPrefix kw w1 ds w2 body
              (S (String.length (kw ++ w1 ++ ds ++ w2 ++ String ":"%char body)))
              Hkw Hw1 Hds Hne Hw2 (Nat.lt_succ_diag_r _)) as [pv E].
  unfold stripChapterPrefix, replaceFirst.
  rewrite search_unfold. unfold matchAt. rewrite E.
  cbn [after]. rewrite trimStart_dropClass. reflexivity.
Qed.

Lemma chapter_prefix_is_removed_witness :
  toLowerCase "CHAPTER" = "chapter" /\
  stripChapterPrefix ("CHAPTER" ++ " " ++ "12" ++ EmptyString ++ ":" ++ "  Foo bar") =
  trimStart "  Foo bar".
Proof.
  split; [reflexivity|].
  apply (chapter_prefix_is_removed "CHAPTER" " " "12" EmptyString "  Foo bar");
    first [reflexivity | discriminate].
Defined.

(** ** Titles of white space *)

Section BlankTitle.

Lemma dropClass_spaces (s : string) :
  dropClass isSpace s = EmptyString <-> allChars isSpace s = true.
Proof.
  induction s as [|c s IH]; simpl; [split; reflexivity|].
  destruct (isSpace c); simpl; [exact IH|].
  split; discriminate.
Qed.

Lemma trimEnd_spaces (s : string) :
  trimEnd s = EmptyString <-> allChars isSpace s = true.
Proof.
  induction s as [|c s IH]; [split; reflexivity|].
  rewrite trimEnd_cons. simpl allChars.
  destruct (trimEnd s) eqn:E.
  - destruct (isSpace c); simpl.
    + split; [intros _; apply IH; reflexivity|reflexivity].
    + split; discriminate.
  - split; [discriminate|].
    intros H. apply andb_true_iff in H. destruct H as [_ H].
    apply IH in H. discriminate H.
Qed.

Lemma allChars_suffix (p : ascii -> bool) (a b : string) :
  allChars p (a ++ b) = true -> allChars p b = true.
Proof.
  rewrite allChars_app. intros H. apply andb_true_iff in H. apply H.
Qed.

Lemma dropClass_all (p : ascii -> bool) (s : string) :
  allChars p s = true -> allChars p (dropClass p s) = true.
Proof.
  intros H. rewrite (take_drop_class p s) in H. apply (allChars_suffix _ _ _ H).
Qed.

Lemma collapseFrom_spaces (s : string) :
  forall b, allChars isSpace (collapseFrom b s) = allChars isSpace s.
Proof.
  induction s as [|c s IH]; intros b; [reflexivity|]. simpl.
  destruct (isSpace c) eqn:Hc.
  - destruct b; simpl; apply IH.
  - simpl. rewrite Hc. reflexivity.
Qed.

Lemma toLowerCase_empty (s : string) :
  toLowerCase s = EmptyString <-> s = EmptyString.
Proof. destruct s; split; (reflexivity || discriminate). Qed.

(** [norm] gives the empty string exactly for the strings of white space. *)
Lemma norm_empty (s : string) :
  norm s = EmptyString <-> allChars isSpace s = true.
Proof.
  unfold norm, trim.
  rewrite toLowerCase_empty, trimEnd_spaces, trimStart_dropClass,
    collapseSpaces_spec.
  rewrite <- (collapseFrom_spaces s false). split.
  - intros H. rewrite (take_drop_class isSpace (collapseFrom false s)).
    rewrite allChars_app, takeClass_all, H. reflexivity.
  - apply dropClass_all.
Qed.

End BlankTitle.

(** X10.  A title of white space only is a title: its candidates are the
    empty text, so the title loop takes for a duplicate every leading element
    whose text is empty or white space, and no other. *)
Theorem blank_title_matches_blank_elements :
  forall (t : string) (el : node),
    t <> EmptyString ->
    allChars isSpace t = true ->
    (matchesTitle (candidateSet (Some t)) el = true <->
     allChars isSpace (textContent el) = true).
Proof.
  intros t el Hne Hws.
  assert (Ht : truthy t = true) by (destruct t; [destruct (Hne eq_refl)|reflexivity]).
  assert (N1 : norm t = EmptyString) by (apply norm_empty, Hws).
  assert (N2 : norm (stripChapterPrefix t) = EmptyString).
  { apply norm_empty.
    destruct (stripChapterPrefix_suffix t) as [pre E].
    rewrite E in Hws. apply (allChars_suffix _ _ _ Hws). }
  unfold matchesTitle, candidateSet, titleCandidates, has.
  rewrite Ht. simpl. rewrite N1, N2, orb_false_r, orb_diag.
  rewrite String.eqb_eq. apply norm_empty.
Qed.

Lemma blank_title_matches_blank_elements_witness :
  " " <> EmptyString /\
  allChars isSpace " " = true /\
  matchesTitle (candidateSet (Some " ")) (Elem "hr" [] []) = true.
Proof.
  assert (N : " " <> EmptyString) by discriminate.
  split; [exact N|]. split; [reflexivity|].
  apply (proj2 (blank_title_matches_blank_elements " " (Elem "hr" [] [])
                  N eq_refl)).
  reflexivity.
Defined.

Lemma matchAt_chapterPrefix_other (c : ascii) (rest : string) :
  lower c <> "c"%char ->
  matchAt reChapterPrefix None (String c rest) = None.
Proof.
  intros H. unfold matchAt, reChapterPrefix, SeqL, Lit. cbn [fold_right].
  rewrite run_Seq, run_Bol, run_Seq, run_Seq, run_Chr.
  replace (ci "c"%char c) with false; [reflexivity|].
  symmetry. unfold ci. apply Ascii.eqb_neq. exact H.
Qed.

(** X8.  Removing the chapter prefix only ever removes a prefix: the result
    is the title or an end piece of it, and a title that does not start with
    the letter c is returned as it is. *)
Theorem stripChapterPrefix_returns_a_suffix :
  forall t : string,
    (exists pre : string, t = pre ++ stripChapterPrefix t) /\
    (forall (c : ascii) (rest : string),
       t = String c rest -> lower c <> "c"%char -> stripChapterPrefix t = t).
Proof.
  intros t. split; [apply stripChapterPrefix_suffix|].
  intros c rest -> Hc.
  unfold stripChapterPrefix, replaceFirst.
  rewrite search_unfold, (matchAt_chapterPrefix_other c rest Hc).
  change reChapterPrefix
    with (Seq Bol (SeqL [Lit true "chapter"; Star true ws; Plus true digit;
                         Star true ws; Chr (isChar ":"%char); Star true ws])).
  rewrite search_anchored. reflexivity.
Qed.

Lemma stripChapterPrefix_returns_a_suffix_witness :
  lower "I"%char <> "c"%char /\ stripChapterPrefix "Introduction" = "Introduction".
Proof.
  assert (H : lower "I"%char <> "c"%char) by discriminate.
  split; [exact H|].
  exact (proj2 (stripChapterPrefix_returns_a_suffix "Introduction")
           "I"%char "ntroduction" eq_refl H).
Defined.

(** ** Decimal numerals *)

Section Decimals.
Import Book.

Lemma string_of_uint_inj (d d' : Decimal.uint) :
  DecimalString.NilEmpty.string_of_uint d = DecimalString.NilEmpty.string_of_uint d' -> d = d'.
Proof.
  intros H. pose proof (DecimalString.NilEmpty.usu d) as E. rewrite H, DecimalString.NilEmpty.usu in E.
  injection E as E. symmetry. exact E.
Qed.

Lemma decimal_inj (n m : nat) : decimal n = decimal m -> n = m.
Proof.
  intros H. apply DecimalNat.Unsigned.to_uint_inj, string_of_uint_inj, H.
Qed.

Lemma decimalN_inj (n m : N) : decimalN n = decimalN m -> n = m.
Proof.
  intros H. apply DecimalN.Unsigned.to_uint_inj, string_of_uint_inj, H.
Qed.

Lemma string_of_uint_digits (d : Decimal.uint) :
  allChars isDigit (DecimalString.NilEmpty.string_of_uint d) = true.
Proof. induction d; simpl; try rewrite IHd; reflexivity. Qed.

Lemma string_of_uint_nonempty (d : Decimal.uint) :
  d <> Decimal.Nil -> DecimalString.NilEmpty.string_of_uint d <> EmptyString.
Proof. destruct d; intros H; [contradiction|discriminate ..]. Qed.

Lemma to_uint_nonnil (n : nat) : Nat.to_uint n <> Decimal.Nil.
Proof.
  intros H. pose proof (DecimalNat.Unsigned.to_of (Nat.to_uint n)) as E.
  rewrite DecimalNat.Unsigned.of_to in E. rewrite H in E at 2.
  rewrite E in H. discriminate H.
Qed.

Lemma decimal_digits (n : nat) :
  allChars isDigit (decimal n) = true /\ decimal n <> EmptyString.
Proof.
  split; [apply string_of_uint_digits|].
  apply string_of_uint_nonempty, to_uint_nonnil.
Qed.

End Decimals.

(** ** The table-of-contents panel *)

Section Panel.
Import Book TocPanel.

Lemma handleEdit_ids (i t : string) (chapters : list Chapter) :
  map id (handleEdit i t chapters) = map id chapters.
Proof.
  unfold handleEdit. rewrite map_map. apply map_ext.
  intros ch. destruct (String.eqb (id ch) i); reflexivity.
Qed.

Lemma handleToggle_ids (i : string) (chapters : list Chapter) :
  map id (handleToggle i chapters) = map id chapters.
Proof.
  unfold handleToggle. rewrite map_map. apply map_ext.
  intros ch. destruct (String.eqb (id ch) i); reflexivity.
Qed.


(** A map that changes only the chapters with the id [i] changes nothing
    where no chapter has that id. *)
Lemma map_absent (i : string) (f : Chapter -> Chapter) (chapters : list Chapter) :
  ~ In i (map id chapters) ->
  map (fun ch => if String.eqb (id ch) i then f ch else ch) chapters = chapters.
Proof.
  induction chapters as [|ch chapters IH]; intros Hno; [reflexivity|].
  cbn [map]. destruct (String.eqb (id ch) i) eqn:E.
  - exfalso. apply Hno. left. apply String.eqb_eq, E.
  - rewrite IH; [reflexivity|]. intros H. apply Hno. right. exact H.
Qed.

Lemma handleDelete_absent (i : string) (chapters : list Chapter) :
  ~ In i (map id chapters) -> handleDelete i chapters = chapters.
Proof.
  induction chapters as [|ch chapters IH]; intros Hno; [reflexivity|].
  unfold handleDelete. cbn [filter]. destruct (String.eqb (id ch) i) eqn:E.
  - exfalso. apply Hno. left. apply String.eqb_eq, E.
  - cbn [negb]. f_equal. apply IH. intros H. apply Hno. right. exact H.
Qed.

Lemma handleDelete_ids (i : string) (chapters : list Chapter) :
  map id (handleDelete i chapters) =
  filter (fun j => negb (String.eqb j i)) (map id chapters).
Proof.
  unfold handleDelete. induction chapters as [|ch chapters IH]; [reflexivity|].
  cbn [filter map]. destruct (String.eqb (id ch) i); cbn [negb map];
    rewrite IH; reflexivity.
Qed.

Lemma handleDelete_gone (i : string) (chapters : list Chapter) :
  ~ In i (map id (handleDelete i chapters)).
Proof.
  rewrite handleDelete_ids. intros H. apply filter_In in H.
  destruct H as [_ H]. rewrite String.eqb_refl in H. discriminate H.
Qed.

Lemma handleDelete_length (i : string) (chapters : list Chapter) :
  List.length (handleDelete i chapters) +
  count_occ string_dec (map id chapters) i = List.length chapters.
Proof.
  unfold handleDelete. induction chapters as [|ch chapters IH]; [reflexivity|].
  cbn [filter map count_occ List.length].
  destruct (string_dec (id ch) i) as [E|E].
  - rewrite (proj2 (String.eqb_eq _ _) E). cbn [negb]. lia.
  - rewrite (proj2 (String.eqb_neq _ _) E). cbn [negb List.length]. lia.
Qed.

Lemma NoDup_filter (A : Type) (f : A -> bool) (l : list A) :
  NoDup l -> NoDup (filter f l).
Proof.
  induction 1 as [|x l Hx _ IH]; simpl; [constructor|].
  destruct (f x); [|exact IH]. constructor; [|exact IH].
  intros H. apply Hx. apply filter_In in H. apply H.
Qed.

End Panel.

(** X11.  [handleDelete] removes every chapter with the given id and no
    other: no chapter with the id is left, the list loses as many chapters as
    had the id, distinct ids stay distinct, and an id that no chapter has
    leaves the list as it is. *)
Theorem handleDelete_removes_every_chapter_with_the_id :
  forall (i : string) (chapters : list Book.Chapter),
    ~ In i (map Book.id (TocPanel.handleDelete i chapters)) /\
    (forall ch, In ch (TocPanel.handleDelete i chapters) <->
                In ch chapters /\ Book.id ch <> i) /\
    List.length (TocPanel.handleDelete i chapters) +
      count_occ string_dec (map Book.id chapters) i = List.length chapters /\
    (NoDup (map Book.id chapters) ->
     NoDup (map Book.id (TocPanel.handleDelete i chapters))) /\
    (~ In i (map Book.id chapters) -> TocPanel.handleDelete i chapters = chapters).
Proof.
  intros i chapters. split; [apply handleDelete_gone|].
  split; [|split; [apply handleDelete_length|split]].
  - intros ch. unfold TocPanel.handleDelete. rewrite filter_In.
    rewrite negb_true_iff, String.eqb_neq. reflexivity.
  - intros H. rewrite handleDelete_ids. apply NoDup_filter, H.
  - apply handleDelete_absent.
Qed.

Lemma handleDelete_removes_every_chapter_with_the_id_witness :
  NoDup (map Book.id [introChapter; draftChapter]) /\
  NoDup (map Book.id (TocPanel.handleDelete "chapter-1" [introChapter; draftChapter])) /\
  ~ In "chapter-9" (map Book.id [introChapter; draftChapter]) /\
  TocPanel.handleDelete "chapter-9" [introChapter; draftChapter] =
    [introChapter; draftChapter].
Proof.
  assert (Hnd : NoDup (map Book.id [introChapter; draftChapter])).
  { repeat constructor; simpl; intuition discriminate. }
  assert (Hno : ~ In "chapter-9" (map Book.id [introChapter; draftChapter])).
  { simpl. intuition discriminate. }
  split; [exact Hnd|]. split; [|split; [exact Hno|]].
  - exact (proj1 (proj2 (proj2 (proj2
      (handleDelete_removes_every_chapter_with_the_id
         "chapter-1" [introChapter; draftChapter])))) Hnd).
  - exact (proj2 (proj2 (proj2 (proj2
      (handleDelete_removes_every_chapter_with_the_id
         "chapter-9" [introChapter; draftChapter])))) Hno).
Defined.

Section PanelEdits.
Import Book TocPanel.

Lemma handleEdit_twice (i t0 t : string) (chapters : list Chapter) :
  handleEdit i t (handleEdit i t0 chapters) = handleEdit i t chapters.
Proof.
  unfold handleEdit. rewrite map_map. apply map_ext. intros ch.
  destruct (String.eqb (id ch) i) eqn:E; cbn [id]; rewrite E; reflexivity.
Qed.

Lemma handleEdit_commute (i j t u : string) (chapters : list Chapter) :
  i <> j ->
  handleEdit i t (handleEdit j u chapters) =
  handleEdit j u (handleEdit i t chapters).
Proof.
  intros Hij. unfold handleEdit. rewrite !map_map. apply map_ext. intros ch.
  destruct (String.eqb (id ch) j) eqn:Ej;
    destruct (String.eqb (id ch) i) eqn:Ei; cbn [id];
    rewrite ?Ej, ?Ei; try reflexivity.
  exfalso. apply Hij. apply String.eqb_eq in Ei, Ej. congruence.
Qed.

Lemma handleEdit_titles (i t : string) (chapters : list Chapter) :
  map title (handleEdit i t chapters) =
  map (fun ch => if String.eqb (id ch) i then t else title ch) chapters.
Proof.
  unfold handleEdit. rewrite map_map. apply map_ext. intros ch.
  destruct (String.eqb (id ch) i); reflexivity.
Qed.

Lemma handleEdit_In (i t : string) (chapters : list Chapter) (ch : Chapter) :
  In ch (handleEdit i t chapters) ->
  (id ch = i -> title ch = t) /\
  (id ch <> i -> In ch chapters).
Proof.
  unfold handleEdit. rewrite in_map_iff. intros [old [E Hin]].
  destruct (String.eqb (id old) i) eqn:Ei; subst ch; cbn [id title].
  - split; [reflexivity|]. intros H. exfalso. apply H, String.eqb_eq, Ei.
  - split; [|intros _; exact Hin].
    intros H. apply String.eqb_neq in Ei. contradiction.
Qed.

End PanelEdits.

(** X12.  [handleEdit] keeps the ids and the order of the chapters and gives
    the new title to the chapters with the given id and to no other; editing
    the same id again overrides the earlier edit, edits of different ids
    commute, and an id that no chapter has leaves the list as it is. *)
Theorem handleEdit_renames_the_chapters_with_the_id :
  forall (i t : string) (chapters : list Book.Chapter),
    map Book.id (TocPanel.handleEdit i t chapters) = map Book.id chapters /\
    map Book.title (TocPanel.handleEdit i t chapters) =
      map (fun ch => if String.eqb (Book.id ch) i then t else Book.title ch)
          chapters /\
    (forall ch, In ch (TocPanel.handleEdit i t chapters) ->
                Book.id ch <> i -> In ch chapters) /\
    (forall t0 : string,
       TocPanel.handleEdit i t (TocPanel.handleEdit i t0 chapters) =
       TocPanel.handleEdit i t chapters) /\
    (forall j u : string,
       i <> j ->
       TocPanel.handleEdit i t (TocPanel.handleEdit j u chapters) =
       TocPanel.handleEdit j u (TocPanel.handleEdit i t chapters)) /\
    (~ In i (map Book.id chapters) -> TocPanel.handleEdit i t chapters = chapters).
Proof.
  intros i t chapters.
  split; [apply handleEdit_ids|]. split; [apply handleEdit_titles|].
  split; [|split; [|split]].
  - intros ch Hin. apply (handleEdit_In i t chapters ch Hin).
  - intros t0. apply handleEdit_twice.
  - intros j u Hij. apply handleEdit_commute, Hij.
  - intros Hno. unfold TocPanel.handleEdit. apply map_absent, Hno.
Qed.

Lemma handleEdit_renames_the_chapters_with_the_id_witness :
  "chapter-1" <> "chapter-2" /\
  TocPanel.handleEdit "chapter-1" "One"
    (TocPanel.handleEdit "chapter-2" "Two" [introChapter; draftChapter]) =
  TocPanel.handleEdit "chapter-2" "Two"
    (TocPanel.handleEdit "chapter-1" "One" [introChapter; draftChapter]) /\
  ~ In "chapter-9" (map Book.id [introChapter; draftChapter]) /\
  TocPanel.handleEdit "chapter-9" "One" [introChapter; draftChapter] =
    [introChapter; draftChapter].
Proof.
  assert (Hij : "chapter-1" <> "chapter-2") by discriminate.
  assert (Hno : ~ In "chapter-9" (map Book.id [introChapter; draftChapter])).
  { simpl. intuition discriminate. }
  split; [exact Hij|]. split; [|split; [exact Hno|]].
  - exact (proj1 (proj2 (proj2 (proj2 (proj2
      (handleEdit_renames_the_chapters_with_the_id
         "chapter-1" "One" [introChapter; draftChapter])))))
      "chapter-2" "Two" Hij).
  - exact (proj2 (proj2 (proj2 (proj2 (proj2
      (handleEdit_renames_the_chapters_with_the_id
         "chapter-9" "One" [introChapter; draftChapter]))))) Hno).
Defined.

Section PanelToggle.
Import Book TocPanel.

(** The chapter with its flag made a boolean. *)
Lemma handleToggle_twice (i : string) (chapters : list Chapter) :
  handleToggle i (handleToggle i chapters) =
  map (fun ch =>
         if String.eqb (id ch) i
         then MkChapter (id ch) (title ch) (summary ch) (content ch)
                        (subtopics ch) (Some (truthyFlag (isExpanded ch)))
         else ch)
      chapters.
Proof.
  unfold handleToggle. rewrite map_map. apply map_ext. intros ch.
  destruct (String.eqb (id ch) i) eqn:E; cbn [id]; rewrite E; [|reflexivity].
  cbn [title summary content subtopics isExpanded truthyFlag].
  destruct (isExpanded ch) as [[|]|]; reflexivity.
Qed.

Lemma handleToggle_thrice (i : string) (chapters : list Chapter) :
  handleToggle i (handleToggle i (handleToggle i chapters)) =
  handleToggle i chapters.
Proof.
  rewrite handleToggle_twice. unfold handleToggle. rewrite map_map.
  apply map_ext. intros ch.
  destruct (String.eqb (id ch) i) eqn:E; cbn [id]; rewrite E; [|reflexivity].
  cbn [title summary content subtopics isExpanded truthyFlag].
  destruct (isExpanded ch) as [[|]|]; reflexivity.
Qed.

Lemma handleToggle_twice_defined (i : string) (chapters : list Chapter) :
  Forall (fun ch => id ch = i -> isExpanded ch <> None) chapters ->
  handleToggle i (handleToggle i chapters) = chapters.
Proof.
  intros H. rewrite handleToggle_twice.
  induction H as [|ch chapters Hch _ IH]; [reflexivity|].
  cbn [map]. rewrite IH. f_equal.
  destruct (String.eqb (id ch) i) eqn:E; [|reflexivity].
  apply String.eqb_eq in E. specialize (Hch E).
  destruct ch as [i0 t s c subs [[|]|]]; cbn in *; congruence.
Qed.

Lemma handleToggle_twice_undefined (i : string) (chapters : list Chapter)
    (ch : Chapter) :
  In ch chapters -> id ch = i -> isExpanded ch = None ->
  handleToggle i (handleToggle i chapters) <> chapters.
Proof.
  intros Hin Hid Hnone Heq.
  assert (G : Forall (fun c => id c = i -> isExpanded c <> None) chapters).
  { rewrite <- Heq, handleToggle_twice. apply Forall_forall.
    intros c Hc. apply in_map_iff in Hc. destruct Hc as [old [E _]].
    destruct (String.eqb (id old) i) eqn:Ei; subst c.
    - intros _. discriminate.
    - intros H. apply String.eqb_neq in Ei. contradiction. }
  rewrite Forall_forall in G. exact (G ch Hin Hid Hnone).
Qed.

End PanelToggle.

(** X13.  [handleToggle] keeps ids and titles and flips the flag of the
    chapters with the given id, and of no other: expanded becomes collapsed,
    collapsed or undefined becomes expanded.  Toggling three times is
    toggling once;
    toggling twice gives the list back when the chapters with the id have a
    defined [isExpanded], and does not when one of them has none. *)
Theorem handleToggle_is_an_involution_on_defined_flags :
  forall (i : string) (chapters : list Book.Chapter),
    map Book.id (TocPanel.handleToggle i chapters) = map Book.id chapters /\
    map Book.title (TocPanel.handleToggle i chapters) = map Book.title chapters /\
    map Book.isExpanded (TocPanel.handleToggle i chapters) =
      map (fun ch => if String.eqb (Book.id ch) i
                     then flipped (Book.isExpanded ch)
                     else Book.isExpanded ch) chapters /\
    TocPanel.handleToggle i
      (TocPanel.handleToggle i (TocPanel.handleToggle i chapters)) =
      TocPanel.handleToggle i chapters /\
    (Forall (fun ch => Book.id ch = i -> Book.isExpanded ch <> None) chapters ->
     TocPanel.handleToggle i (TocPanel.handleToggle i chapters) = chapters) /\
    (forall ch : Book.Chapter,
       In ch chapters -> Book.id ch = i -> Book.isExpanded ch = None ->
       TocPanel.handleToggle i (TocPanel.handleToggle i chapters) <> chapters) /\
    (forall ch : Book.Chapter,
       In ch (TocPanel.handleToggle i chapters) -> Book.id ch = i ->
       Book.isExpanded ch <> None).
Proof.
  intros i chapters. split; [apply handleToggle_ids|].
  split; [|split; [|split; [apply handleToggle_thrice|split; [|split]]]].
  - unfold TocPanel.handleToggle. rewrite map_map. apply map_ext.
    intros ch. destruct (String.eqb (Book.id ch) i); reflexivity.
  - unfold TocPanel.handleToggle. rewrite map_map. apply map_ext.
    intros ch. destruct (String.eqb (Book.id ch) i); [|reflexivity].
    cbn [Book.isExpanded]. destruct (Book.isExpanded ch) as [[|]|]; reflexivity.
  - apply handleToggle_twice_defined.
  - intros ch. apply handleToggle_twice_undefined.
  - intros ch Hin Hid. unfold TocPanel.handleToggle in Hin.
    apply in_map_iff in Hin. destruct Hin as [old [E _]].
    destruct (String.eqb (Book.id old) i) eqn:Ei; subst ch.
    + discriminate.
    + apply String.eqb_neq in Ei. contradiction.
Qed.

Lemma handleToggle_is_an_involution_on_defined_flags_witness :
  Forall (fun ch => Book.id ch = "chapter-1" -> Book.isExpanded ch <> None)
         [introChapter; draftChapter] /\
  TocPanel.handleToggle "chapter-1"
    (TocPanel.handleToggle "chapter-1" [introChapter; draftChapter]) =
    [introChapter; draftChapter] /\
  In draftChapter [introChapter; draftChapter] /\
  Book.isExpanded draftChapter = None /\
  TocPanel.handleToggle "chapter-2"
    (TocPanel.handleToggle "chapter-2" [introChapter; draftChapter]) <>
    [introChapter; draftChapter].
Proof.
  assert (Hdef : Forall (fun ch => Book.id ch = "chapter-1" ->
                                   Book.isExpanded ch <> None)
                        [introChapter; draftChapter]).
  { repeat constructor; simpl; intros H; discriminate. }
  assert (Hin : In draftChapter [introChapter; draftChapter])
    by (right; left; reflexivity).
  split; [exact Hdef|]. split; [|split; [exact Hin|split; [reflexivity|]]].
  - exact (proj1 (proj2 (proj2 (proj2 (proj2
      (handleToggle_is_an_involution_on_defined_flags
         "chapter-1" [introChapter; draftChapter]))))) Hdef).
  - exact (proj1 (proj2 (proj2 (proj2 (proj2 (proj2
      (handleToggle_is_an_involution_on_defined_flags
         "chapter-2" [introChapter; draftChapter]))))))
      draftChapter Hin eq_refl eq_refl).
Defined.

Section PanelAdd.
Import Book TocPanel.

Lemma append_inj_r (a x y : string) : a ++ x = a ++ y -> x = y.
Proof.
  induction a as [|c a IH]; simpl; intros H; [exact H|].
  injection H as H. apply IH, H.
Qed.

Lemma newChapter_id_inj (now later : N) :
  id (newChapter now) = id (newChapter later) -> now = later.
Proof.
  unfold newChapter. cbn [id]. intros H.
  apply decimalN_inj, (append_inj_r "chapter-"), H.
Qed.

Lemma handleAddChapter_ids (now : N) (chapters : list Chapter) :
  map id (handleAddChapter now chapters) =
  (map id chapters ++ [("chapter-" ++ decimalN now)%string])%list.
Proof. unfold handleAddChapter. rewrite map_app. reflexivity. Qed.

Lemma NoDup_snoc (A : Type) (l : list A) (x : A) :
  NoDup (l ++ [x]) <-> NoDup l /\ ~ In x l.
Proof.
  split.
  - intros H. apply NoDup_remove in H. rewrite app_nil_r in H. exact H.
  - intros [Hl Hx]. apply NoDup_app; [exact Hl|repeat constructor; intros []|].
    intros y Hy [<-|[]]. exact (Hx Hy).
Qed.

Lemma handleDelete_app (i : string) (a b : list Chapter) :
  handleDelete i (a ++ b) = (handleDelete i a ++ handleDelete i b)%list.
Proof. unfold handleDelete. apply filter_app. Qed.

End PanelAdd.

(** X14.  [handleAddChapter] puts a chapter with the id [chapter-] followed
    by the time stamp at the end.  The ids stay distinct exactly when they
    were distinct and the new id is not in use; different time stamps give
    different ids; two chapters added in the same millisecond share their
    id, and deleting that id then removes both. *)
Theorem handleAddChapter_ids_are_distinct_unless_same_millisecond :
  forall (now : N) (chapters : list Book.Chapter),
    map Book.id (TocPanel.handleAddChapter now chapters) =
      (map Book.id chapters ++ [("chapter-" ++ Book.decimalN now)%string])%list /\
    (NoDup (map Book.id (TocPanel.handleAddChapter now chapters)) <->
     NoDup (map Book.id chapters) /\
     ~ In ("chapter-" ++ Book.decimalN now) (map Book.id chapters)) /\
    (forall later : N,
       later <> now ->
       "chapter-" ++ Book.decimalN later <> "chapter-" ++ Book.decimalN now) /\
    ~ NoDup (map Book.id
               (TocPanel.handleAddChapter now
                  (TocPanel.handleAddChapter now chapters))) /\
    TocPanel.handleDelete ("chapter-" ++ Book.decimalN now)
      (TocPanel.handleAddChapter now (TocPanel.handleAddChapter now chapters)) =
    TocPanel.handleDelete ("chapter-" ++ Book.decimalN now) chapters.
Proof.
  intros now chapters.
  split; [apply handleAddChapter_ids|].
  split; [rewrite handleAddChapter_ids; apply NoDup_snoc|].
  split; [|split].
  - intros later Hne H. apply Hne, decimalN_inj, (append_inj_r "chapter-"), H.
  - rewrite handleAddChapter_ids, NoDup_snoc. intros [_ H]. apply H.
    rewrite handleAddChapter_ids. apply in_or_app. right. left. reflexivity.
  - unfold TocPanel.handleAddChapter. rewrite !handleDelete_app.
    unfold TocPanel.handleDelete at 2 3. cbn [filter].
    change (Book.id (TocPanel.newChapter now))
      with ("chapter-" ++ Book.decimalN now).
    rewrite String.eqb_refl. cbn [negb]. rewrite !app_nil_r. reflexivity.
Qed.

Lemma handleAddChapter_ids_are_distinct_unless_same_millisecond_witness :
  1700000000001%N <> 1700000000000%N /\
  "chapter-" ++ Book.decimalN 1700000000001 <>
  "chapter-" ++ Book.decimalN 1700000000000.
Proof.
  assert (Hne : 1700000000001%N <> 1700000000000%N) by discriminate.
  exact (conj Hne
    (proj1 (proj2 (proj2
      (handleAddChapter_ids_are_distinct_unless_same_millisecond
         1700000000000%N []))) 1700000000001%N Hne)).
Defined.

Section PanelSubtopics.
Import Book TocPanel.


End PanelSubtopics.



Section PanelSave.
Import Book TocPanel.

Lemma truthy_trim (s : string) : truthy (trim s) = negb (allChars isSpace s).
Proof.
  destruct (allChars isSpace s) eqn:E.
  - rewrite (trim_spaces s E). reflexivity.
  - unfold trim. rewrite trimStart_dropClass.
    pose proof (dropClass_head isSpace s) as Hhead.
    destruct (dropClass isSpace s) as [|c r] eqn:Ed.
    + apply dropClass_spaces in Ed. congruence.
    + cbn [headNot] in Hhead. apply negb_true_iff in Hhead.
      rewrite (trimEnd_nonspace c r Hhead). reflexivity.
Qed.

End PanelSave.

(** X16.  [handleSave] ignores an edit value that is empty or white space:
    the chapters and the editing flag stay as they are.  Any other value is
    trimmed, becomes the title of the chapters with the id of the row, and
    editing ends; the ids are kept. *)
Theorem handleSave_ignores_blank_titles :
  forall (editValue : string) (chapter : Book.Chapter)
         (chapters : list Book.Chapter) (isEditing : bool),
    (allChars isSpace editValue = true ->
     TocPanel.handleSave editValue chapter chapters isEditing =
       (chapters, isEditing)) /\
    (allChars isSpace editValue = false ->
     TocPanel.handleSave editValue chapter chapters isEditing =
       (TocPanel.handleEdit (Book.id chapter) (trim editValue) chapters, false) /\
     trim editValue <> EmptyString /\
     map Book.id (fst (TocPanel.handleSave editValue chapter chapters isEditing)) =
       map Book.id chapters /\
     map Book.title
         (fst (TocPanel.handleSave editValue chapter chapters isEditing)) =
       map (fun ch => if String.eqb (Book.id ch) (Book.id chapter)
                      then trim editValue else Book.title ch) chapters).
Proof.
  intros editValue chapter chapters isEditing.
  unfold TocPanel.handleSave. rewrite truthy_trim. split; intros H; rewrite H.
  - reflexivity.
  - cbn [negb fst]. split; [reflexivity|]. split; [|split].
    + pose proof (truthy_trim editValue) as T. rewrite H in T.
      intros E. rewrite E in T. discriminate T.
    + apply handleEdit_ids.
    + apply handleEdit_titles.
Qed.

Lemma handleSave_ignores_blank_titles_witness :
  allChars isSpace "   " = true /\
  TocPanel.handleSave "   " introChapter [introChapter; draftChapter] true =
    ([introChapter; draftChapter], true) /\
  allChars isSpace "  Preface " = false /\
  TocPanel.handleSave "  Preface " introChapter [introChapter; draftChapter] true =
    (TocPanel.handleEdit (Book.id introChapter) (trim "  Preface ")
       [introChapter; draftChapter], false).
Proof.
  split; [reflexivity|]. split; [|split; [reflexivity|]].
  - exact (proj1 (handleSave_ignores_blank_titles
                    "   " introChapter [introChapter; draftChapter] true)
                 eq_refl).
  - exact (proj1 (proj2 (handleSave_ignores_blank_titles
                    "  Preface " introChapter [introChapter; draftChapter] true)
                 eq_refl)).
Defined.

(** ** The placeholder table of contents *)

Section MockToc.
Import Book Api.

Lemma digits_then_other (a a' s s' : string) :
  allChars isDigit a = true -> allChars isDigit a' = true ->
  headNot isDigit s = true -> headNot isDigit s' = true ->
  a ++ s = a' ++ s' -> a = a' /\ s = s'.
Proof.
  revert a'. induction a as [|c a IH]; intros [|c' a'] Ha Ha' Hs Hs' E.
  - split; [reflexivity|exact E].
  - exfalso. cbn [append] in E. subst s. cbn [headNot allChars] in *.
    apply andb_true_iff in Ha'. destruct Ha' as [Hc _].
    rewrite Hc in Hs. discriminate Hs.
  - exfalso. cbn [append] in E. subst s'. cbn [headNot allChars] in *.
    apply andb_true_iff in Ha. destruct Ha as [Hc _].
    rewrite Hc in Hs'. discriminate Hs'.
  - cbn [append] in E. injection E as Ec E. cbn [allChars] in Ha, Ha'.
    apply andb_true_iff in Ha, Ha'.
    destruct (IH a' (proj2 Ha) (proj2 Ha') Hs Hs' E) as [-> ->].
    subst c'. split; reflexivity.
Qed.

Lemma idsOf_number (k : nat) (x : string) :
  In x (idsOf k) ->
  exists s, x = "ai-chapter-" ++ decimal k ++ s /\ headNot isDigit s = true.
Proof.
  intros [<-|[<-|[<-|[<-|[]]]]].
  - exists EmptyString. rewrite append_empty_r. split; reflexivity.
  - exists "-sub-1". split; reflexivity.
  - exists "-sub-2". split; reflexivity.
  - exists "-sub-3". split; reflexivity.
Qed.

Lemma idsOf_disjoint (k k' : nat) (x : string) :
  In x (idsOf k) -> In x (idsOf k') -> k = k'.
Proof.
  intros H H'. apply idsOf_number in H, H'.
  destruct H as [s [E Hs]]. destruct H' as [s' [E' Hs']].
  rewrite E in E'. apply (append_inj_r "ai-chapter-") in E'.
  apply decimal_inj.
  apply (digits_then_other (decimal k) (decimal k') s s');
    try assumption; apply decimal_digits.
Qed.

Lemma idsOf_NoDup (k : nat) : NoDup (idsOf k).
Proof.
  assert (D : forall s s' : string,
            s <> s' ->
            "ai-chapter-" ++ decimal k ++ s <> "ai-chapter-" ++ decimal k ++ s').
  { intros s s' Hne E. apply Hne.
    apply (append_inj_r (decimal k)), (append_inj_r "ai-chapter-"), E. }
  unfold idsOf. rewrite <- (append_empty_r (decimal k)) at 1.
  repeat constructor; cbn [In]; intros H;
    repeat (destruct H as [H|H]; [apply D in H; [exact H|discriminate]|]);
    exact H.
Qed.

Lemma allIds_generateToc_from (formData : BookFormData) (a n : nat) :
  allIds (map (mockChapter formData) (seq a n)) =
  flat_map (fun i => idsOf (i + 1)) (seq a n).
Proof.
  revert a. induction n as [|n IH]; intros a; [reflexivity|].
  cbn [seq map]. unfold allIds in *. cbn [flat_map]. rewrite IH. reflexivity.
Qed.

Lemma idsOf_seq_NoDup (a n : nat) :
  NoDup (flat_map (fun i => idsOf (i + 1)) (seq a n)).
Proof.
  revert a. induction n as [|n IH]; intros a; [constructor|].
  cbn [seq flat_map]. apply NoDup_app; [apply idsOf_NoDup|apply IH|].
  intros x Hx Hin. apply in_flat_map in Hin. destruct Hin as [b [Hb Hxb]].
  apply in_seq in Hb. pose proof (idsOf_disjoint _ _ _ Hx Hxb). lia.
Qed.

End MockToc.

(** X17.  The placeholder table of contents has as many chapters as asked
    for; the ids of its chapters and subtopics are all distinct; the chapter
    at index k has the id [ai-chapter-] and title [Chapter ...] numbered
    k + 1, is collapsed and has the three subtopics Introduction, Main
    Concepts and Practical Applications. *)
Theorem generateToc_gives_distinct_ids :
  forall formData : Api.BookFormData,
    List.length (Api.generateToc formData) = Api.numberOfChapters formData /\
    NoDup (allIds (Api.generateToc formData)) /\
    NoDup (map Book.id (Api.generateToc formData)) /\
    (forall k : nat,
       k < Api.numberOfChapters formData ->
       exists ch : Book.Chapter,
         nth_error (Api.generateToc formData) k = Some ch /\
         Book.id ch = "ai-chapter-" ++ Book.decimal (k + 1) /\
         Book.title ch =
           "Chapter " ++ Book.decimal (k + 1) ++ ": " ++ Api.topic formData ++
           " - Part " ++ Book.decimal (k + 1) /\
         Book.isExpanded ch = Some false /\
         map Book.title (subtopicList ch) =
           ["Introduction"; "Main Concepts"; "Practical Applications"]).
Proof.
  intros formData. unfold Api.generateToc.
  split; [rewrite length_map, length_seq; reflexivity|].
  assert (Hall : NoDup (allIds (map (Api.mockChapter formData)
                                    (seq 0 (Api.numberOfChapters formData))))).
  { rewrite allIds_generateToc_from. apply idsOf_seq_NoDup. }
  split; [exact Hall|]. split.
  - clear Hall. generalize 0 at 1.
    induction (Api.numberOfChapters formData) as [|n IH]; intros a;
      [constructor|].
    cbn [seq map]. constructor; [|apply IH].
    intros H. apply in_map_iff in H. destruct H as [ch [E Hch]].
    apply in_map_iff in Hch. destruct Hch as [b [<- Hb]].
    apply in_seq in Hb. cbn [Book.id Api.mockChapter] in E.
    apply (append_inj_r "ai-chapter-"), decimal_inj in E. lia.
  - intros k Hk. exists (Api.mockChapter formData k). split.
    + rewrite nth_error_map, nth_error_seq.
      apply Nat.ltb_lt in Hk. rewrite Hk. reflexivity.
    + repeat split.
Qed.

Lemma generateToc_gives_distinct_ids_witness :
  0 < Api.numberOfChapters
        (Api.Build_BookFormData "AI" 2 Api.formal false false false) /\
  exists ch : Book.Chapter,
    nth_error
      (Api.generateToc
         (Api.Build_BookFormData "AI" 2 Api.formal false false false)) 0 =
      Some ch /\
    Book.id ch = "ai-chapter-" ++ Book.decimal (0 + 1) /\
    Book.title ch =
      "Chapter " ++ Book.decimal (0 + 1) ++ ": " ++
      Api.topic (Api.Build_BookFormData "AI" 2 Api.formal false false false) ++
      " - Part " ++ Book.decimal (0 + 1) /\
    Book.isExpanded ch = Some false /\
    map Book.title (subtopicList ch) =
      ["Introduction"; "Main Concepts"; "Practical Applications"].
Proof.
  assert (Hk : 0 < Api.numberOfChapters
                     (Api.Build_BookFormData "AI" 2 Api.formal false false false))
    by (simpl; lia).
  exact (conj Hk
    (proj2 (proj2 (proj2
      (generateToc_gives_distinct_ids
         (Api.Build_BookFormData "AI" 2 Api.formal false false false))))
      0 Hk)).
Defined.

(** X18.  For every chapter of the placeholder table of contents the
    normalizer's removal of the chapter prefix turns the title
    [Chapter k: topic - Part k] into [topic - Part k] without leading white
    space, so the title candidates of such a chapter are the whole title and
    that text. *)
Theorem generated_titles_lose_their_chapter_prefix :
  forall (formData : Api.BookFormData) (ch : Book.Chapter),
    In ch (Api.generateToc formData) ->
    exists k : nat,
      1 <= k <= Api.numberOfChapters formData /\
      Book.title ch =
        "Chapter " ++ Book.decimal k ++ ": " ++ Api.topic formData ++
        " - Part " ++ Book.decimal k /\
      stripChapterPrefix (Book.title ch) =
        trimStart (Api.topic formData ++ " - Part " ++ Book.decimal k) /\
      titleCandidates (Some (Book.title ch)) =
        [Book.title ch;
         trimStart (Api.topic formData ++ " - Part " ++ Book.decimal k)].
Proof.
  intros formData ch Hin. unfold Api.generateToc in Hin.
  apply in_map_iff in Hin. destruct Hin as [i [<- Hi]]. apply in_seq in Hi.
  exists (i + 1). split; [lia|]. split; [reflexivity|].
  assert (E : stripChapterPrefix (Book.title (Api.mockChapter formData i)) =
              trimStart (Api.topic formData ++ " - Part " ++ Book.decimal (i + 1))).
  { cbn [Book.title Api.mockChapter].
    set (body := String " "%char
                   (Api.topic formData ++ " - Part " ++ Book.decimal (i + 1))).
    destruct (decimal_digits (i + 1)) as [Hds Hne].
    destruct (run_chapterPrefix "Chapter" " " (Book.decimal (i + 1))
                EmptyString body
                (S (String.length
                      ("Chapter" ++ " " ++ Book.decimal (i + 1) ++
                       EmptyString ++ String ":"%char body)))
                eq_refl eq_refl Hds Hne eq_refl (Nat.lt_succ_diag_r _))
      as [pv Erun].
    change ("Chapter " ++ Book.decimal (i + 1) ++ ": " ++ Api.topic formData ++
            " - Part " ++ Book.decimal (i + 1))
      with ("Chapter" ++ " " ++ Book.decimal (i + 1) ++ EmptyString ++
            String ":"%char body).
    unfold stripChapterPrefix, replaceFirst.
    rewrite search_unfold. unfold matchAt. rewrite Erun.
    cbn [after]. rewrite trimStart_dropClass. unfold body. reflexivity. }
  split; [exact E|].
  unfold titleCandidates. cbn [truthyOpt].
  destruct (Book.title (Api.mockChapter formData i)) eqn:Et;
    [discriminate Et|].
  cbn [truthy]. rewrite E. reflexivity.
Qed.

Lemma generated_titles_lose_their_chapter_prefix_witness :
  In (Api.mockChapter
        (Api.Build_BookFormData "AI" 2 Api.formal false false false) 1)
     (Api.generateToc
        (Api.Build_BookFormData "AI" 2 Api.formal false false false)) /\
  exists k : nat,
    1 <= k <= 2 /\
    Book.title
      (Api.mockChapter
         (Api.Build_BookFormData "AI" 2 Api.formal false false false) 1) =
      "Chapter " ++ Book.decimal k ++ ": " ++ "AI" ++ " - Part " ++
      Book.decimal k /\
    stripChapterPrefix
      (Book.title
         (Api.mockChapter
            (Api.Build_BookFormData "AI" 2 Api.formal false false false) 1)) =
      trimStart ("AI" ++ " - Part " ++ Book.decimal k) /\
    titleCandidates
      (Some (Book.title
         (Api.mockChapter
            (Api.Build_BookFormData "AI" 2 Api.formal false false false) 1))) =
      [Book.title
         (Api.mockChapter
            (Api.Build_BookFormData "AI" 2 Api.formal false false false) 1);
       trimStart ("AI" ++ " - Part " ++ Book.decimal k)].
Proof.
  assert (Hin : In (Api.mockChapter
                      (Api.Build_BookFormData "AI" 2 Api.formal false false false) 1)
                   (Api.generateToc
                      (Api.Build_BookFormData "AI" 2 Api.formal false false false)))
    by (right; left; reflexivity).
  exact (conj Hin
    (generated_titles_lose_their_chapter_prefix
       (Api.Build_BookFormData "AI" 2 Api.formal false false false)
       (Api.mockChapter
          (Api.Build_BookFormData "AI" 2 Api.formal false false false) 1)
       Hin)).
Defined.

(** ** The placeholder book *)

Section MockBook.
Import Book Api.

Lemma allChars_app_false (p : ascii -> bool) (a b : string) :
  allChars p b = false -> allChars p (a ++ b) = false.
Proof. intros H. rewrite allChars_app, H. apply andb_false_r. Qed.

Lemma trimEnd_app_nonspace (a b : string) :
  allChars isSpace b = false -> trimEnd (a ++ b) = a ++ trimEnd b.
Proof.
  intros Hb. induction a as [|c a IH]; [reflexivity|].
  cbn [append]. rewrite trimEnd_cons, IH.
  destruct (a ++ trimEnd b) as [|d r] eqn:E; [|reflexivity].
  exfalso. destruct a; [|discriminate E]. cbn [append] in E.
  apply trimEnd_spaces in E. congruence.
Qed.

Lemma subtopicsText_sections (ch : Chapter) :
  subtopicsText ch = subtopicSections ch.
Proof. reflexivity. Qed.

Ltac peel :=
  repeat (rewrite trimEnd_app_nonspace
            by (repeat (first [reflexivity | apply allChars_app_false]))).

Lemma trim_contentTemplate (ch : Chapter) (formData : BookFormData) :
  trim (contentTemplate ch formData) = generatedContent formData ch.
Proof.
  unfold trim.
  change (trimStart (contentTemplate ch formData))
    with ("# " ++ title ch ++ nl ++ nl ++
          "This is the generated content for **" ++ title ch ++
          "** written in a " ++ toneName (tone formData) ++ " tone." ++
          nl ++ nl ++ "## Overview" ++ nl ++ nl ++
          "Lorem ipsum dolor sit amet, consectetur adipiscing elit. Sed do eiusmod tempor incididunt ut labore et dolore magna aliqua. Ut enim ad minim veniam, quis nostrud exercitation ullamco laboris." ++
          nl ++ nl ++ subtopicSections ch ++ nl ++ nl ++
          "## Conclusion" ++ nl ++ nl ++
          "Vestibulum ac diam sit amet quam vehicula elementum sed sit amet dui. Curabitur arcu erat, accumsan id imperdiet et, porttitor at sem." ++
          nl ++ nl ++ summaryText formData ++ nl ++ "    ").
  unfold generatedContent, summaryText.
  destruct (includeSummaries formData); peel; reflexivity.
Qed.

End MockBook.

(** X19.  [writeBook] keeps the ids, titles, subtopics and flags of the
    chapters, in order, and gives each chapter its content: the template
    without the white space around it, which starts with [# ] and the title
    and ends with the conclusion or, when summaries are asked for, with the
    summary; a chapter without the property [subtopics] gets the text
    [undefined] in the place of its sections. *)
Theorem writeBook_keeps_the_table_and_writes_the_content :
  forall (mergedToc : list Book.Chapter) (formData : Api.BookFormData),
    map Book.id (Api.writeBook mergedToc formData) = map Book.id mergedToc /\
    map Book.title (Api.writeBook mergedToc formData) =
      map Book.title mergedToc /\
    map Book.subtopics (Api.writeBook mergedToc formData) =
      map Book.subtopics mergedToc /\
    map Book.isExpanded (Api.writeBook mergedToc formData) =
      map Book.isExpanded mergedToc /\
    map Book.content (Api.writeBook mergedToc formData) =
      map (fun ch => Some (generatedContent formData ch)) mergedToc.
Proof.
  intros mergedToc formData. unfold Api.writeBook.
  rewrite !map_map. repeat split; apply map_ext; intros ch;
    try reflexivity.
  cbn [Book.content Api.writeChapter]. rewrite trim_contentTemplate.
  reflexivity.
Qed.

(** X20.  [handleMergeAndContinue] with no chapter at all leaves the store as
    it is and shows one error.  Otherwise, whether [writeBook] succeeds or
    fails, the loading flag is cleared at the end, the merged table is the
    generated chapters followed by the user's, and the two tables themselves
    are untouched; the generated chapters are stored and the preview opened
    only on success.  With the placeholder [writeBook] the stored chapters
    have the ids of the merged table and all have content. *)
Theorem handleMergeAndContinue_clears_the_loading_flag :
  forall (api : list Book.Chapter -> Api.BookFormData -> option (list Book.Chapter))
         (st : Workspace.BookStore),
    (Workspace.aiGeneratedToc st = [] -> Workspace.userCreatedToc st = [] ->
     Workspace.handleMergeAndContinue api st =
       (st, [Workspace.ToastError
               "Please create or generate at least one chapter"])) /\
    ((Workspace.aiGeneratedToc st ++ Workspace.userCreatedToc st)%list <> [] ->
     Workspace.isLoading (fst (Workspace.handleMergeAndContinue api st)) = false /\
     Workspace.loadingMessage (fst (Workspace.handleMergeAndContinue api st)) =
       EmptyString /\
     Workspace.mergedToc (fst (Workspace.handleMergeAndContinue api st)) =
       (Workspace.aiGeneratedToc st ++ Workspace.userCreatedToc st)%list /\
     Workspace.aiGeneratedToc (fst (Workspace.handleMergeAndContinue api st)) =
       Workspace.aiGeneratedToc st /\
     Workspace.userCreatedToc (fst (Workspace.handleMergeAndContinue api st)) =
       Workspace.userCreatedToc st /\
     match api (Workspace.aiGeneratedToc st ++ Workspace.userCreatedToc st)%list
               (Workspace.formData st) with
     | Some chapters =>
         Workspace.generatedChapters
           (fst (Workspace.handleMergeAndContinue api st)) = chapters /\
         snd (Workspace.handleMergeAndContinue api st) =
           [Workspace.ToastSuccess "Book generated successfully!";
            Workspace.Navigate "/preview"]
     | None =>
         Workspace.generatedChapters
           (fst (Workspace.handleMergeAndContinue api st)) =
           Workspace.generatedChapters st /\
         snd (Workspace.handleMergeAndContinue api st) =
           [Workspace.ToastError "Failed to generate book. Please try again."]
     end) /\
    ((Workspace.aiGeneratedToc st ++ Workspace.userCreatedToc st)%list <> [] ->
     map Book.id
       (Workspace.generatedChapters
          (fst (Workspace.handleMergeAndContinue Workspace.mockApi st))) =
       (map Book.id (Workspace.aiGeneratedToc st) ++
        map Book.id (Workspace.userCreatedToc st))%list /\
     Forall (fun ch => Book.content ch <> None)
       (Workspace.generatedChapters
          (fst (Workspace.handleMergeAndContinue Workspace.mockApi st)))).
Proof.
  intros api st. split; [|split].
  - intros Ha Hu. unfold Workspace.handleMergeAndContinue.
    rewrite Ha, Hu. reflexivity.
  - intros Hne. unfold Workspace.handleMergeAndContinue.
    destruct (Workspace.aiGeneratedToc st ++ Workspace.userCreatedToc st)%list
      as [|ch merged] eqn:E; [contradiction|].
    cbn [List.length Nat.eqb].
    cbn [Workspace.formData Workspace.setLoading Workspace.setMergedToc].
    destruct (api (ch :: merged) (Workspace.formData st)) as [chapters|];
      repeat split.
  - intros Hne. unfold Workspace.handleMergeAndContinue, Workspace.mockApi.
    destruct (Workspace.aiGeneratedToc st ++ Workspace.userCreatedToc st)%list
      as [|ch merged] eqn:E; [contradiction|].
    cbn [List.length Nat.eqb fst Workspace.generatedChapters
         Workspace.setLoading Workspace.setGeneratedChapters].
    split.
    + unfold Api.writeBook. rewrite map_map.
      rewrite <- map_app, E. apply map_ext. reflexivity.
    + unfold Api.writeBook. apply Forall_forall. intros c Hc.
      apply in_map_iff in Hc. destruct Hc as [old [<- _]]. discriminate.
Qed.

Lemma handleMergeAndContinue_clears_the_loading_flag_witness :
  ([introChapter] ++ [draftChapter])%list <> [] /\
  Workspace.isLoading
    (fst (Workspace.handleMergeAndContinue Workspace.mockApi
            (Workspace.Build_BookStore
               (Api.Build_BookFormData "AI" 2 Api.formal false false false)
               [introChapter] [draftChapter] [] [] true "Loading"))) = false /\
  map Book.id
    (Workspace.generatedChapters
       (fst (Workspace.handleMergeAndContinue Workspace.mockApi
               (Workspace.Build_BookStore
                  (Api.Build_BookFormData "AI" 2 Api.formal false false false)
                  [introChapter] [draftChapter] [] [] true "Loading")))) =
    (map Book.id [introChapter] ++ map Book.id [draftChapter])%list.
Proof.
  assert (Hne : ([introChapter] ++ [draftChapter])%list <> []) by discriminate.
  split; [exact Hne|]. split.
  - exact (proj1 (proj1 (proj2
      (handleMergeAndContinue_clears_the_loading_flag Workspace.mockApi
         (Workspace.Build_BookStore
            (Api.Build_BookFormData "AI" 2 Api.formal false false false)
            [introChapter] [draftChapter] [] [] true "Loading"))) Hne)).
  - exact (proj1 (proj2 (proj2
      (handleMergeAndContinue_clears_the_loading_flag Workspace.mockApi
         (Workspace.Build_BookStore
            (Api.Build_BookFormData "AI" 2 Api.formal false false false)
            [introChapter] [draftChapter] [] [] true "Loading"))) Hne)).
Defined.

(** ** The first revision of the normalizer *)

Section FirstRevisionLines.

Lemma includes_nonempty (needle : string) :
  needle <> EmptyString -> includes needle EmptyString = false.
Proof. destruct needle; [contradiction|reflexivity]. Qed.

Lemma step_pushes_one (st : FirstRevision.state) (l : string) :
  exists x : string,
    FirstRevision.result (FirstRevision.step st l) =
      (FirstRevision.result st ++ [x])%list /\
    (x = "<h2>" ++ trim (trimEnd l) ++ "</h2>" \/
     x = "<h3>" ++ trim (trimEnd l) ++ "</h3>" \/
     x = trimEnd l).
Proof.
  unfold FirstRevision.step.
  destruct (negb (FirstRevision.firstHeadingDone st) && _).
  { eexists. split; [reflexivity|]. left. reflexivity. }
  destruct (test reNumbered _).
  { eexists. split; [reflexivity|]. right. left. reflexivity. }
  destruct (looksLikeHeading _).
  { eexists. split; [reflexivity|]. right. left. reflexivity. }
  eexists. split; [reflexivity|]. right. right. reflexivity.
Qed.

Lemma fold_step_lines (lines : list string) (st : FirstRevision.state) :
  exists pushed : list string,
    FirstRevision.result (fold_left FirstRevision.step lines st) =
      (FirstRevision.result st ++ pushed)%list /\
    Forall2
      (fun l x =>
         x = "<h2>" ++ trim (trimEnd l) ++ "</h2>" \/
         x = "<h3>" ++ trim (trimEnd l) ++ "</h3>" \/
         x = trimEnd l)
      lines pushed.
Proof.
  revert st. induction lines as [|l lines IH]; intros st.
  - exists []. split; [rewrite List.app_nil_r; reflexivity|constructor].
  - cbn [fold_left].
    destruct (step_pushes_one st l) as [x [Ex Hx]].
    destruct (IH (FirstRevision.step st l)) as [pushed [Ep Hp]].
    exists (x :: pushed). split.
    + rewrite Ep, Ex, <- List.app_assoc. reflexivity.
    + constructor; assumption.
Qed.

End FirstRevisionLines.

(** X21.  The first revision of the normalizer pushes exactly one line per
    input line, in order: the trimmed line inside [<h2>] or [<h3>] without
    attributes, or the line itself without trailing white space; and it
    returns an input that contains [<h2] or [<h3] as it is. *)
Theorem first_revision_keeps_every_line :
  forall lines : list string,
    Forall2
      (fun l x =>
         x = "<h2>" ++ trim (trimEnd l) ++ "</h2>" \/
         x = "<h3>" ++ trim (trimEnd l) ++ "</h3>" \/
         x = trimEnd l)
      lines (FirstRevision.pushedLines lines) /\
    List.length (FirstRevision.pushedLines lines) = List.length lines /\
    (forall raw : string,
       includes "<h2" raw = true \/ includes "<h3" raw = true ->
       FirstRevision.formatChapterContent raw = raw).
Proof.
  intros lines.
  destruct (fold_step_lines lines (FirstRevision.State [] false))
    as [pushed [E H]].
  unfold FirstRevision.pushedLines. rewrite E. cbn [FirstRevision.result app].
  split; [exact H|]. split.
  - symmetry. apply (Forall2_length H).
  - intros raw Hraw. unfold FirstRevision.formatChapterContent.
    destruct raw as [|c raw].
    + destruct Hraw as [Hraw|Hraw]; discriminate Hraw.
    + cbn [truthy negb]. destruct Hraw as [-> | ->];
        rewrite ?orb_true_r; reflexivity.
Qed.

Lemma first_revision_keeps_every_line_witness :
  (includes "<h2" "<p>a</p><h2>b</h2>" = true \/
   includes "<h3" "<p>a</p><h2>b</h2>" = true) /\
  FirstRevision.formatChapterContent "<p>a</p><h2>b</h2>" = "<p>a</p><h2>b</h2>".
Proof.
  assert (H : includes "<h2" "<p>a</p><h2>b</h2>" = true \/
              includes "<h3" "<p>a</p><h2>b</h2>" = true)
    by (left; reflexivity).
  exact (conj H
    (proj2 (proj2 (first_revision_keeps_every_line [])) "<p>a</p><h2>b</h2>" H)).
Defined.
